(** * IA Management System: HOD overview and department analytics

    A shallow embedding of the two aggregation handlers of the Node.js
    backend,

    - [router.get('/overview')] and [router.post('/faculty')] of the HOD
      routes, and
    - [router.get('/department/:dept/stats')] of
      [backend-nodejs/src/routes/analytics.js],

    together with the properties of their results.

    Modelling choices.
    - A JavaScript number is the rational ([Q]) that is its exact value.  The
      modules [Overview], [Analytics] and [Spec] compute with exact
      arithmetic, which decides the bands, thresholds, counts and ids; the
      modules [B64], [Overview64], [Analytics64] and [Spec64] round every
      sum, product and quotient to binary64, as the code does, and carry
      the statements about the decimals that [toFixed(1)] prints.  Overflow,
      NaN and the exponent notation that [toFixed] switches to from 1e21 on
      are outside the model.  A missing ([null], [undefined]) field is
      [None].
    - A plain object used as a dictionary is an association list of its own
      properties in creation order; its enumeration ([Object.keys],
      [Object.values], [Object.entries]) follows ECMAScript's
      OrdinaryOwnPropertyKeys: array-index keys in ascending numeric order
      first, then the other string keys in creation order.  Keys that collide
      with the members of [Object.prototype] are outside the model.
    - [new Date().toLocaleDateString()] is a parameter [today].
    - The Sequelize queries are filters over in-memory tables. *)

From Stdlib Require Import ZArith NArith QArith Qround Qabs.
From Stdlib Require Import String Ascii List Bool Lia Lqa Arith.
From Stdlib Require Import Permutation Sorted DecimalString SpecFloat.
Import ListNotations.

Local Open Scope string_scope.

(** ** JavaScript values *)

Module Js.

(** [x || d] on a number field: [null], [undefined] and [0] are falsy. *)
Definition orNum (x : option Q) (d : Q) : Q :=
  match x with
  | Some q => if Qeq_bool q 0 then d else q
  | None => d
  end.

(** [x || d] on a string: [undefined] and the empty string are falsy. *)
Definition orStr (x : option string) (d : string) : string :=
  match x with
  | Some "" => d
  | Some s => s
  | None => d
  end.

(** [a < b] and [a >= b] on numbers. *)
Definition lt (a b : Q) : bool := negb (Qle_bool b a).
Definition ge (a b : Q) : bool := Qle_bool b a.

(** Template rendering of a non-negative integer. *)
Definition showN (n : N) : string := NilZero.string_of_uint (N.to_uint n).
Definition showNat (n : nat) : string := showN (N.of_nat n).

(** The decimal string produced by [x.toFixed(1)]: a sign and a number of
    tenths.  [toFixed] picks the integer [n] with [n / 10] closest to [|x|],
    the larger one on a tie, and prefixes "-" when [x < 0]. *)
Record Fixed1 : Type := mkFixed1 { negative : bool; tenths : N }.

Definition toFixed1 (x : Q) : Fixed1 :=
  {| negative := lt x 0;
     tenths := Z.to_N (Qfloor (Qabs x * 10 + (1 # 2))) |}.

Definition showFixed1 (d : Fixed1) : string :=
  (if negative d then "-" else "")
    ++ showN (tenths d / 10) ++ "." ++ showN (tenths d mod 10).

(** A value that is either such a decimal string or a number, as the two
    branches of [n > 0 ? x.toFixed(1) : 0] are. *)
Inductive StrOrNum : Type :=
| Str (d : Fixed1)
| Num (q : Q).

Definition parseFloat (v : StrOrNum) : Q :=
  match v with
  | Str d =>
      if negative d then (- Z.of_N (tenths d)) # 10 else Z.of_N (tenths d) # 10
  | Num q => q
  end.

(** [array.reduce((a, b) => a + b, 0)] *)
Definition sum (l : list Q) : Q := fold_left Qplus l 0.

End Js.

(** ** Plain objects used as dictionaries *)

Module Obj.

Definition digit (c : ascii) : option N :=
  let n := N_of_ascii c in
  if ((48 <=? n) && (n <=? 57))%N then Some (n - 48)%N else None.

Fixpoint parseDigits (s : string) (acc : N) : option N :=
  match s with
  | EmptyString => Some acc
  | String c r =>
      match digit c with
      | Some d => parseDigits r (10 * acc + d)%N
      | None => None
      end
  end.

(** A property key is an array index when it is the canonical decimal
    string of an integer below 2^32 - 1. *)
Definition arrayIndex (k : string) : option N :=
  match k with
  | EmptyString => None
  | String "0" EmptyString => Some 0%N
  | String "0" _ => None
  | _ =>
      match parseDigits k 0 with
      | Some n => if (n <? 4294967295)%N then Some n else None
      | None => None
      end
  end.

Definition isIndex (k : string) : bool :=
  match arrayIndex k with Some _ => true | None => false end.

Definition indexOf (k : string) : N :=
  match arrayIndex k with Some n => n | None => 0%N end.

Section Dict.
Context {V : Type}.

(** Own properties, oldest first. *)
Definition t := list (string * V).

Definition empty : t := [].

Fixpoint get (o : t) (k : string) : option V :=
  match o with
  | [] => None
  | (k', v) :: r => if String.eqb k' k then Some v else get r k
  end.

(** [o[k] = v]: overwrite in place, or create the property last. *)
Fixpoint set (o : t) (k : string) (v : V) : t :=
  match o with
  | [] => [(k, v)]
  | (k', v') :: r =>
      if String.eqb k' k then (k', v) :: r else (k', v') :: set r k v
  end.

Fixpoint insertIdx (e : string * V) (l : t) : t :=
  match l with
  | [] => [e]
  | e' :: r =>
      if (indexOf (fst e) <=? indexOf (fst e'))%N then e :: l
      else e' :: insertIdx e r
  end.

Fixpoint sortIdx (l : t) : t :=
  match l with
  | [] => []
  | e :: r => insertIdx e (sortIdx r)
  end.

(** The order of two array-index properties. *)
Definition idxLe (e e' : string * V) : Prop :=
  (indexOf (fst e) <= indexOf (fst e'))%N.

(** [Object.entries(o)] *)
Definition entries (o : t) : t :=
  (sortIdx (filter (fun e => isIndex (fst e)) o)
     ++ filter (fun e => negb (isIndex (fst e))) o)%list.

(** [Object.keys(o)] and [Object.values(o)] *)
Definition keys (o : t) : list string := map fst (entries o).
Definition values (o : t) : list V := map snd (entries o).

End Dict.

Arguments t : clear implicits.

(** The enumeration order of the keys [ks], created in that order. *)
Definition order (ks : list string) : list string :=
  keys (map (fun k => (k, tt)) ks).

(** The grouping idiom of the handlers,
    [if (!o[k]) o[k] = fresh; o[k] = update(o[k])], as one step. *)
Definition upsert {M V : Type} (key : M -> string) (new : M -> V)
    (upd : V -> M -> V) (o : t V) (m : M) : t V :=
  set o (key m)
      (upd (match get o (key m) with Some v => v | None => new m end) m).

(** The value that the grouping gives to key [k]: the updates of the
    records of [k], in order, applied to the fresh value made for the first
    of them. *)
Definition grouped {M V : Type} (key : M -> string) (new : M -> V)
    (upd : V -> M -> V) (ms : list M) (k : string) : option V :=
  match filter (fun m => String.eqb (key m) k) ms with
  | [] => None
  | m0 :: r => Some (fold_left upd (m0 :: r) (new m0))
  end.

End Obj.

(** ** Data model

    The Sequelize models of [../models] are not among the sources; the
    records below hold the fields that the handlers read and write. *)

Module Subject.
(** Modelled from the spec: the [Subject] model, with the subject's name and
    department. *)
Record t : Type := mk { name : string; department : string }.
End Subject.

Module Student.
(** Modelled from the spec: the [Student] model, with the display name. *)
Record t : Type := mk { name : string }.
End Student.

Module Mark.
(** Modelled from the spec: a [CIEMark] row with its two joined
    associations, either of which may be missing, and with numeric fields
    that may be absent.  [studentId] is the property key that the id
    converts to when it indexes an object (the decimal string of an integer
    id). *)
Record t : Type := mk {
  studentId : string;
  marks : option Q;
  maxMarks : option Q;
  status : string;
  subject : option Subject.t;
  student : option Student.t
}.
End Mark.

Module User.
(** Modelled from the spec: the [User] model, with the fields that
    [POST /faculty] writes. *)
Record t : Type := mk {
  username : option string;
  fullName : option string;
  email : option string;
  password : string;
  role : string;
  department : option string;
  associatedId : option string
}.
End User.

(** An alert of the overview: [{ id, type, message, date }]. *)
Module Alert.
Inductive severity : Type := warning | critical | info.
Record t : Type := mk {
  id : nat;
  type : severity;
  message : string;
  date : string
}.
End Alert.

(** The tables behind the models. *)
Record Db : Type := mkDb { cieMarks : list Mark.t; users : list User.t }.

Definition optEqb (a : option string) (b : string) : bool :=
  match a with Some x => String.eqb x b | None => false end.

(** [CIEMark.findAll] with the subject included under
    [where: { department: dept }]: an inner join, so only rows whose subject
    exists and belongs to the department are returned. *)
Definition CIEMark_findAll (db : Db) (dept : string) : list Mark.t :=
  filter (fun m => match Mark.subject m with
                   | Some s => String.eqb (Subject.department s) dept
                   | None => false
                   end) (cieMarks db).

(** [User.count({ where: { role: 'FACULTY', department: dept } })] *)
Definition User_countFaculty (db : Db) (dept : string) : nat :=
  length (filter (fun u => String.eqb (User.role u) "FACULTY"
                           && optEqb (User.department u) dept) (users db)).

(** ** GET /overview *)

Module Overview.

Record Grades : Type := mkGrades {
  gradeA : nat; gradeB : nat; gradeC : nat; gradeD : nat; gradeF : nat
}.

Definition score (m : Mark.t) : Q := Js.orNum (Mark.marks m) 0.

Definition percent (m : Mark.t) : Q :=
  (score m / Js.orNum (Mark.maxMarks m) 50) * 100.

(** The body of the first [marks.forEach]. *)
Definition gradeStep (g : Grades) (m : Mark.t) : Grades :=
  let p := percent m in
  if Js.ge p 80 then
    mkGrades (S (gradeA g)) (gradeB g) (gradeC g) (gradeD g) (gradeF g)
  else if Js.ge p 60 then
    mkGrades (gradeA g) (S (gradeB g)) (gradeC g) (gradeD g) (gradeF g)
  else if Js.ge p 40 then
    mkGrades (gradeA g) (gradeB g) (S (gradeC g)) (gradeD g) (gradeF g)
  else if Js.ge p 20 then
    mkGrades (gradeA g) (gradeB g) (gradeC g) (S (gradeD g)) (gradeF g)
  else
    mkGrades (gradeA g) (gradeB g) (gradeC g) (gradeD g) (S (gradeF g)).

Definition grades (marks : list Mark.t) : Grades :=
  fold_left gradeStep marks (mkGrades 0 0 0 0 0).

Record GradeDistribution : Type := mkDist {
  labels : list string;
  data : list nat
}.

Definition gradeDistribution (marks : list Mark.t) : GradeDistribution :=
  let g := grades marks in
  {| labels := ["A (80%+)"; "B (60-79%)"; "C (40-59%)"; "D (20-39%)"; "F (<20%)"];
     data := [gradeA g; gradeB g; gradeC g; gradeD g; gradeF g] |}.

(** *** Students at risk *)

Module Entry.
Record t : Type := mk {
  student : option Student.t;
  scores : list Q;
  subjects : list string
}.
End Entry.

(** [Set.prototype.add] *)
Definition setAdd (s : list string) (x : string) : list string :=
  if existsb (String.eqb x) s then s else (s ++ [x])%list.

(** The body of the second [marks.forEach]: the entry of the student is
    created on the student's first record and updated in place by every
    record. *)
Definition studentStep (o : Obj.t Entry.t) (m : Mark.t) : Obj.t Entry.t :=
  let key := Mark.studentId m in
  let e := match Obj.get o key with
           | Some e => e
           | None => Entry.mk (Mark.student m) [] []
           end in
  Obj.set o key
    (Entry.mk (Entry.student e)
              (Entry.scores e ++ [score m])%list
              (match Mark.subject m with
               | Some s => setAdd (Entry.subjects e) (Subject.name s)
               | None => Entry.subjects e
               end)).

Definition studentMarksMap (marks : list Mark.t) : Obj.t Entry.t :=
  fold_left studentStep marks Obj.empty.

Definition mean (scores : list Q) : Q :=
  Js.sum scores / inject_Z (Z.of_nat (length scores)).

(** The mutable variables of the handler from [alerts] on. *)
Record State : Type := mkState {
  atRiskCount : nat;
  alerts : list Alert.t;
  alertId : nat
}.

Definition lowAverage (today : string) (i : nat) (who : string) (avg : Q)
  : Alert.t :=
  Alert.mk i Alert.warning
    (who ++ " has low average (" ++ Js.showFixed1 (Js.toFixed1 avg) ++ "/50)")
    today.

(** The body of [Object.values(studentMarksMap).forEach]. *)
Definition riskStep (today : string) (st : State) (e : Entry.t) : State :=
  let avg := mean (Entry.scores e) in
  if Js.lt avg 18 then
    match Entry.student e with
    | Some s =>
        if (length (alerts st) <? 5)%nat then
          mkState (S (atRiskCount st))
                  (alerts st ++ [lowAverage today (alertId st) (Student.name s) avg])%list
                  (S (alertId st))
        else
          mkState (S (atRiskCount st)) (alerts st) (alertId st)
    | None => st
    end
  else st.

Definition riskLoop (today : string) (marks : list Mark.t) : State :=
  fold_left (riskStep today) (Obj.values (studentMarksMap marks))
            (mkState 0 [] 1).

Definition criticalAlert (today : string) (i n : nat) : Alert.t :=
  Alert.mk i Alert.critical
    (Js.showNat n ++ " students are at risk with below-threshold marks")
    today.

(** [if (atRiskCount > 5) alerts.unshift(...)] *)
Definition criticalStep (today : string) (st : State) : State :=
  if (5 <? atRiskCount st)%nat then
    mkState (atRiskCount st)
            (criticalAlert today (alertId st) (atRiskCount st) :: alerts st)
            (S (alertId st))
  else st.

(** *** Subjects with a poor class average *)

Module Perf.
Record t : Type := mk { total : Q; count : nat }.
End Perf.

(** The body of the third [marks.forEach]. *)
Definition perfStep (o : Obj.t Perf.t) (m : Mark.t) : Obj.t Perf.t :=
  match Mark.subject m with
  | None => o
  | Some s =>
      let name := Subject.name s in
      let d := match Obj.get o name with
               | Some d => d
               | None => Perf.mk 0 0
               end in
      Obj.set o name (Perf.mk (Perf.total d + score m) (S (Perf.count d)))
  end.

Definition subjectPerf (marks : list Mark.t) : Obj.t Perf.t :=
  fold_left perfStep marks Obj.empty.

Definition perfAvg (d : Perf.t) : Q :=
  Perf.total d / inject_Z (Z.of_nat (Perf.count d)).

Definition lowClassAverage (today : string) (i : nat) (name : string) (avg : Q)
  : Alert.t :=
  Alert.mk i Alert.warning
    (name ++ " has low class average (" ++ Js.showFixed1 (Js.toFixed1 avg) ++ "/50)")
    today.

(** The body of [Object.entries(subjectPerf).forEach]. *)
Definition subjectStep (today : string) (st : State) (e : string * Perf.t)
  : State :=
  let avg := perfAvg (snd e) in
  if Js.lt avg 25 then
    mkState (atRiskCount st)
            (alerts st ++ [lowClassAverage today (alertId st) (fst e) avg])%list
            (S (alertId st))
  else st.

Definition subjectLoop (today : string) (marks : list Mark.t) (st : State)
  : State :=
  fold_left (subjectStep today) (Obj.entries (subjectPerf marks)) st.

(** *** Pending entries and the positive alert *)

Definition pendingCount (marks : list Mark.t) : nat :=
  length (filter (fun m => String.eqb (Mark.status m) "PENDING") marks).

Definition pendingAlert (today : string) (i n : nat) : Alert.t :=
  Alert.mk i Alert.info
    (Js.showNat n ++ " mark entries are still pending review") today.

Definition pendingStep (today : string) (marks : list Mark.t) (st : State)
  : State :=
  if (0 <? pendingCount marks)%nat then
    mkState (atRiskCount st)
            (alerts st ++ [pendingAlert today (alertId st) (pendingCount marks)])%list
            (S (alertId st))
  else st.

Definition allClear (today : string) : Alert.t :=
  Alert.mk 1 Alert.info
    "All department metrics are within acceptable range" today.

Definition allClearStep (today : string) (st : State) : State :=
  if (length (alerts st) =? 0)%nat then
    mkState (atRiskCount st) (alerts st ++ [allClear today])%list (alertId st)
  else st.

(** The alert list before the positive alert is considered. *)
Definition raised (today : string) (marks : list Mark.t) : State :=
  pendingStep today marks
    (subjectLoop today marks (criticalStep today (riskLoop today marks))).

Definition computeAlerts (today : string) (marks : list Mark.t) : list Alert.t :=
  alerts (allClearStep today (raised today marks)).

Record Body : Type := mkBody {
  body_gradeDistribution : GradeDistribution;
  body_alerts : list Alert.t;
  facultyCount : nat
}.

(** The aggregation over the loaded rows. *)
Definition aggregate (today : string) (marks : list Mark.t) (faculty : nat)
  : Body :=
  mkBody (gradeDistribution marks) (computeAlerts today marks) faculty.

(** The handler: [req.query.department], the tables and the date give the
    JSON body of the response. *)
Definition handler (db : Db) (department : option string) (today : string)
  : Body :=
  let dept := Js.orStr department "CS" in
  let marks := CIEMark_findAll db dept in
  aggregate today marks (User_countFaculty db dept).

End Overview.

(** ** GET /department/:dept/stats *)

Module Analytics.

Module Acc.
Record t : Type := mk { total : Q; count : nat }.
End Acc.

(** The body of [marks.forEach]. *)
Definition markStep (o : Obj.t Acc.t) (mark : Mark.t) : Obj.t Acc.t :=
  let sid := Mark.studentId mark in
  let a := match Obj.get o sid with
           | Some a => a
           | None => Acc.mk 0 0
           end in
  Obj.set o sid
    (Acc.mk (Acc.total a + Js.orNum (Mark.marks mark) 0) (S (Acc.count a))).

Definition studentMarks (marks : list Mark.t) : Obj.t Acc.t :=
  fold_left markStep marks Obj.empty.

Definition PASS_THRESHOLD : Q := 20.
Definition RISK_THRESHOLD : Q := 18.

Record Tally : Type := mkTally {
  totalAvg : Q;
  passedStudents : nat;
  atRiskStudents : nat
}.

Definition accAvg (a : Acc.t) : Q :=
  Acc.total a / inject_Z (Z.of_nat (Acc.count a)).

(** The body of [studentIds.forEach]; every id comes from [Object.keys],
    so the lookup finds its property. *)
Definition tallyStep (o : Obj.t Acc.t) (t : Tally) (sid : string) : Tally :=
  match Obj.get o sid with
  | Some a =>
      let avg := accAvg a in
      mkTally (totalAvg t + avg)
              (if Js.ge avg PASS_THRESHOLD
               then S (passedStudents t) else passedStudents t)
              (if Js.lt avg RISK_THRESHOLD
               then S (atRiskStudents t) else atRiskStudents t)
  | None => t
  end.

Record Stats : Type := mkStats {
  average : Q;
  passPercentage : Q;
  atRiskCount : nat;
  totalStudents : nat
}.

Definition ofNat (n : nat) : Q := inject_Z (Z.of_nat n).

Definition stats (marks : list Mark.t) : Stats :=
  if (length marks =? 0)%nat then mkStats 0 0 0 0
  else
    let o := studentMarks marks in
    let studentIds := Obj.keys o in
    let n := length studentIds in
    let t := fold_left (tallyStep o) studentIds (mkTally 0 0 0) in
    let departmentAverage :=
      if (0 <? n)%nat then Js.Str (Js.toFixed1 (totalAvg t / ofNat n))
      else Js.Num 0 in
    let passPercentage :=
      if (0 <? n)%nat
      then Js.Str (Js.toFixed1 ((ofNat (passedStudents t) / ofNat n) * 100))
      else Js.Num 0 in
    mkStats (Js.parseFloat departmentAverage) (Js.parseFloat passPercentage)
            (atRiskStudents t) n.

Definition handler (db : Db) (dept : string) : Stats :=
  stats (CIEMark_findAll db dept).

End Analytics.

(** ** POST /faculty *)

Module Faculty.

Record Request : Type := mkRequest {
  req_username : option string;
  req_fullName : option string;
  req_email : option string;
  req_password : option string;
  req_department : option string;
  req_designation : option string
}.

(** What [User.create] resolves to: the new row's id, or the error it
    rejects with ([message] may be empty). *)
Inductive Created : Type :=
| Row (id : Z)
| Rejected (message : string).

Inductive Json : Type :=
| Success (message : string) (id : Z)
| Failure (message : string).

Record Response : Type := mkResponse { status : nat; json : Json }.

(** One run of the handler: the row handed to [User.create] and the
    response sent. *)
Record Run : Type := mkRun { created : User.t; response : Response }.

Section Handler.
(** The collaborators: [bcrypt.hash(data, rounds)] and [User.create]. *)
Variable bcrypt_hash : string -> nat -> string.
Variable User_create : User.t -> Created.

Definition handler (body : Request) : Run :=
  let hashedPassword :=
    bcrypt_hash (Js.orStr (req_password body) "password123") 10 in
  let newFaculty :=
    User.mk (req_username body) (req_fullName body) (req_email body)
            hashedPassword "FACULTY" (req_department body)
            (req_username body) in
  match User_create newFaculty with
  | Row id =>
      mkRun newFaculty (mkResponse 201 (Success "Faculty created successfully" id))
  | Rejected msg =>
      mkRun newFaculty
            (mkResponse 500 (Failure (Js.orStr (Some msg) "Internal server error")))
  end.
End Handler.

End Faculty.

(** ** The results in terms of the records

    Definitions that state bands, means, counts and alert lists directly in
    terms of the input records, in the words of the specification, to be
    compared with the loops of the handlers above. *)

Module Spec.

Inductive Band : Type := A | B | C | D | F.

(** [80,100] and above is A, [60,80) is B, [40,60) is C, [20,40) is D, and
    everything below 20 is F. *)
Definition inBand (b : Band) (p : Q) : Prop :=
  match b with
  | A => 80 <= p
  | B => 60 <= p /\ p < 80
  | C => 40 <= p /\ p < 60
  | D => 20 <= p /\ p < 40
  | F => p < 20
  end.

Definition inBandb (b : Band) (p : Q) : bool :=
  match b with
  | A => Qle_bool 80 p
  | B => Qle_bool 60 p && negb (Qle_bool 80 p)
  | C => Qle_bool 40 p && negb (Qle_bool 60 p)
  | D => Qle_bool 20 p && negb (Qle_bool 40 p)
  | F => negb (Qle_bool 20 p)
  end.

(** [percent = (marksObtained||0) / (maxMarks||50) * 100] *)
Definition percent (m : Mark.t) : Q :=
  Js.orNum (Mark.marks m) 0 / Js.orNum (Mark.maxMarks m) 50 * 100.

Definition bandCount (b : Band) (marks : list Mark.t) : nat :=
  length (filter (fun m => inBandb b (percent m)) marks).

(** The distinct values of a list, in order of first appearance. *)
Definition distinct (l : list string) : list string :=
  fold_left Overview.setAdd l [].

Definition students (marks : list Mark.t) : list string :=
  distinct (map Mark.studentId marks).

Definition recordsOf (marks : list Mark.t) (sid : string) : list Mark.t :=
  filter (fun m => String.eqb (Mark.studentId m) sid) marks.

Fixpoint total (l : list Q) : Q :=
  match l with
  | [] => 0
  | x :: r => x + total r
  end.

Definition meanOf (l : list Q) : Q := total l / inject_Z (Z.of_nat (length l)).

(** A student's mean of [marks||0] over the student's records. *)
Definition studentMean (marks : list Mark.t) (sid : string) : Q :=
  meanOf (map (fun m => Js.orNum (Mark.marks m) 0) (recordsOf marks sid)).

Definition studentMeans (marks : list Mark.t) : list Q :=
  map (studentMean marks) (students marks).

Definition countIf (f : Q -> bool) (l : list Q) : nat := length (filter f l).

(** A mean of at least 20 passes; a mean below 18 is at risk. *)
Definition passes (mean : Q) : bool := Qle_bool 20 mean.
Definition atRisk (mean : Q) : bool := negb (Qle_bool 18 mean).

(** Rounding to one decimal, halves away from zero. *)
Definition round1 (q : Q) : Q :=
  if Qle_bool 0 q then Qfloor (q * 10 + (1 # 2)) # 10
  else (- Qfloor (- q * 10 + (1 # 2))) # 10.

(** The joined student object of a student: the one of the student's first
    record. *)
Definition studentOf (marks : list Mark.t) (sid : string) : option Student.t :=
  match recordsOf marks sid with
  | m :: _ => Mark.student m
  | [] => None
  end.

(** The subjects that have records, and a subject's records. *)
Definition subjectName (m : Mark.t) : option string :=
  option_map Subject.name (Mark.subject m).

Definition subjectNames (marks : list Mark.t) : list string :=
  distinct (flat_map (fun m => match subjectName m with
                               | Some n => [n]
                               | None => []
                               end) marks).

Definition recordsIn (marks : list Mark.t) (name : string) : list Mark.t :=
  filter (fun m => optEqb (subjectName m) name) marks.

Definition subjectMean (marks : list Mark.t) (name : string) : Q :=
  meanOf (map (fun m => Js.orNum (Mark.marks m) 0) (recordsIn marks name)).

(** Incrementing exactly one of the five counters. *)
Definition bump (b : Band) (g : Overview.Grades) : Overview.Grades :=
  let '(Overview.mkGrades a b' c d f) := g in
  match b with
  | A => Overview.mkGrades (S a) b' c d f
  | B => Overview.mkGrades a (S b') c d f
  | C => Overview.mkGrades a b' (S c) d f
  | D => Overview.mkGrades a b' c (S d) f
  | F => Overview.mkGrades a b' c d (S f)
  end.

(** The counter of a band. *)
Definition counter (b : Band) (g : Overview.Grades) : nat :=
  match b with
  | A => Overview.gradeA g
  | B => Overview.gradeB g
  | C => Overview.gradeC g
  | D => Overview.gradeD g
  | F => Overview.gradeF g
  end.

(** The students at risk, with the name and the mean to report: mean
    below 18 and joined student present, in the enumeration order of the
    student ids. *)
Definition atRiskStudents (marks : list Mark.t) : list (string * Q) :=
  flat_map (fun k =>
              if atRisk (studentMean marks k) then
                match studentOf marks k with
                | Some s => [(Student.name s, studentMean marks k)]
                | None => []
                end
              else [])
           (Obj.order (students marks)).

(** The students whose mean is below 18, in order of first appearance. *)
Definition belowThreshold (marks : list Mark.t) : list string :=
  filter (fun k => atRisk (studentMean marks k)) (students marks).

(** The subjects whose mean is below 25, with the mean to report, in the
    enumeration order of the subject names. *)
Definition lowSubjects (marks : list Mark.t) : list (string * Q) :=
  flat_map (fun n =>
              if Js.lt (subjectMean marks n) 25
              then [(n, subjectMean marks n)] else [])
           (Obj.order (subjectNames marks)).

(** Alerts for a list of names and means, with consecutive ids from [i]. *)
Fixpoint number (mk : nat -> string -> Q -> Alert.t) (i : nat)
    (l : list (string * Q)) : list Alert.t :=
  match l with
  | [] => []
  | (who, avg) :: r => mk i who avg :: number mk (S i) r
  end.

Definition joined (marks : list Mark.t) (k : string) : bool :=
  match studentOf marks k with Some _ => true | None => false end.

(** The number of students at risk. *)
Definition atRiskCount (marks : list Mark.t) : nat :=
  length (filter (fun k => atRisk (studentMean marks k) && joined marks k)
                 (students marks)).

(** The statement that the student warnings are one per student with a
    mean below 18, at most the first five of them in order of first
    appearance, each naming its student and the rounded mean. *)
Definition warnedAsStated (marks : list Mark.t) (ws : list Alert.t) : Prop :=
  Forall2
    (fun k w =>
       Alert.type w = Alert.warning
       /\ forall s, studentOf marks k = Some s ->
                    Alert.message w
                    = Student.name s ++ " has low average ("
                        ++ Js.showFixed1 (Js.toFixed1 (studentMean marks k))
                        ++ "/50)")
    (firstn 5 (belowThreshold marks)) ws.

Definition hasSubject (m : Mark.t) : bool :=
  match Mark.subject m with Some _ => true | None => false end.

(** The password to hash as the specification words it: the supplied
    one, or the default when the field is omitted. *)
Definition passwordAsStated (p : option string) : string :=
  match p with
  | Some s => s
  | None => "password123"
  end.

(** The alert list in the words of the specification: the critical
    alert, if more than 5 students are at risk, in front of the at most 5
    student warnings, then the subject warnings, then the pending alert;
    ids count generation order, in which the critical alert comes after
    the student warnings. *)
Definition raised (today : string) (marks : list Mark.t) : list Alert.t :=
  let R := atRiskStudents marks in
  let c := length R in
  let L := lowSubjects marks in
  let p := Overview.pendingCount marks in
  let i1 := (1 + Nat.min 5 c)%nat in
  let i2 := if (5 <? c)%nat then S i1 else i1 in
  let i3 := (i2 + length L)%nat in
  ((if (5 <? c)%nat then [Overview.criticalAlert today i1 c] else [])
     ++ number (Overview.lowAverage today) 1 (firstn 5 R)
     ++ number (Overview.lowClassAverage today) i2 L
     ++ (if (0 <? p)%nat then [Overview.pendingAlert today i3 p] else []))%list.

(** The alerts raised before the pending entries are counted. *)
Definition before (today : string) (marks : list Mark.t) : list Alert.t :=
  let R := atRiskStudents marks in
  let c := length R in
  let i1 := (1 + Nat.min 5 c)%nat in
  let i2 := if (5 <? c)%nat then S i1 else i1 in
  ((if (5 <? c)%nat then [Overview.criticalAlert today i1 c] else [])
     ++ number (Overview.lowAverage today) 1 (firstn 5 R)
     ++ number (Overview.lowClassAverage today) i2 (lowSubjects marks))%list.

Definition alerts (today : string) (marks : list Mark.t) : list Alert.t :=
  match raised today marks with
  | [] => [Overview.allClear today]
  | l => l
  end.

End Spec.

(** A student's average as the handlers compute it: the left-to-right sum
    of the scores of the student's records over their number. *)
Definition studentAvg (marks : list Mark.t) (k : string) : Q :=
  Overview.mean (map Overview.score (Spec.recordsOf marks k)).

(** What [riskStep] reports for an entry: its student's name and average
    when the average is below 18 and the student is joined. *)
Definition flagged (e : Overview.Entry.t) : list (string * Q) :=
  let avg := Overview.mean (Overview.Entry.scores e) in
  if Js.lt avg 18 then
    match Overview.Entry.student e with
    | Some s => [(Student.name s, avg)]
    | None => []
    end
  else [].

(** The state of the handler after the students [P] were reported. *)
Definition riskState (today : string) (P : list (string * Q)) : Overview.State :=
  Overview.mkState (length P)
    (Spec.number (Overview.lowAverage today) 1 (firstn 5 P))
    (1 + Nat.min 5 (length P)).

(** The records that have a subject, as subject name and score. *)
Definition scored (marks : list Mark.t) : list (string * Q) :=
  flat_map (fun m => match Mark.subject m with
                     | Some s => [(Subject.name s, Overview.score m)]
                     | None => []
                     end) marks.

(** Two reports of a name and an average that print alike. *)
Definition sameReport (a b : string * Q) : Prop :=
  fst a = fst b /\ snd a == snd b.

(** ** Sample inputs *)

Module Sample.

Definition today : string := "11/2/2026".

Definition maths : option Subject.t := Some (Subject.mk "Maths" "CS").

Definition row (sid : string) (q : Z) (st : string)
    (subj : option Subject.t) (stud : option string) : Mark.t :=
  Mark.mk sid (Some (inject_Z q)) (Some 50) st subj
          (option_map Student.mk stud).



(** Bina (id 2) appears before Asha (id 1); student 7 is not joined. *)
Definition outOfOrder : list Mark.t :=
  [row "2" 12 "APPROVED" maths (Some "Bina");
   row "1" 10 "APPROVED" maths (Some "Asha");
   row "7" 5 "APPROVED" maths None].

(** Four students with the averages 25, 19, 15 and 30. *)
Definition four : list Mark.t :=
  [row "1" 25 "APPROVED" maths None; row "2" 19 "APPROVED" maths None;
   row "3" 15 "APPROVED" maths None; row "4" 30 "APPROVED" maths None].

(** Three pending records with nothing else to report. *)
Definition pending3 : list Mark.t :=
  [row "1" 40 "PENDING" maths (Some "Asha");
   row "2" 35 "PENDING" maths (Some "Bina");
   row "1" 30 "PENDING" maths (Some "Asha")].

(** One subject with the scores 10, 10 and 10. *)
Definition tens : list Mark.t :=
  [row "1" 10 "APPROVED" maths None; row "2" 10 "APPROVED" maths None;
   row "3" 10 "APPROVED" maths None].

(** A request whose password field is present and empty. *)
Definition emptyPassword : Faculty.Request :=
  Faculty.mkRequest (Some "asha") (Some "Asha Rao") (Some "asha@example.org")
                    (Some "") (Some "CS") (Some "Lecturer").

(** A request with a password, and collaborators to run it with. *)
Definition withPassword : Faculty.Request :=
  Faculty.mkRequest (Some "asha") (Some "Asha Rao") (Some "asha@example.org")
                    (Some "s3cret") (Some "CS") (Some "Lecturer").

Definition tagHash (data : string) (rounds : nat) : string :=
  "$2a$" ++ Js.showNat rounds ++ "$" ++ data.

Definition createFirst (u : User.t) : Faculty.Created := Faculty.Row 1.

End Sample.

(** ** GET /faculty *)

Module Directory.

(** Modelled from the spec: a stored [User] row, the fields of the model
    with the primary key. *)
Record UserRow : Type := mkUserRow { id : Z; fields : User.t }.

(** Modelled from the spec: a stored [Subject] row with its instructor. *)
Record SubjectRow : Type := mkSubjectRow {
  subject : Subject.t;
  instructorId : option Z
}.

Record Tables : Type := mkTables {
  userRows : list UserRow;
  subjectRows : list SubjectRow
}.

(** [x || y] on two optional strings. *)
Definition orOpt (x y : option string) : option string :=
  match x with
  | Some "" => y
  | Some s => Some s
  | None => y
  end.

Record Where : Type := mkWhere {
  where_role : string;
  where_department : option string
}.

(** [const whereClause = { role: 'FACULTY' };
     if (department) whereClause.department = department;] *)
Definition whereClause (department : option string) : Where :=
  match department with
  | Some "" => mkWhere "FACULTY" None
  | Some d => mkWhere "FACULTY" (Some d)
  | None => mkWhere "FACULTY" None
  end.

Definition matches (w : Where) (u : UserRow) : bool :=
  String.eqb (User.role (fields u)) (where_role w)
  && match where_department w with
     | Some d => optEqb (User.department (fields u)) d
     | None => true
     end.

(** [User.findAll({ where: whereClause, attributes: [...] })] *)
Definition User_findAll (t : Tables) (w : Where) : list UserRow :=
  filter (matches w) (userRows t).

(** [Subject.findAll({ where: { instructorId: f.id } })] *)
Definition Subject_findAll (t : Tables) (instructor : Z) : list SubjectRow :=
  filter (fun s => match instructorId s with
                   | Some i => Z.eqb i instructor
                   | None => false
                   end) (subjectRows t).

Record Entry : Type := mkEntry {
  entry_id : Z;
  entry_username : option string;
  entry_fullName : option string;
  entry_department : string;
  entry_designation : string;
  entry_subjects : list string
}.

(** The body of [faculty.map(async f => ...)]. *)
Definition format (t : Tables) (f : UserRow) : Entry :=
  let subjects := Subject_findAll t (id f) in
  mkEntry (id f)
          (User.username (fields f))
          (orOpt (User.fullName (fields f)) (User.username (fields f)))
          (Js.orStr (User.department (fields f)) "General")
          "Faculty"
          (map (fun s => Subject.name (subject s)) subjects).

(** The handler: [req.query.department] and the tables give the JSON array
    of the response, in the order of the rows. *)
Definition handler (t : Tables) (department : option string) : list Entry :=
  map (format t) (User_findAll t (whereClause department)).

End Directory.

(** ** Further inputs *)

Module Cases.

Definition faculty (name : string) (dept : option string) : User.t :=
  User.mk (Some name) None None "$2a$10$x" "FACULTY" dept (Some name).

Definition tables : Directory.Tables :=
  Directory.mkTables
    [Directory.mkUserRow 1 (faculty "asha" (Some "CS"));
     Directory.mkUserRow 2 (faculty "bina" (Some "EC"));
     Directory.mkUserRow 3 (faculty "chitra" None);
     Directory.mkUserRow 4
       (User.mk (Some "dev") None None "$2a$10$y" "HOD" (Some "CS") None)]
    [Directory.mkSubjectRow (Subject.mk "Maths" "CS") (Some 1%Z);
     Directory.mkSubjectRow (Subject.mk "Signals" "EC") (Some 2%Z);
     Directory.mkSubjectRow (Subject.mk "Physics" "CS") None].

(** A collaborator that rejects every row, with an empty message. *)
Definition rejectAll (u : User.t) : Faculty.Created := Faculty.Rejected "".

(** Two students, both joined, one at risk and pending. *)
Definition mixed : list Mark.t :=
  [Sample.row "usn2" 12 "PENDING" Sample.maths (Some "Bina");
   Sample.row "usn1" 45 "APPROVED" Sample.maths (Some "Asha");
   Sample.row "usn2" 14 "APPROVED" Sample.maths (Some "Bina")].

(** A department table with records of two departments. *)
Definition db : Db :=
  mkDb (mixed ++ [Sample.row "usn9" 5 "PENDING"
                    (Some (Subject.mk "Signals" "EC")) (Some "Esha")])
       [faculty "asha" (Some "CS"); faculty "bina" (Some "EC")].


(** A mark of another department. *)
Definition foreign : Mark.t :=
  Sample.row "usn9" 5 "PENDING" (Some (Subject.mk "Signals" "EC")) (Some "Esha").

End Cases.

(** ** Binary64 numbers

    The numbers of the handlers are IEEE 754 doubles.  A double is held as
    its exact rational value, and every operation is the one of the
    Standard Library's specification of binary64 ([SFadd], [SFmul],
    [SFdiv] with precision 53 and maximal exponent 1024): the exact result
    rounded to the nearest double, ties to even. *)

Module B64.

(** The exact value of a finite double. *)
Definition toQ (f : spec_float) : Q :=
  match f with
  | S754_finite s m e => Qred (inject_Z (if s then Zneg m else Zpos m) * 2 ^ e)
  | _ => 0
  end.

(** The double nearest to an integer. *)
Definition ofZ (z : Z) : spec_float := binary_normalize 53 1024 z 0 false.

(** The double whose exact value is [q], a dyadic rational. *)
Definition ofQ (q : Q) : spec_float :=
  let r := Qred q in
  binary_normalize 53 1024 (Qnum r) (- Z.log2 (Zpos (Qden r))) false.

(** A stored decimal read as a number: the nearest double. *)
Definition read (q : Q) : Q :=
  toQ (SFdiv 53 1024 (ofZ (Qnum q)) (ofZ (Zpos (Qden q)))).

Definition add (a b : Q) : Q := toQ (SFadd 53 1024 (ofQ a) (ofQ b)).
Definition mul (a b : Q) : Q := toQ (SFmul 53 1024 (ofQ a) (ofQ b)).
Definition div (a b : Q) : Q := toQ (SFdiv 53 1024 (ofQ a) (ofQ b)).

(** A counter or a length used as a number. *)
Definition ofNat (n : nat) : Q := toQ (ofZ (Z.of_nat n)).

(** [array.reduce((a, b) => a + b, 0)] *)
Definition sum (l : list Q) : Q := fold_left add l 0.

(** [total / count], with [total] summed from 0 in the order of the list. *)
Definition mean (l : list Q) : Q := div (sum l) (ofNat (length l)).

(** [m.marks || 0] *)
Definition score (m : Mark.t) : Q := read (Js.orNum (Mark.marks m) 0).

End B64.

(** ** GET /department/:dept/stats, in binary64 *)

Module Analytics64.

(** The body of [marks.forEach]. *)
Definition markStep (o : Obj.t Analytics.Acc.t) (mark : Mark.t)
  : Obj.t Analytics.Acc.t :=
  let sid := Mark.studentId mark in
  let a := match Obj.get o sid with
           | Some a => a
           | None => Analytics.Acc.mk 0 0
           end in
  Obj.set o sid
    (Analytics.Acc.mk (B64.add (Analytics.Acc.total a) (B64.score mark))
                      (S (Analytics.Acc.count a))).

Definition studentMarks (marks : list Mark.t) : Obj.t Analytics.Acc.t :=
  fold_left markStep marks Obj.empty.

Definition accAvg (a : Analytics.Acc.t) : Q :=
  B64.div (Analytics.Acc.total a) (B64.ofNat (Analytics.Acc.count a)).

(** The body of [studentIds.forEach]. *)
Definition tallyStep (o : Obj.t Analytics.Acc.t) (t : Analytics.Tally)
    (sid : string) : Analytics.Tally :=
  match Obj.get o sid with
  | Some a =>
      let avg := accAvg a in
      Analytics.mkTally
        (B64.add (Analytics.totalAvg t) avg)
        (if Js.ge avg Analytics.PASS_THRESHOLD
         then S (Analytics.passedStudents t) else Analytics.passedStudents t)
        (if Js.lt avg Analytics.RISK_THRESHOLD
         then S (Analytics.atRiskStudents t) else Analytics.atRiskStudents t)
  | None => t
  end.

(** The response; [average] and [passPercentage] are the decimals that the
    JSON text shows, those of the [toFixed(1)] strings. *)
Definition stats (marks : list Mark.t) : Analytics.Stats :=
  if (length marks =? 0)%nat then Analytics.mkStats 0 0 0 0
  else
    let o := studentMarks marks in
    let studentIds := Obj.keys o in
    let n := length studentIds in
    let t := fold_left (tallyStep o) studentIds (Analytics.mkTally 0 0 0) in
    let departmentAverage :=
      if (0 <? n)%nat
      then Js.Str (Js.toFixed1 (B64.div (Analytics.totalAvg t) (B64.ofNat n)))
      else Js.Num 0 in
    let passPercentage :=
      if (0 <? n)%nat
      then Js.Str (Js.toFixed1
             (B64.mul (B64.div (B64.ofNat (Analytics.passedStudents t))
                               (B64.ofNat n)) 100))
      else Js.Num 0 in
    Analytics.mkStats (Js.parseFloat departmentAverage)
                      (Js.parseFloat passPercentage)
                      (Analytics.atRiskStudents t) n.

End Analytics64.

(** ** The alerts of GET /overview, in binary64 *)

Module Overview64.

(** The body of the second [marks.forEach]. *)
Definition studentStep (o : Obj.t Overview.Entry.t) (m : Mark.t)
  : Obj.t Overview.Entry.t :=
  let key := Mark.studentId m in
  let e := match Obj.get o key with
           | Some e => e
           | None => Overview.Entry.mk (Mark.student m) [] []
           end in
  Obj.set o key
    (Overview.Entry.mk (Overview.Entry.student e)
       (Overview.Entry.scores e ++ [B64.score m])%list
       (match Mark.subject m with
        | Some s => Overview.setAdd (Overview.Entry.subjects e) (Subject.name s)
        | None => Overview.Entry.subjects e
        end)).

Definition studentMarksMap (marks : list Mark.t) : Obj.t Overview.Entry.t :=
  fold_left studentStep marks Obj.empty.

(** The body of [Object.values(studentMarksMap).forEach]. *)
Definition riskStep (today : string) (st : Overview.State)
    (e : Overview.Entry.t) : Overview.State :=
  let avg := B64.mean (Overview.Entry.scores e) in
  if Js.lt avg 18 then
    match Overview.Entry.student e with
    | Some s =>
        if (length (Overview.alerts st) <? 5)%nat then
          Overview.mkState (S (Overview.atRiskCount st))
            (Overview.alerts st
               ++ [Overview.lowAverage today (Overview.alertId st)
                     (Student.name s) avg])%list
            (S (Overview.alertId st))
        else
          Overview.mkState (S (Overview.atRiskCount st)) (Overview.alerts st)
                           (Overview.alertId st)
    | None => st
    end
  else st.

Definition riskLoop (today : string) (marks : list Mark.t) : Overview.State :=
  fold_left (riskStep today) (Obj.values (studentMarksMap marks))
            (Overview.mkState 0 [] 1).

(** The body of the third [marks.forEach]. *)
Definition perfStep (o : Obj.t Overview.Perf.t) (m : Mark.t)
  : Obj.t Overview.Perf.t :=
  match Mark.subject m with
  | None => o
  | Some s =>
      let name := Subject.name s in
      let d := match Obj.get o name with
               | Some d => d
               | None => Overview.Perf.mk 0 0
               end in
      Obj.set o name
        (Overview.Perf.mk (B64.add (Overview.Perf.total d) (B64.score m))
                          (S (Overview.Perf.count d)))
  end.

Definition subjectPerf (marks : list Mark.t) : Obj.t Overview.Perf.t :=
  fold_left perfStep marks Obj.empty.

Definition perfAvg (d : Overview.Perf.t) : Q :=
  B64.div (Overview.Perf.total d) (B64.ofNat (Overview.Perf.count d)).

(** The body of [Object.entries(subjectPerf).forEach]. *)
Definition subjectStep (today : string) (st : Overview.State)
    (e : string * Overview.Perf.t) : Overview.State :=
  let avg := perfAvg (snd e) in
  if Js.lt avg 25 then
    Overview.mkState (Overview.atRiskCount st)
      (Overview.alerts st
         ++ [Overview.lowClassAverage today (Overview.alertId st) (fst e) avg])%list
      (S (Overview.alertId st))
  else st.

Definition subjectLoop (today : string) (marks : list Mark.t)
    (st : Overview.State) : Overview.State :=
  fold_left (subjectStep today) (Obj.entries (subjectPerf marks)) st.

(** The alert list before the positive alert is considered. *)
Definition raised (today : string) (marks : list Mark.t) : Overview.State :=
  Overview.pendingStep today marks
    (subjectLoop today marks
       (Overview.criticalStep today (riskLoop today marks))).

Definition computeAlerts (today : string) (marks : list Mark.t)
  : list Alert.t :=
  Overview.alerts (Overview.allClearStep today (raised today marks)).

(** What [riskStep] reports for an entry: its student's name and average
    when the average is below 18 and the student is joined. *)
Definition flagged (e : Overview.Entry.t) : list (string * Q) :=
  let avg := B64.mean (Overview.Entry.scores e) in
  if Js.lt avg 18 then
    match Overview.Entry.student e with
    | Some s => [(Student.name s, avg)]
    | None => []
    end
  else [].

(** The records that have a subject, as subject name and score. *)
Definition scored (marks : list Mark.t) : list (string * Q) :=
  flat_map (fun m => match Mark.subject m with
                     | Some s => [(Subject.name s, B64.score m)]
                     | None => []
                     end) marks.

End Overview64.

(** ** The results in terms of the records, in binary64 *)

Module Spec64.

(** A student's mean: the scores of the student's records, summed in the
    order of the rows and divided by their number. *)
Definition studentMean (marks : list Mark.t) (sid : string) : Q :=
  B64.mean (map B64.score (Spec.recordsOf marks sid)).

Definition subjectMean (marks : list Mark.t) (name : string) : Q :=
  B64.mean (map B64.score (Spec.recordsIn marks name)).

(** The students at risk: mean below 18 and student row joined. *)
Definition atRisk (marks : list Mark.t) (k : string) : bool :=
  Spec.atRisk (studentMean marks k) && Spec.joined marks k.

Definition atRiskCount (marks : list Mark.t) : nat :=
  length (filter (atRisk marks) (Spec.students marks)).

(** The students at risk with the name and the mean to report, in the
    enumeration order of the student ids. *)
Definition atRiskStudents (marks : list Mark.t) : list (string * Q) :=
  flat_map (fun k =>
              if Spec.atRisk (studentMean marks k) then
                match Spec.studentOf marks k with
                | Some s => [(Student.name s, studentMean marks k)]
                | None => []
                end
              else [])
           (Obj.order (Spec.students marks)).

(** The students whose mean is below 18, in order of first appearance. *)
Definition belowThreshold (marks : list Mark.t) : list string :=
  filter (fun k => Spec.atRisk (studentMean marks k)) (Spec.students marks).

(** The statement that the student warnings are one per student with a
    mean below 18, at most the first five of them in order of first
    appearance, each naming its student and the rounded mean. *)
Definition warnedAsStated (marks : list Mark.t) (ws : list Alert.t) : Prop :=
  Forall2
    (fun k w =>
       Alert.type w = Alert.warning
       /\ forall s, Spec.studentOf marks k = Some s ->
                    Alert.message w
                    = Student.name s ++ " has low average ("
                        ++ Js.showFixed1 (Js.toFixed1 (studentMean marks k))
                        ++ "/50)")
    (firstn 5 (belowThreshold marks)) ws.

(** The subjects with records whose mean is below 25. *)
Definition low (marks : list Mark.t) (n : string) : bool :=
  Js.lt (subjectMean marks n) 25.

Definition lowSubjects (marks : list Mark.t) : list (string * Q) :=
  flat_map (fun n => if low marks n then [(n, subjectMean marks n)] else [])
           (Obj.order (Spec.subjectNames marks)).

(** The rows whose status is PENDING. *)
Definition pendingRows (marks : list Mark.t) : list Mark.t :=
  filter (fun m => String.eqb (Mark.status m) "PENDING") marks.

(** The alerts raised before the pending entries are counted. *)
Definition before (today : string) (marks : list Mark.t) : list Alert.t :=
  let R := atRiskStudents marks in
  let c := length R in
  let i1 := (1 + Nat.min 5 c)%nat in
  let i2 := if (5 <? c)%nat then S i1 else i1 in
  ((if (5 <? c)%nat then [Overview.criticalAlert today i1 c] else [])
     ++ Spec.number (Overview.lowAverage today) 1 (firstn 5 R)
     ++ Spec.number (Overview.lowClassAverage today) i2 (lowSubjects marks))%list.

End Spec64.

(** ** POST /faculty with the password as the JSON value it is *)

Module FacultyJson.

(** A value of the JSON body. *)
Inductive Value : Type :=
| Null
| Bool (b : bool)
| Number (q : Q)
| Text (s : string)
| Composite.

(** The truthiness that [||] tests. *)
Definition truthy (v : option Value) : bool :=
  match v with
  | None => false
  | Some Null => false
  | Some (Bool b) => b
  | Some (Number q) => negb (Qeq_bool q 0)
  | Some (Text s) => negb (String.eqb s "")
  | Some Composite => true
  end.

(** [password || 'password123'] *)
Definition orDefault (v : option Value) : Value :=
  match v with
  | Some x => if truthy v then x else Text "password123"
  | None => Text "password123"
  end.

Record Request : Type := mkRequest {
  req_username : option string;
  req_fullName : option string;
  req_email : option string;
  req_password : option Value;
  req_department : option string;
  req_designation : option string
}.

(** What [bcrypt.hash] resolves to: the hash, or the error it rejects with
    (as it does for data that is not a string). *)
Inductive Hashed : Type :=
| Hash (h : string)
| HashError (message : string).

(** One run of the handler: the row handed to [User.create], if the handler
    got that far, and the response sent. *)
Record Run : Type := mkRun {
  created : option User.t;
  response : Faculty.Response
}.

Section Handler.
Variable bcrypt_hash : Value -> nat -> Hashed.
Variable User_create : User.t -> Faculty.Created.

Definition handler (body : Request) : Run :=
  match bcrypt_hash (orDefault (req_password body)) 10 with
  | HashError msg =>
      mkRun None
        (Faculty.mkResponse 500
           (Faculty.Failure (Js.orStr (Some msg) "Internal server error")))
  | Hash hashedPassword =>
      let newFaculty :=
        User.mk (req_username body) (req_fullName body) (req_email body)
                hashedPassword "FACULTY" (req_department body)
                (req_username body) in
      match User_create newFaculty with
      | Faculty.Row id =>
          mkRun (Some newFaculty)
            (Faculty.mkResponse 201
               (Faculty.Success "Faculty created successfully" id))
      | Faculty.Rejected msg =>
          mkRun (Some newFaculty)
            (Faculty.mkResponse 500
               (Faculty.Failure (Js.orStr (Some msg) "Internal server error")))
      end
  end.
End Handler.

End FacultyJson.

(** ** Inputs for the binary64 statements *)

Module More.

(** Twenty students with one record each: seventeen with 22 marks and
    three with 23, a mean of 22.15. *)
Definition twenty : list Mark.t :=
  map (fun i => Sample.row (Js.showNat i) (if (i <? 18)%nat then 22 else 23)
                           "APPROVED" Sample.maths None)
      (seq 1 20).

(** One joined student with nine records of 18 marks and eleven of 17, a
    mean of 17.45. *)
Definition asha20 : list Mark.t :=
  map (fun i => Sample.row "usn1" (if (i <? 10)%nat then 18 else 17)
                           "APPROVED" Sample.maths (Some "Asha"))
      (seq 1 20).

(** Six joined students at risk and six with full marks, in one subject
    whose mean is 30. *)
Definition sixOfTwelve : list Mark.t :=
  map (fun p => Sample.row (fst p) 10 "APPROVED" Sample.maths (Some (snd p)))
      [("6", "Farah"); ("5", "Esha"); ("4", "Dev"); ("3", "Chitra");
       ("2", "Bina"); ("1", "Asha")]
  ++ map (fun sid => Sample.row sid 50 "APPROVED" Sample.maths None)
         ["7"; "8"; "9"; "10"; "11"; "12"].

(** A collaborator that hashes strings and rejects everything else. *)
Definition hashText (v : FacultyJson.Value) (rounds : nat)
  : FacultyJson.Hashed :=
  match v with
  | FacultyJson.Text s => FacultyJson.Hash (Sample.tagHash s rounds)
  | _ => FacultyJson.HashError "Illegal arguments: number, number"
  end.

Definition numericPassword : FacultyJson.Request :=
  FacultyJson.mkRequest (Some "asha") (Some "Asha Rao") (Some "asha@example.org")
                        (Some (FacultyJson.Number 12345)) (Some "CS")
                        (Some "Lecturer").

(** One student with the marks 0.3, 32.3 and 21.4, whose binary64 sum is
    just below 54, and the same rows in another order, whose sum is 54. *)
Definition decimals : list Mark.t :=
  map (fun q => Mark.mk "1" (Some q) (Some 50) "APPROVED" Sample.maths
                        (Some (Student.mk "Asha")))
      [3 # 10; 323 # 10; 214 # 10].

Definition decimals' : list Mark.t :=
  map (fun q => Mark.mk "1" (Some q) (Some 50) "APPROVED" Sample.maths
                        (Some (Student.mk "Asha")))
      [3 # 10; 214 # 10; 323 # 10].

End More.

Example arrayIndex_7 : Obj.arrayIndex "7" = Some 7%N.
Proof. reflexivity. Qed.

Example arrayIndex_leading_zero : Obj.arrayIndex "07" = None.
Proof. reflexivity. Qed.

Example arrayIndex_usn : Obj.arrayIndex "1CS21CS007" = None.
Proof. reflexivity. Qed.

Example keys_mixed :
  Obj.keys (Obj.set (Obj.set (Obj.set (Obj.set Obj.empty "b" 1) "10" 2) "a" 3) "9" 4)
  = ["9"; "10"; "b"; "a"].
Proof. reflexivity. Qed.

Example toFixed1_2225 : Js.showFixed1 (Js.toFixed1 (2225 # 100)) = "22.3".
Proof. reflexivity. Qed.

Example toFixed1_neg : Js.showFixed1 (Js.toFixed1 (- (4 # 100))) = "-0.0".
Proof. reflexivity. Qed.

(** * Properties *)

(** ** Numbers *)

Lemma lt_iff (a b : Q) : Js.lt a b = true <-> a < b.
Proof.
  unfold Js.lt. rewrite negb_true_iff.
  split; intro H.
  - apply Qnot_le_lt. intro L. apply Qle_bool_iff in L. congruence.
  - destruct (Qle_bool b a) eqn:E; [|reflexivity].
    apply Qle_bool_iff in E. exfalso. apply (Qlt_not_le _ _ H E).
Qed.

Lemma ge_iff (a b : Q) : Js.ge a b = true <-> b <= a.
Proof. unfold Js.ge. apply Qle_bool_iff. Qed.

Lemma Qle_bool_comp (a b c d : Q) :
  a == b -> c == d -> Qle_bool a c = Qle_bool b d.
Proof.
  intros E1 E2.
  destruct (Qle_bool a c) eqn:X, (Qle_bool b d) eqn:Y; try reflexivity.
  - apply Qle_bool_iff in X. rewrite E1, E2 in X.
    apply Qle_bool_iff in X. congruence.
  - apply Qle_bool_iff in Y. rewrite <- E1, <- E2 in Y.
    apply Qle_bool_iff in Y. congruence.
Qed.

Lemma lt_comp (a b c : Q) : a == b -> Js.lt a c = Js.lt b c.
Proof.
  intro E. unfold Js.lt. f_equal. apply Qle_bool_comp; [reflexivity|exact E].
Qed.

Lemma ge_comp (a b c : Q) : a == b -> Js.ge a c = Js.ge b c.
Proof.
  intro E. unfold Js.ge. apply Qle_bool_comp; [reflexivity|exact E].
Qed.

Lemma toFixed1_comp (a b : Q) : a == b -> Js.toFixed1 a = Js.toFixed1 b.
Proof.
  intro E. unfold Js.toFixed1. f_equal.
  - apply lt_comp, E.
  - f_equal. apply Qfloor_comp. rewrite E. reflexivity.
Qed.

Lemma half_floor_nonneg (x : Q) : 0 <= x -> (0 <= Qfloor (x * 10 + (1 # 2)))%Z.
Proof.
  intro H. change 0%Z with (Qfloor 0). apply Qfloor_resp_le.
  assert (0 <= x * 10) by (apply Qmult_le_0_compat; [exact H | discriminate]).
  apply (Qle_trans _ (x * 10 + 0)).
  - rewrite Qplus_0_r. exact H0.
  - apply Qplus_le_r. discriminate.
Qed.

(** [parseFloat(x.toFixed(1))] rounds [x] to one decimal, halves away from
    zero. *)
Lemma parseFloat_toFixed1 (x : Q) :
  Js.parseFloat (Js.Str (Js.toFixed1 x)) = Spec.round1 x.
Proof.
  unfold Js.parseFloat, Js.toFixed1, Spec.round1; cbn [Js.negative Js.tenths].
  destruct (Qle_bool 0 x) eqn:E.
  - apply Qle_bool_iff in E.
    assert (L : Js.lt x 0 = false).
    { destruct (Js.lt x 0) eqn:L; [|reflexivity].
      apply lt_iff in L. exfalso. apply (Qlt_not_le _ _ L E). }
    rewrite L.
    rewrite (Qfloor_comp (Qabs x * 10 + (1 # 2)) (x * 10 + (1 # 2)))
      by (rewrite (Qabs_pos x E); reflexivity).
    rewrite Z2N.id by (apply half_floor_nonneg, E). reflexivity.
  - assert (L : x < 0).
    { apply Qnot_le_lt. intro H. apply Qle_bool_iff in H. congruence. }
    assert (Lb : Js.lt x 0 = true) by (apply lt_iff, L).
    rewrite Lb.
    assert (N0 : 0 <= - x).
    { apply Qlt_le_weak in L. apply Qopp_le_compat in L. exact L. }
    rewrite (Qfloor_comp (Qabs x * 10 + (1 # 2)) (- x * 10 + (1 # 2)))
      by (rewrite (Qabs_neg x (Qlt_le_weak _ _ L)); reflexivity).
    rewrite Z2N.id by (apply half_floor_nonneg, N0). reflexivity.
Qed.

Lemma floor_bounds (x : Q) :
  inject_Z (Qfloor x) <= x /\ x < inject_Z (Qfloor x) + 1.
Proof.
  split; [apply Qfloor_le|].
  pose proof (Qlt_floor x) as H. rewrite inject_Z_plus in H. exact H.
Qed.

Lemma tenths_value (z : Z) : z # 10 == inject_Z z * (1 # 10).
Proof. unfold Qeq. cbn. lia. Qed.

(** Rounding to one decimal moves a number by at most a twentieth. *)
Lemma round1_nearest (q : Q) : Qabs (Spec.round1 q - q) <= 1 # 20.
Proof.
  unfold Spec.round1.
  destruct (Qle_bool 0 q).
  - destruct (floor_bounds (q * 10 + (1 # 2))) as [L U].
    set (z := Qfloor (q * 10 + (1 # 2))) in *.
    apply Qabs_Qle_condition. rewrite (tenths_value z).
    split; lra.
  - destruct (floor_bounds (- q * 10 + (1 # 2))) as [L U].
    set (z := Qfloor (- q * 10 + (1 # 2))) in *.
    apply Qabs_Qle_condition. rewrite (tenths_value (- z)), inject_Z_opp.
    split; lra.
Qed.

(** ** Grade bands *)

Lemma inBandb_iff (b : Spec.Band) (p : Q) :
  Spec.inBandb b p = true <-> Spec.inBand b p.
Proof.
  destruct b; simpl;
    rewrite ?andb_true_iff, ?Qle_bool_iff;
    try (change (negb (Qle_bool ?c p) = true) with (Js.lt p c = true));
    rewrite ?lt_iff; tauto.
Qed.

Lemma inBand_exclusive (p : Q) (b1 b2 : Spec.Band) :
  Spec.inBand b1 p -> Spec.inBand b2 p -> b1 = b2.
Proof.
  assert (L1 : 20 <= 40) by discriminate.
  assert (L2 : 40 <= 60) by discriminate.
  assert (L3 : 60 <= 80) by discriminate.
  destruct b1, b2; simpl; intros H1 H2; try reflexivity; exfalso;
    repeat match goal with H : _ /\ _ |- _ => destruct H end;
    match goal with
    | Hlt : p < ?u, Hle : ?l <= p |- _ =>
        apply (Qlt_irrefl p);
        first
          [ apply (Qlt_le_trans _ _ _ Hlt Hle)
          | apply (Qlt_le_trans _ u _ Hlt); apply (Qle_trans _ l _); [|exact Hle];
            first [ assumption
                  | apply (Qle_trans _ 40 _); assumption
                  | apply (Qle_trans _ 60 _); [|assumption];
                    first [assumption | apply (Qle_trans _ 40 _); assumption] ] ]
    end.
Qed.

Lemma inBand_total (p : Q) : exists b, Spec.inBand b p.
Proof.
  destruct (Qlt_le_dec p 20); [exists Spec.F; assumption|].
  destruct (Qlt_le_dec p 40); [exists Spec.D; split; assumption|].
  destruct (Qlt_le_dec p 60); [exists Spec.C; split; assumption|].
  destruct (Qlt_le_dec p 80); [exists Spec.B; split; assumption|].
  exists Spec.A; assumption.
Qed.

Lemma percent_eq (m : Mark.t) : Overview.percent m = Spec.percent m.
Proof. reflexivity. Qed.

(** The else-if chain of the handler increments the counter of the band
    that holds the percentage. *)
Lemma gradeStep_bump (g : Overview.Grades) (m : Mark.t) (b : Spec.Band) :
  Spec.inBand b (Spec.percent m) -> Overview.gradeStep g m = Spec.bump b g.
Proof.
  intro H. unfold Overview.gradeStep. rewrite percent_eq.
  destruct g as [a b' c d f]. cbn [Overview.gradeA Overview.gradeB
    Overview.gradeC Overview.gradeD Overview.gradeF].
  unfold Js.ge.
  destruct (Qle_bool 80 (Spec.percent m)) eqn:E80.
  { rewrite (inBand_exclusive _ b Spec.A H); [reflexivity|].
    apply Qle_bool_iff, E80. }
  assert (L80 : Spec.percent m < 80)
    by (apply lt_iff; unfold Js.lt; rewrite E80; reflexivity).
  destruct (Qle_bool 60 (Spec.percent m)) eqn:E60.
  { rewrite (inBand_exclusive _ b Spec.B H); [reflexivity|].
    split; [apply Qle_bool_iff, E60 | exact L80]. }
  assert (L60 : Spec.percent m < 60)
    by (apply lt_iff; unfold Js.lt; rewrite E60; reflexivity).
  destruct (Qle_bool 40 (Spec.percent m)) eqn:E40.
  { rewrite (inBand_exclusive _ b Spec.C H); [reflexivity|].
    split; [apply Qle_bool_iff, E40 | exact L60]. }
  assert (L40 : Spec.percent m < 40)
    by (apply lt_iff; unfold Js.lt; rewrite E40; reflexivity).
  destruct (Qle_bool 20 (Spec.percent m)) eqn:E20.
  { rewrite (inBand_exclusive _ b Spec.D H); [reflexivity|].
    split; [apply Qle_bool_iff, E20 | exact L40]. }
  rewrite (inBand_exclusive _ b Spec.F H); [reflexivity|].
  apply lt_iff; unfold Js.lt; rewrite E20; reflexivity.
Qed.

Lemma counter_bump_same (b : Spec.Band) (g : Overview.Grades) :
  Spec.counter b (Spec.bump b g) = S (Spec.counter b g).
Proof. destruct g, b; reflexivity. Qed.

Lemma counter_bump_other (b b' : Spec.Band) (g : Overview.Grades) :
  b <> b' -> Spec.counter b' (Spec.bump b g) = Spec.counter b' g.
Proof. destruct g, b, b'; intro H; try reflexivity; congruence. Qed.

Lemma band_eq_dec (b b' : Spec.Band) : {b = b'} + {b <> b'}.
Proof. decide equality. Qed.

Lemma grades_fold (b : Spec.Band) (marks : list Mark.t) (g : Overview.Grades) :
  Spec.counter b (fold_left Overview.gradeStep marks g)
  = (Spec.counter b g + Spec.bandCount b marks)%nat.
Proof.
  revert g. induction marks as [|m marks IH]; intro g.
  - unfold Spec.bandCount. simpl. lia.
  - cbn [fold_left]. rewrite IH.
    destruct (inBand_total (Spec.percent m)) as [b0 Hb0].
    rewrite (gradeStep_bump g m b0 Hb0).
    unfold Spec.bandCount. cbn [filter].
    destruct (band_eq_dec b0 b) as [->|Hne].
    + rewrite counter_bump_same.
      apply inBandb_iff in Hb0. rewrite Hb0. cbn [length]. lia.
    + rewrite (counter_bump_other b0 b g Hne).
      destruct (Spec.inBandb b (Spec.percent m)) eqn:E; [|reflexivity].
      apply inBandb_iff in E. exfalso. apply Hne.
      apply (inBand_exclusive _ _ _ Hb0 E).
Qed.



(** ** Objects *)

Section ObjFacts.
Context {V : Type}.
Implicit Types (o : Obj.t V) (k : string) (v : V).

Lemma get_set o k v k' :
  Obj.get (Obj.set o k v) k' = if String.eqb k k' then Some v else Obj.get o k'.
Proof.
  induction o as [|[k0 v0] o IH]; cbn [Obj.set Obj.get].
  - reflexivity.
  - destruct (String.eqb k0 k) eqn:E0; cbn [Obj.get].
    + apply String.eqb_eq in E0. subst k0.
      destruct (String.eqb k k'); reflexivity.
    + destruct (String.eqb k0 k') eqn:E1.
      * apply String.eqb_eq in E1. subst k0.
        rewrite String.eqb_sym, E0. reflexivity.
      * exact IH.
Qed.

Lemma get_Some_existsb o k :
  existsb (String.eqb k) (map fst o)
  = match Obj.get o k with Some _ => true | None => false end.
Proof.
  induction o as [|[k0 v0] o IH]; cbn [map fst existsb Obj.get].
  - reflexivity.
  - rewrite (String.eqb_sym k k0).
    destruct (String.eqb k0 k); [reflexivity | exact IH].
Qed.

(** Assignment keeps the creation order and appends a new key. *)
Lemma keys_set o k v :
  map fst (Obj.set o k v) = Overview.setAdd (map fst o) k.
Proof.
  unfold Overview.setAdd.
  induction o as [|[k0 v0] o IH]; cbn [Obj.set map fst existsb].
  - reflexivity.
  - rewrite (String.eqb_sym k k0).
    destruct (String.eqb k0 k) eqn:E; cbn [orb map fst].
    + reflexivity.
    + rewrite IH.
      destruct (existsb (String.eqb k) (map fst o)); reflexivity.
Qed.

Lemma get_In o k v : Obj.get o k = Some v -> In (k, v) o.
Proof.
  induction o as [|[k0 v0] o IH]; cbn [Obj.get]; [discriminate|].
  destruct (String.eqb k0 k) eqn:E.
  - apply String.eqb_eq in E. subst k0. intros [= ->]. left; reflexivity.
  - intro H. right. apply IH, H.
Qed.

Lemma In_get o k v : NoDup (map fst o) -> In (k, v) o -> Obj.get o k = Some v.
Proof.
  induction o as [|[k0 v0] o IH]; cbn [map fst Obj.get]; [intros _ []|].
  intros ND [H|H].
  - injection H as -> ->. rewrite String.eqb_refl. reflexivity.
  - inversion ND as [|? ? Hn ND']; subst.
    destruct (String.eqb k0 k) eqn:E.
    + apply String.eqb_eq in E. subst k0. exfalso. apply Hn.
      apply (in_map fst) in H. exact H.
    + apply IH; assumption.
Qed.

End ObjFacts.

Lemma existsb_eqb_In (x : string) (l : list string) :
  existsb (String.eqb x) l = true <-> In x l.
Proof.
  rewrite existsb_exists. split.
  - intros [y [Hy E]]. apply String.eqb_eq in E. subst. exact Hy.
  - intro H. exists x. split; [exact H | apply String.eqb_refl].
Qed.

Lemma setAdd_NoDup (l : list string) (x : string) :
  NoDup l -> NoDup (Overview.setAdd l x).
Proof.
  intro ND. unfold Overview.setAdd.
  destruct (existsb (String.eqb x) l) eqn:E; [exact ND|].
  apply NoDup_app; [exact ND | constructor; [intros []|constructor] |].
  intros y Hy [<-|[]].
  apply existsb_eqb_In in Hy. congruence.
Qed.

Lemma setAdd_fold_NoDup (xs l : list string) :
  NoDup l -> NoDup (fold_left Overview.setAdd xs l).
Proof.
  revert l. induction xs as [|x xs IH]; intros l ND; cbn [fold_left].
  - exact ND.
  - apply IH, setAdd_NoDup, ND.
Qed.

Lemma distinct_NoDup (l : list string) : NoDup (Spec.distinct l).
Proof. apply setAdd_fold_NoDup. constructor. Qed.

Lemma setAdd_In (l : list string) (x y : string) :
  In y (Overview.setAdd l x) <-> In y l \/ y = x.
Proof.
  unfold Overview.setAdd.
  destruct (existsb (String.eqb x) l) eqn:E.
  - apply existsb_eqb_In in E. split; [tauto|]. intros [H| ->]; assumption.
  - rewrite in_app_iff. cbn [In]. split.
    + intros [H|[H|[]]]; [left; exact H | right; symmetry; exact H].
    + intros [H|H]; [left; exact H | right; left; symmetry; exact H].
Qed.

Lemma setAdd_fold_In (xs l : list string) (y : string) :
  In y (fold_left Overview.setAdd xs l) <-> In y l \/ In y xs.
Proof.
  revert l. induction xs as [|x xs IH]; intro l; cbn [fold_left In].
  - tauto.
  - rewrite IH, setAdd_In. split; intros H; intuition (subst; auto).
Qed.

Lemma distinct_In (l : list string) (y : string) :
  In y (Spec.distinct l) <-> In y l.
Proof. unfold Spec.distinct. rewrite setAdd_fold_In. cbn [In]. tauto. Qed.

(** *** The grouping idiom *)

Section Grouping.
Context {M V : Type}.
Variable key : M -> string.
Variable new : M -> V.
Variable upd : V -> M -> V.

Let step := Obj.upsert key new upd.

Lemma upsert_keys (ms : list M) (o : Obj.t V) :
  map fst (fold_left step ms o)
  = fold_left Overview.setAdd (map key ms) (map fst o).
Proof.
  revert o. induction ms as [|m ms IH]; intro o; cbn [fold_left map].
  - reflexivity.
  - rewrite IH. unfold step, Obj.upsert. rewrite keys_set. reflexivity.
Qed.

Lemma upsert_get (ms : list M) (o : Obj.t V) (k : string) :
  Obj.get (fold_left step ms o) k
  = match filter (fun m => String.eqb (key m) k) ms with
    | [] => Obj.get o k
    | m0 :: r =>
        Some (fold_left upd (m0 :: r)
                (match Obj.get o k with Some v => v | None => new m0 end))
    end.
Proof.
  revert o. induction ms as [|m ms IH]; intro o; cbn [fold_left filter].
  - reflexivity.
  - rewrite IH. unfold step at 1 2, Obj.upsert. rewrite get_set.
    destruct (String.eqb (key m) k) eqn:E.
    + apply String.eqb_eq in E. subst k.
      destruct (filter (fun m0 => String.eqb (key m0) (key m)) ms);
        reflexivity.
    + reflexivity.
Qed.

(** The object built from nothing holds the distinct keys in order of
    first appearance, each with its grouped value. *)
Lemma grouped_keys (ms : list M) :
  map fst (fold_left step ms Obj.empty) = Spec.distinct (map key ms).
Proof. apply upsert_keys. Qed.

Lemma grouped_get (ms : list M) (k : string) :
  Obj.get (fold_left step ms Obj.empty) k = Obj.grouped key new upd ms k.
Proof.
  rewrite upsert_get. unfold Obj.grouped. cbn [Obj.get Obj.empty].
  reflexivity.
Qed.

Lemma grouped_NoDup (ms : list M) :
  NoDup (map fst (fold_left step ms Obj.empty)).
Proof. rewrite grouped_keys. apply distinct_NoDup. Qed.

Lemma grouped_In (ms : list M) (k : string) (v : V) :
  In (k, v) (fold_left step ms Obj.empty)
  <-> Obj.grouped key new upd ms k = Some v.
Proof.
  rewrite <- grouped_get. split.
  - apply In_get, grouped_NoDup.
  - apply get_In.
Qed.

End Grouping.

(** *** Enumeration order *)

Section Enumeration.
Context {V : Type}.
Implicit Types (o l : Obj.t V) (e : string * V).

Lemma insertIdx_perm e l : Permutation (e :: l) (Obj.insertIdx e l).
Proof.
  induction l as [|e' l IH]; cbn [Obj.insertIdx].
  - apply Permutation_refl.
  - destruct (Obj.indexOf (fst e) <=? Obj.indexOf (fst e'))%N.
    + apply Permutation_refl.
    + eapply perm_trans; [apply perm_swap|]. apply perm_skip, IH.
Qed.

Lemma sortIdx_perm l : Permutation l (Obj.sortIdx l).
Proof.
  induction l as [|e l IH]; cbn [Obj.sortIdx].
  - apply perm_nil.
  - eapply perm_trans; [apply perm_skip, IH | apply insertIdx_perm].
Qed.

Lemma partition_perm (f : string * V -> bool) l :
  Permutation l (filter f l ++ filter (fun e => negb (f e)) l).
Proof.
  induction l as [|e l IH]; cbn [filter]; [apply perm_nil|].
  destruct (f e); cbn [negb app].
  - apply perm_skip, IH.
  - apply Permutation_cons_app, IH.
Qed.

(** Enumeration visits every own property once. *)
Lemma entries_perm o : Permutation o (Obj.entries o).
Proof.
  unfold Obj.entries.
  eapply perm_trans; [apply (partition_perm (fun e => Obj.isIndex (fst e)))|].
  apply Permutation_app_tail, sortIdx_perm.
Qed.

Lemma insertIdx_sorted e l :
  Sorted Obj.idxLe l -> Sorted Obj.idxLe (Obj.insertIdx e l).
Proof.
  induction l as [|e' l IH]; intro S; cbn [Obj.insertIdx].
  - repeat constructor.
  - destruct (Obj.indexOf (fst e) <=? Obj.indexOf (fst e'))%N eqn:E.
    + constructor; [exact S|]. constructor. apply N.leb_le, E.
    + apply N.leb_gt in E. inversion S as [|? ? S' H]; subst.
      constructor; [apply IH, S'|].
      destruct l as [|e'' l]; cbn [Obj.insertIdx].
      * constructor. unfold Obj.idxLe. lia.
      * destruct (Obj.indexOf (fst e) <=? Obj.indexOf (fst e''))%N.
        -- constructor. unfold Obj.idxLe. lia.
        -- inversion H; subst. constructor. assumption.
Qed.

Lemma sortIdx_sorted l : Sorted Obj.idxLe (Obj.sortIdx l).
Proof.
  induction l as [|e l IH]; cbn [Obj.sortIdx].
  - constructor.
  - apply insertIdx_sorted, IH.
Qed.

Lemma filter_all (f : string * V -> bool) l :
  (forall e, In e l -> f e = true) -> filter f l = l.
Proof.
  induction l as [|e l IH]; intro H; cbn [filter]; [reflexivity|].
  rewrite (H e (or_introl eq_refl)). f_equal. apply IH.
  intros e' He'. apply H. right. exact He'.
Qed.

Lemma filter_none (f : string * V -> bool) l :
  (forall e, In e l -> f e = false) -> filter f l = [].
Proof.
  induction l as [|e l IH]; intro H; cbn [filter]; [reflexivity|].
  rewrite (H e (or_introl eq_refl)). apply IH.
  intros e' He'. apply H. right. exact He'.
Qed.

(** With no array-index key, enumeration order is creation order. *)
Lemma entries_names o :
  (forall e, In e o -> Obj.isIndex (fst e) = false) -> Obj.entries o = o.
Proof.
  intro H. unfold Obj.entries.
  rewrite filter_none by exact H. cbn [Obj.sortIdx app].
  apply filter_all. intros e He. rewrite (H e He). reflexivity.
Qed.

(** In general the array-index keys come first, in ascending order, and
    the other keys follow in creation order. *)
Lemma entries_order o :
  exists idx,
    Obj.entries o = (idx ++ filter (fun e => negb (Obj.isIndex (fst e))) o)%list
    /\ Permutation (filter (fun e => Obj.isIndex (fst e)) o) idx
    /\ Sorted Obj.idxLe idx.
Proof.
  exists (Obj.sortIdx (filter (fun e => Obj.isIndex (fst e)) o)).
  split; [reflexivity|]. split; [apply sortIdx_perm | apply sortIdx_sorted].
Qed.

Lemma keys_perm o : Permutation (map fst o) (Obj.keys o).
Proof. unfold Obj.keys. apply Permutation_map, entries_perm. Qed.

Lemma keys_In_get o k :
  In k (Obj.keys o) -> exists v, Obj.get o k = Some v /\ In (k, v) o.
Proof.
  intro H. apply (Permutation_in _ (Permutation_sym (keys_perm o))) in H.
  induction o as [|[k0 v0] o IH]; cbn [map fst In Obj.get] in *; [contradiction|].
  destruct (String.eqb k0 k) eqn:E.
  - apply String.eqb_eq in E. subst. exists v0. split; [reflexivity|].
    left; reflexivity.
  - destruct H as [H|H]; [subst; rewrite String.eqb_refl in E; discriminate|].
    destruct (IH H) as [v [G I]]. exists v. split; [exact G | right; exact I].
Qed.

End Enumeration.

(** ** Sums, means and counts *)

Lemma fold_plus (l : list Q) (a : Q) : fold_left Qplus l a == a + Spec.total l.
Proof.
  revert a. induction l as [|x l IH]; intro a; cbn [fold_left Spec.total].
  - rewrite Qplus_0_r. reflexivity.
  - rewrite IH. rewrite Qplus_assoc. reflexivity.
Qed.

Lemma sum_total (l : list Q) : Js.sum l == Spec.total l.
Proof. unfold Js.sum. rewrite fold_plus. apply Qplus_0_l. Qed.

Lemma mean_meanOf (l : list Q) : Overview.mean l == Spec.meanOf l.
Proof.
  unfold Overview.mean, Spec.meanOf. rewrite sum_total. reflexivity.
Qed.

Lemma total_perm (l l' : list Q) :
  Permutation l l' -> Spec.total l == Spec.total l'.
Proof.
  induction 1 as [|x l l' _ IH|x y l|l l' l'' _ IH1 _ IH2]; cbn [Spec.total].
  - reflexivity.
  - rewrite IH. reflexivity.
  - rewrite !Qplus_assoc. rewrite (Qplus_comm y x). reflexivity.
  - rewrite IH1. exact IH2.
Qed.

Lemma total_map_ext {A : Type} (f g : A -> Q) (l : list A) :
  (forall x, In x l -> f x == g x) ->
  Spec.total (map f l) == Spec.total (map g l).
Proof.
  induction l as [|x l IH]; intro H; cbn [map Spec.total].
  - reflexivity.
  - rewrite (H x (or_introl eq_refl)), IH; [reflexivity|].
    intros y Hy. apply H. right. exact Hy.
Qed.

Lemma count_perm {A : Type} (p : A -> bool) (l l' : list A) :
  Permutation l l' -> length (filter p l) = length (filter p l').
Proof.
  induction 1 as [|x l l' _ IH|x y l|l l' l'' _ IH1 _ IH2]; cbn [filter].
  - reflexivity.
  - destruct (p x); cbn [length]; congruence.
  - destruct (p x), (p y); reflexivity.
  - congruence.
Qed.

Lemma count_map_ext {A : Type} (p q : Q -> bool) (f g : A -> Q) (l : list A) :
  (forall x, In x l -> p (f x) = q (g x)) ->
  length (filter p (map f l)) = length (filter q (map g l)).
Proof.
  induction l as [|x l IH]; intro H; cbn [map filter]; [reflexivity|].
  rewrite (H x (or_introl eq_refl)).
  assert (IH' : length (filter p (map f l)) = length (filter q (map g l)))
    by (apply IH; intros y Hy; apply H; right; exact Hy).
  destruct (q (g x)); cbn [length]; congruence.
Qed.

(** ** Department statistics *)

Lemma studentAvg_mean (marks : list Mark.t) (k : string) :
  studentAvg marks k == Spec.studentMean marks k.
Proof. apply mean_meanOf. Qed.

Lemma markStep_upsert :
  Analytics.markStep
  = Obj.upsert Mark.studentId (fun _ => Analytics.Acc.mk 0 0)
      (fun a m => Analytics.Acc.mk (Analytics.Acc.total a + Overview.score m)
                                   (S (Analytics.Acc.count a))).
Proof. reflexivity. Qed.

Lemma acc_fold (ms : list Mark.t) (a : Analytics.Acc.t) :
  fold_left (fun a m => Analytics.Acc.mk (Analytics.Acc.total a + Overview.score m)
                                         (S (Analytics.Acc.count a))) ms a
  = Analytics.Acc.mk
      (fold_left Qplus (map Overview.score ms) (Analytics.Acc.total a))
      (length ms + Analytics.Acc.count a).
Proof.
  revert a. induction ms as [|m ms IH]; intro a; cbn [fold_left map length].
  - destruct a; reflexivity.
  - rewrite IH. cbn [Analytics.Acc.total Analytics.Acc.count].
    f_equal. lia.
Qed.

(** Every property of [studentMarks] holds the sum and the number of the
    student's records, and there is at least one record. *)
Lemma studentMarks_entry (marks : list Mark.t) (k : string) (a : Analytics.Acc.t) :
  In (k, a) (Analytics.studentMarks marks) ->
  a = Analytics.Acc.mk (Js.sum (map Overview.score (Spec.recordsOf marks k)))
                       (length (Spec.recordsOf marks k))
  /\ Spec.recordsOf marks k <> [].
Proof.
  unfold Analytics.studentMarks. rewrite markStep_upsert.
  intro H. apply grouped_In in H. unfold Obj.grouped in H.
  unfold Spec.recordsOf.
  destruct (filter (fun m => String.eqb (Mark.studentId m) k) marks)
    as [|m0 r] eqn:E; [discriminate|].
  injection H as <-. rewrite acc_fold.
  split; [|discriminate]. unfold Js.sum.
  cbn [map fold_left length Analytics.Acc.total Analytics.Acc.count].
  f_equal. lia.
Qed.

Lemma studentMarks_keys (marks : list Mark.t) :
  map fst (Analytics.studentMarks marks) = Spec.students marks.
Proof.
  unfold Analytics.studentMarks. rewrite markStep_upsert.
  apply grouped_keys.
Qed.

Lemma accAvg_studentAvg (marks : list Mark.t) (k : string) (a : Analytics.Acc.t) :
  In (k, a) (Analytics.studentMarks marks) ->
  Analytics.accAvg a = studentAvg marks k.
Proof.
  intro H. destruct (studentMarks_entry marks k a H) as [-> _].
  unfold studentAvg, Analytics.accAvg, Overview.mean.
  cbn [Analytics.Acc.total Analytics.Acc.count].
  rewrite length_map. reflexivity.
Qed.

Lemma tally_fold (o : Obj.t Analytics.Acc.t) (f : string -> Q)
    (ks : list string) (t : Analytics.Tally) :
  (forall k, In k ks ->
     exists a, Obj.get o k = Some a /\ Analytics.accAvg a = f k) ->
  fold_left (Analytics.tallyStep o) ks t
  = Analytics.mkTally
      (fold_left Qplus (map f ks) (Analytics.totalAvg t))
      (Analytics.passedStudents t
       + length (filter (fun q => Js.ge q Analytics.PASS_THRESHOLD) (map f ks)))
      (Analytics.atRiskStudents t
       + length (filter (fun q => Js.lt q Analytics.RISK_THRESHOLD) (map f ks))).
Proof.
  revert t. induction ks as [|k ks IH]; intros t H; cbn [fold_left map filter length].
  - destruct t; cbn. f_equal; lia.
  - rewrite IH by (intros k' Hk'; apply H; right; exact Hk').
    destruct (H k (or_introl eq_refl)) as [a [G E]].
    unfold Analytics.tallyStep. rewrite G, E.
    cbn [Analytics.totalAvg Analytics.passedStudents Analytics.atRiskStudents].
    f_equal.
    + destruct (Js.ge (f k) Analytics.PASS_THRESHOLD); cbn [length]; lia.
    + destruct (Js.lt (f k) Analytics.RISK_THRESHOLD); cbn [length]; lia.
Qed.

Lemma students_nonempty (marks : list Mark.t) :
  marks <> [] -> (0 < length (Spec.students marks))%nat.
Proof.
  destruct marks as [|m marks]; [congruence|]. intros _.
  assert (H : In (Mark.studentId m) (Spec.students (m :: marks))).
  { unfold Spec.students. apply distinct_In. left. reflexivity. }
  destruct (Spec.students (m :: marks)); [destruct H | cbn [length]; lia].
Qed.

Lemma keys_students (marks : list Mark.t) :
  Permutation (Obj.keys (Analytics.studentMarks marks)) (Spec.students marks).
Proof.
  rewrite <- studentMarks_keys. apply Permutation_sym, keys_perm.
Qed.

Lemma round1_comp (x y : Q) : x == y -> Spec.round1 x = Spec.round1 y.
Proof.
  intro E. rewrite <- !parseFloat_toFixed1. rewrite (toFixed1_comp x y E).
  reflexivity.
Qed.

(** The tally of the statistics handler in terms of the students' means. *)
Lemma stats_tally (marks : list Mark.t) :
  let o := Analytics.studentMarks marks in
  let t := fold_left (Analytics.tallyStep o) (Obj.keys o) (Analytics.mkTally 0 0 0) in
  Analytics.totalAvg t == Spec.total (Spec.studentMeans marks)
  /\ Analytics.passedStudents t = Spec.countIf Spec.passes (Spec.studentMeans marks)
  /\ Analytics.atRiskStudents t = Spec.countIf Spec.atRisk (Spec.studentMeans marks).
Proof.
  intros o t. subst t.
  rewrite (tally_fold o (studentAvg marks)).
  2:{ intros k Hk. destruct (keys_In_get o k Hk) as [a [G I]].
      exists a. split; [exact G|]. apply accAvg_studentAvg, I. }
  cbn [Analytics.totalAvg Analytics.passedStudents Analytics.atRiskStudents].
  pose proof (keys_students marks) as P. fold o in P.
  unfold Spec.countIf, Spec.studentMeans.
  split; [|split].
  - rewrite fold_plus, Qplus_0_l.
    rewrite (total_perm _ _ (Permutation_map (studentAvg marks) P)).
    apply total_map_ext. intros k _. apply studentAvg_mean.
  - cbn [plus].
    rewrite (count_perm _ _ _ (Permutation_map (studentAvg marks) P)).
    apply count_map_ext. intros k _.
    unfold Spec.passes. apply ge_comp, studentAvg_mean.
  - cbn [plus].
    rewrite (count_perm _ _ _ (Permutation_map (studentAvg marks) P)).
    apply count_map_ext. intros k _.
    unfold Spec.atRisk. apply (lt_comp _ _ 18), studentAvg_mean.
Qed.

(** The statistics of a non-empty collection, field by field. *)
Lemma stats_eq (marks : list Mark.t) :
  marks <> [] ->
  let means := Spec.studentMeans marks in
  let n := length (Spec.students marks) in
  Analytics.stats marks
  = Analytics.mkStats
      (Spec.round1 (Spec.meanOf means))
      (Spec.round1 (100 * Analytics.ofNat (Spec.countIf Spec.passes means)
                    / Analytics.ofNat n))
      (Spec.countIf Spec.atRisk means) n.
Proof.
  intros Hne means n.
  pose proof (students_nonempty marks Hne) as Hpos. fold n in Hpos.
  pose proof (Permutation_length (keys_students marks)) as Hlen. fold n in Hlen.
  destruct (stats_tally marks) as [HT [HP HR]].
  unfold Analytics.stats.
  destruct marks as [|m marks]; [congruence|].
  cbn [length Nat.eqb]. cbv zeta. rewrite Hlen.
  destruct (0 <? n)%nat eqn:Z; [|apply Nat.ltb_ge in Z; lia].
  rewrite HP, HR. fold means. rewrite !parseFloat_toFixed1. f_equal.
  - apply round1_comp. unfold Spec.meanOf. rewrite HT.
    subst means n. unfold Spec.studentMeans. rewrite length_map. reflexivity.
  - apply round1_comp. unfold Qdiv. ring.
Qed.

(** *** Four students *)








(** ** The alerts of the overview *)

Lemma number_app mk i (l l' : list (string * Q)) :
  Spec.number mk i (l ++ l')
  = (Spec.number mk i l ++ Spec.number mk (i + length l) l')%list.
Proof.
  revert i. induction l as [|[who avg] l IH]; intro i; cbn [app Spec.number length].
  - rewrite Nat.add_0_r. reflexivity.
  - rewrite IH. cbn [app]. do 3 f_equal. lia.
Qed.

Lemma number_length mk i (l : list (string * Q)) :
  length (Spec.number mk i l) = length l.
Proof.
  revert i. induction l as [|[who avg] l IH]; intro i; cbn [Spec.number length].
  - reflexivity.
  - rewrite IH. reflexivity.
Qed.

Lemma riskStep_flagged today (P : list (string * Q)) (e : Overview.Entry.t) :
  Overview.riskStep today (riskState today P) e
  = riskState today (P ++ flagged e).
Proof.
  unfold Overview.riskStep, flagged.
  destruct (Js.lt (Overview.mean (Overview.Entry.scores e)) 18);
    [|rewrite app_nil_r; reflexivity].
  destruct (Overview.Entry.student e) as [s|];
    [|rewrite app_nil_r; reflexivity].
  unfold riskState.
  cbn [Overview.alerts Overview.atRiskCount Overview.alertId].
  rewrite number_length, length_firstn, length_app. cbn [length].
  destruct (Nat.min 5 (length P) <? 5)%nat eqn:E.
  - apply Nat.ltb_lt in E.
    assert (L : (length P < 5)%nat) by lia.
    rewrite (firstn_all2 P) by lia.
    rewrite (firstn_all2 (P ++ _)) by (rewrite length_app; cbn [length]; lia).
    rewrite number_app. cbn [Spec.number].
    f_equal; [lia| |lia].
    do 3 f_equal. lia.
  - apply Nat.ltb_ge in E.
    rewrite firstn_app.
    replace (5 - length P)%nat with 0%nat by lia.
    cbn [firstn]. rewrite app_nil_r.
    f_equal; lia.
Qed.

Lemma riskLoop_fold today (es : list Overview.Entry.t) (P : list (string * Q)) :
  fold_left (Overview.riskStep today) es (riskState today P)
  = riskState today (P ++ flat_map flagged es).
Proof.
  revert P. induction es as [|e es IH]; intro P; cbn [fold_left flat_map].
  - rewrite app_nil_r. reflexivity.
  - rewrite riskStep_flagged, IH, app_assoc. reflexivity.
Qed.

(** *** Enumeration depends on the keys only *)

Section Order.
Context {V W : Type}.
Variable g : V -> W.

Let h (e : string * V) : string * W := (fst e, g (snd e)).

Lemma insertIdx_map (e : string * V) (l : Obj.t V) :
  map h (Obj.insertIdx e l) = Obj.insertIdx (h e) (map h l).
Proof.
  induction l as [|e' l IH]; cbn [Obj.insertIdx map]; [reflexivity|].
  cbn [h fst].
  destruct (Obj.indexOf (fst e) <=? Obj.indexOf (fst e'))%N; cbn [map].
  - reflexivity.
  - rewrite IH. reflexivity.
Qed.

Lemma sortIdx_map (l : Obj.t V) :
  map h (Obj.sortIdx l) = Obj.sortIdx (map h l).
Proof.
  induction l as [|e l IH]; cbn [Obj.sortIdx map]; [reflexivity|].
  rewrite insertIdx_map, IH. reflexivity.
Qed.

Lemma filter_key_map (f : string -> bool) (l : Obj.t V) :
  map h (filter (fun e => f (fst e)) l) = filter (fun e => f (fst e)) (map h l).
Proof.
  induction l as [|e l IH]; cbn [filter map]; [reflexivity|].
  cbn [h fst]. destruct (f (fst e)); cbn [map]; rewrite IH; reflexivity.
Qed.

Lemma entries_map (o : Obj.t V) :
  map h (Obj.entries o) = Obj.entries (map h o).
Proof.
  unfold Obj.entries. rewrite map_app, sortIdx_map.
  rewrite (filter_key_map Obj.isIndex).
  rewrite (filter_key_map (fun k => negb (Obj.isIndex k))).
  reflexivity.
Qed.

End Order.

Lemma keys_order {V : Type} (o : Obj.t V) : Obj.keys o = Obj.order (map fst o).
Proof.
  unfold Obj.order, Obj.keys.
  rewrite map_map. cbn [fst].
  rewrite <- (entries_map (fun _ : V => tt) o).
  rewrite map_map. reflexivity.
Qed.

Lemma entries_In {V : Type} (o : Obj.t V) (e : string * V) :
  In e (Obj.entries o) <-> In e o.
Proof.
  split; apply Permutation_in;
    [apply Permutation_sym|]; apply entries_perm.
Qed.

(** A function of the values that is determined by the keys can be read off
    the keys. *)
Lemma flat_map_values {V A : Type} (o : Obj.t V) (F : V -> list A)
    (G : string -> list A) :
  (forall k v, In (k, v) o -> F v = G k) ->
  flat_map F (Obj.values o) = flat_map G (Obj.keys o).
Proof.
  intro H. unfold Obj.values, Obj.keys.
  assert (H' : forall e, In e (Obj.entries o) -> F (snd e) = G (fst e)).
  { intros [k v] He. apply H, entries_In, He. }
  induction (Obj.entries o) as [|e l IH]; cbn [map flat_map]; [reflexivity|].
  rewrite (H' e (or_introl eq_refl)), IH; [reflexivity|].
  intros e' He'. apply H'. right. exact He'.
Qed.

Lemma entries_values {V A : Type} (o : Obj.t V) (F : string * V -> list A)
    (G : string -> list A) :
  (forall k v, In (k, v) o -> F (k, v) = G k) ->
  flat_map F (Obj.entries o) = flat_map G (Obj.keys o).
Proof.
  intro H. unfold Obj.keys.
  assert (H' : forall e, In e (Obj.entries o) -> F e = G (fst e)).
  { intros [k v] He. apply H, entries_In, He. }
  induction (Obj.entries o) as [|e l IH]; cbn [map flat_map]; [reflexivity|].
  rewrite (H' e (or_introl eq_refl)), IH; [reflexivity|].
  intros e' He'. apply H'. right. exact He'.
Qed.

(** *** The student map *)

Lemma studentStep_upsert :
  Overview.studentStep
  = Obj.upsert Mark.studentId
      (fun m => Overview.Entry.mk (Mark.student m) [] [])
      (fun e m =>
         Overview.Entry.mk (Overview.Entry.student e)
           (Overview.Entry.scores e ++ [Overview.score m])%list
           (match Mark.subject m with
            | Some s => Overview.setAdd (Overview.Entry.subjects e) (Subject.name s)
            | None => Overview.Entry.subjects e
            end)).
Proof. reflexivity. Qed.

Lemma entry_fold (ms : list Mark.t) (e : Overview.Entry.t) :
  let e' := fold_left
      (fun e m =>
         Overview.Entry.mk (Overview.Entry.student e)
           (Overview.Entry.scores e ++ [Overview.score m])%list
           (match Mark.subject m with
            | Some s => Overview.setAdd (Overview.Entry.subjects e) (Subject.name s)
            | None => Overview.Entry.subjects e
            end)) ms e in
  Overview.Entry.student e' = Overview.Entry.student e
  /\ Overview.Entry.scores e'
     = (Overview.Entry.scores e ++ map Overview.score ms)%list.
Proof.
  revert e. induction ms as [|m ms IH]; intro e; cbn [fold_left map].
  - rewrite app_nil_r. split; reflexivity.
  - destruct (IH (Overview.Entry.mk (Overview.Entry.student e)
           (Overview.Entry.scores e ++ [Overview.score m])%list
           (match Mark.subject m with
            | Some s => Overview.setAdd (Overview.Entry.subjects e) (Subject.name s)
            | None => Overview.Entry.subjects e
            end))) as [H1 H2].
    cbv zeta in *. rewrite H1, H2.
    cbn [Overview.Entry.student Overview.Entry.scores].
    rewrite <- app_assoc. split; reflexivity.
Qed.

(** Every property of [studentMarksMap] holds the joined student of the
    student's first record and the scores of the student's records. *)
Lemma studentMarksMap_entry (marks : list Mark.t) (k : string)
    (e : Overview.Entry.t) :
  In (k, e) (Overview.studentMarksMap marks) ->
  Overview.Entry.student e = Spec.studentOf marks k
  /\ Overview.Entry.scores e = map Overview.score (Spec.recordsOf marks k).
Proof.
  unfold Overview.studentMarksMap. rewrite studentStep_upsert.
  intro H. apply grouped_In in H. unfold Obj.grouped in H.
  unfold Spec.studentOf, Spec.recordsOf.
  destruct (filter (fun m => String.eqb (Mark.studentId m) k) marks)
    as [|m0 r] eqn:E; [discriminate|].
  injection H as <-.
  match goal with
  | |- Overview.Entry.student (fold_left ?f ?ms ?e0) = _ /\ _ =>
      destruct (entry_fold ms e0) as [H1 H2]
  end.
  cbv zeta in H1, H2. rewrite H1, H2.
  cbn [Overview.Entry.student Overview.Entry.scores app]. split; reflexivity.
Qed.

Lemma studentMarksMap_keys (marks : list Mark.t) :
  Obj.keys (Overview.studentMarksMap marks) = Obj.order (Spec.students marks).
Proof.
  rewrite keys_order. f_equal.
  unfold Overview.studentMarksMap. rewrite studentStep_upsert.
  apply grouped_keys.
Qed.

(** *** Reports that print alike *)

Lemma lowAverage_comp today i who (a b : Q) :
  a == b -> Overview.lowAverage today i who a = Overview.lowAverage today i who b.
Proof.
  intro E. unfold Overview.lowAverage. rewrite (toFixed1_comp a b E). reflexivity.
Qed.

Lemma lowClassAverage_comp today i who (a b : Q) :
  a == b ->
  Overview.lowClassAverage today i who a = Overview.lowClassAverage today i who b.
Proof.
  intro E. unfold Overview.lowClassAverage. rewrite (toFixed1_comp a b E).
  reflexivity.
Qed.

Lemma number_comp mk i (l l' : list (string * Q)) :
  (forall i who a b, a == b -> mk i who a = mk i who b) ->
  Forall2 sameReport l l' -> Spec.number mk i l = Spec.number mk i l'.
Proof.
  intros Hmk H. revert i.
  induction H as [|[w a] [w' a'] l l' [Hw Ha] _ IH]; intro i; cbn [Spec.number].
  - reflexivity.
  - cbn [fst snd] in Hw, Ha. subst w'. rewrite (Hmk i w a a' Ha), IH. reflexivity.
Qed.

Lemma Forall2_firstn {A B : Type} (R : A -> B -> Prop) n l l' :
  Forall2 R l l' -> Forall2 R (firstn n l) (firstn n l').
Proof.
  intro H. revert n. induction H as [|x y l l' Hxy _ IH]; intro n.
  - rewrite !firstn_nil. constructor.
  - destruct n; cbn [firstn]; constructor; [exact Hxy | apply IH].
Qed.

Lemma Forall2_flat_map {A B C : Type} (R : B -> C -> Prop)
    (F : A -> list B) (G : A -> list C) (l : list A) :
  (forall x, Forall2 R (F x) (G x)) ->
  Forall2 R (flat_map F l) (flat_map G l).
Proof.
  intro H. induction l as [|x l IH]; cbn [flat_map].
  - constructor.
  - apply Forall2_app; [apply H | exact IH].
Qed.

Lemma riskState_comp today (P P' : list (string * Q)) :
  Forall2 sameReport P P' -> riskState today P = riskState today P'.
Proof.
  intro H. unfold riskState.
  rewrite (Forall2_length H).
  rewrite (number_comp _ 1 (firstn 5 P) (firstn 5 P')).
  - reflexivity.
  - intros. apply lowAverage_comp. assumption.
  - apply Forall2_firstn, H.
Qed.

(** The students that the loop reports are the students at risk. *)
Lemma flagged_atRisk (marks : list Mark.t) :
  Forall2 sameReport
    (flat_map flagged (Obj.values (Overview.studentMarksMap marks)))
    (Spec.atRiskStudents marks).
Proof.
  rewrite (flat_map_values _ flagged
    (fun k => if Js.lt (studentAvg marks k) 18 then
                match Spec.studentOf marks k with
                | Some s => [(Student.name s, studentAvg marks k)]
                | None => []
                end
              else [])).
  - rewrite studentMarksMap_keys. unfold Spec.atRiskStudents.
    apply Forall2_flat_map. intro k.
    unfold Spec.atRisk.
    change (negb (Qle_bool 18 (Spec.studentMean marks k)))
      with (Js.lt (Spec.studentMean marks k) 18).
    rewrite (lt_comp _ _ 18 (studentAvg_mean marks k)).
    destruct (Js.lt (Spec.studentMean marks k) 18); [|constructor].
    destruct (Spec.studentOf marks k); constructor; [|constructor].
    split; [reflexivity | apply studentAvg_mean].
  - intros k e H. destruct (studentMarksMap_entry marks k e H) as [H1 H2].
    unfold flagged, studentAvg. rewrite H1, H2. reflexivity.
Qed.

Lemma riskLoop_spec today (marks : list Mark.t) :
  Overview.riskLoop today marks = riskState today (Spec.atRiskStudents marks).
Proof.
  unfold Overview.riskLoop.
  change (Overview.mkState 0 [] 1) with (riskState today []).
  rewrite riskLoop_fold. cbn [app].
  apply riskState_comp, flagged_atRisk.
Qed.

(** *** The subject map *)

Lemma perfStep_fold (marks : list Mark.t) (o : Obj.t Overview.Perf.t) :
  fold_left Overview.perfStep marks o
  = fold_left
      (Obj.upsert fst (fun _ => Overview.Perf.mk 0 0)
         (fun d x => Overview.Perf.mk (Overview.Perf.total d + snd x)
                                      (S (Overview.Perf.count d))))
      (scored marks) o.
Proof.
  revert o. induction marks as [|m marks IH]; intro o; [reflexivity|].
  unfold scored. cbn [fold_left flat_map]. fold (scored marks).
  rewrite fold_left_app, IH. f_equal.
  unfold Overview.perfStep. destruct (Mark.subject m); reflexivity.
Qed.

Lemma perf_fold (xs : list (string * Q)) (d : Overview.Perf.t) :
  fold_left (fun d x => Overview.Perf.mk (Overview.Perf.total d + snd x)
                                         (S (Overview.Perf.count d))) xs d
  = Overview.Perf.mk
      (fold_left Qplus (map snd xs) (Overview.Perf.total d))
      (length xs + Overview.Perf.count d).
Proof.
  revert d. induction xs as [|x xs IH]; intro d; cbn [fold_left map length].
  - destruct d; reflexivity.
  - rewrite IH. cbn [Overview.Perf.total Overview.Perf.count].
    f_equal. lia.
Qed.

Lemma scored_names (marks : list Mark.t) :
  map fst (scored marks)
  = flat_map (fun m => match Spec.subjectName m with
                       | Some n => [n]
                       | None => []
                       end) marks.
Proof.
  unfold scored, Spec.subjectName.
  induction marks as [|m marks IH]; cbn [flat_map map]; [reflexivity|].
  rewrite map_app, IH. destruct (Mark.subject m); reflexivity.
Qed.

Lemma scored_recordsIn (marks : list Mark.t) (n : string) :
  map snd (filter (fun x => String.eqb (fst x) n) (scored marks))
  = map Overview.score (Spec.recordsIn marks n).
Proof.
  unfold scored, Spec.recordsIn, Spec.subjectName.
  induction marks as [|m marks IH]; cbn [flat_map filter map]; [reflexivity|].
  rewrite filter_app, map_app, IH.
  destruct (Mark.subject m) as [s|]; cbn [option_map optEqb filter fst app map].
  - destruct (String.eqb (Subject.name s) n); reflexivity.
  - reflexivity.
Qed.

(** Every property of [subjectPerf] holds the sum and the number of the
    scores of a subject that has at least one record. *)
Lemma subjectPerf_entry (marks : list Mark.t) (n : string) (d : Overview.Perf.t) :
  In (n, d) (Overview.subjectPerf marks) ->
  d = Overview.Perf.mk (Js.sum (map Overview.score (Spec.recordsIn marks n)))
                       (length (Spec.recordsIn marks n))
  /\ (0 < Overview.Perf.count d)%nat.
Proof.
  unfold Overview.subjectPerf. rewrite perfStep_fold.
  intro H. apply grouped_In in H. unfold Obj.grouped in H.
  pose proof (scored_recordsIn marks n) as E.
  destruct (filter (fun x => String.eqb (fst x) n) (scored marks))
    as [|x0 r]; [discriminate|].
  injection H as <-. rewrite perf_fold.
  cbn [Overview.Perf.total Overview.Perf.count].
  split; [|lia].
  assert (L : length (Spec.recordsIn marks n) = S (length r)).
  { rewrite <- (length_map Overview.score), <- E, length_map. reflexivity. }
  rewrite <- E, L. unfold Js.sum. cbn [map fold_left].
  f_equal. lia.
Qed.

Lemma subjectPerf_keys (marks : list Mark.t) :
  Obj.keys (Overview.subjectPerf marks) = Obj.order (Spec.subjectNames marks).
Proof.
  rewrite keys_order. f_equal.
  unfold Overview.subjectPerf. rewrite perfStep_fold.
  rewrite grouped_keys, scored_names. reflexivity.
Qed.

Lemma subjectLoop_fold today (es : list (string * Overview.Perf.t))
    (st : Overview.State) :
  fold_left (Overview.subjectStep today) es st
  = let low := flat_map (fun e => if Js.lt (Overview.perfAvg (snd e)) 25
                                  then [(fst e, Overview.perfAvg (snd e))]
                                  else []) es in
    Overview.mkState (Overview.atRiskCount st)
      (Overview.alerts st
         ++ Spec.number (Overview.lowClassAverage today) (Overview.alertId st) low)
      (Overview.alertId st + length low).
Proof.
  revert st. induction es as [|e es IH]; intro st; cbn [fold_left flat_map].
  - cbv zeta. cbn [Spec.number length]. rewrite app_nil_r, Nat.add_0_r.
    destruct st; reflexivity.
  - rewrite IH. cbv zeta. unfold Overview.subjectStep.
    destruct (Js.lt (Overview.perfAvg (snd e)) 25);
      cbn [Overview.atRiskCount Overview.alerts Overview.alertId app
           Spec.number length].
    + rewrite <- app_assoc. cbn [app]. f_equal. lia.
    + reflexivity.
Qed.

(** The subjects that the loop reports are the subjects with a mean below
    25. *)
Lemma low_subjects (marks : list Mark.t) :
  Forall2 sameReport
    (flat_map (fun e => if Js.lt (Overview.perfAvg (snd e)) 25
                        then [(fst e, Overview.perfAvg (snd e))]
                        else [])
              (Obj.entries (Overview.subjectPerf marks)))
    (Spec.lowSubjects marks).
Proof.
  set (avg := fun n => Overview.mean (map Overview.score (Spec.recordsIn marks n))).
  assert (A : forall n, avg n == Spec.subjectMean marks n)
    by (intro n; apply mean_meanOf).
  rewrite (entries_values _ _
    (fun n => if Js.lt (avg n) 25 then [(n, avg n)] else [])).
  - rewrite subjectPerf_keys. unfold Spec.lowSubjects.
    apply Forall2_flat_map. intro n.
    rewrite (lt_comp _ _ 25 (A n)).
    destruct (Js.lt (Spec.subjectMean marks n) 25); constructor; [|constructor].
    split; [reflexivity | apply A].
  - intros n d H. destruct (subjectPerf_entry marks n d H) as [-> _].
    cbn [fst snd]. unfold avg, Overview.perfAvg, Overview.mean.
    cbn [Overview.Perf.total Overview.Perf.count]. rewrite length_map.
    reflexivity.
Qed.

(** *** The whole alert list *)

Lemma subjectLoop_spec today (marks : list Mark.t) (st : Overview.State) :
  Overview.subjectLoop today marks st
  = Overview.mkState (Overview.atRiskCount st)
      (Overview.alerts st
         ++ Spec.number (Overview.lowClassAverage today) (Overview.alertId st)
              (Spec.lowSubjects marks))
      (Overview.alertId st + length (Spec.lowSubjects marks)).
Proof.
  unfold Overview.subjectLoop. rewrite subjectLoop_fold. cbv zeta.
  rewrite (Forall2_length (low_subjects marks)).
  rewrite (number_comp _ _ _ _
             (fun i who a b => lowClassAverage_comp today i who a b)
             (low_subjects marks)).
  reflexivity.
Qed.

(** The handler's alert list, before and after the positive alert, is the
    list that the specification describes. *)
Lemma raised_spec today (marks : list Mark.t) :
  Overview.alerts (Overview.raised today marks) = Spec.raised today marks.
Proof.
  unfold Overview.raised, Spec.raised. rewrite riskLoop_spec.
  unfold riskState, Overview.criticalStep.
  cbn [Overview.atRiskCount Overview.alerts Overview.alertId].
  set (R := Spec.atRiskStudents marks).
  destruct (5 <? length R)%nat; rewrite subjectLoop_spec;
    cbn [Overview.atRiskCount Overview.alerts Overview.alertId];
    unfold Overview.pendingStep;
    cbn [Overview.atRiskCount Overview.alerts Overview.alertId];
    destruct (0 <? Overview.pendingCount marks)%nat;
    cbn [Overview.atRiskCount Overview.alerts Overview.alertId app];
    rewrite <- ?app_assoc, ?app_nil_r; reflexivity.
Qed.

Lemma computeAlerts_spec today (marks : list Mark.t) :
  Overview.computeAlerts today marks = Spec.alerts today marks.
Proof.
  unfold Overview.computeAlerts, Overview.allClearStep, Spec.alerts.
  rewrite <- raised_spec.
  destruct (Overview.raised today marks) as [c al i].
  cbn [Overview.alerts Overview.atRiskCount Overview.alertId].
  destruct al; reflexivity.
Qed.

(** *** The order and the number of the students at risk *)

Lemma order_perm (ks : list string) : Permutation ks (Obj.order ks).
Proof.
  unfold Obj.order.
  eapply perm_trans; [|apply keys_perm].
  rewrite map_map. cbn [fst]. rewrite map_id. apply Permutation_refl.
Qed.

Lemma filter_fst_unit (f : string -> bool) (ks : list string) :
  map fst (filter (fun e : string * unit => f (fst e)) (map (fun k => (k, tt)) ks))
  = filter f ks.
Proof.
  induction ks as [|k ks IH]; cbn [map filter fst]; [reflexivity|].
  destruct (f k); cbn [map fst]; rewrite IH; reflexivity.
Qed.

Lemma Sorted_map_fst {V : Type} (l : Obj.t V) :
  Sorted Obj.idxLe l ->
  Sorted (fun a b => (Obj.indexOf a <= Obj.indexOf b)%N) (map fst l).
Proof.
  induction 1 as [|e l _ IH H]; cbn [map]; constructor; [exact IH|].
  destruct H; cbn [map]; constructor. assumption.
Qed.

(** Array-index ids come first in ascending order; the other ids keep the
    order in which they were created. *)
Lemma order_shape (ks : list string) :
  exists idx,
    Obj.order ks = (idx ++ filter (fun k => negb (Obj.isIndex k)) ks)%list
    /\ Permutation (filter Obj.isIndex ks) idx
    /\ Sorted (fun a b => (Obj.indexOf a <= Obj.indexOf b)%N) idx.
Proof.
  unfold Obj.order, Obj.keys, Obj.entries.
  exists (map fst (Obj.sortIdx
            (filter (fun e : string * unit => Obj.isIndex (fst e))
                    (map (fun k => (k, tt)) ks)))).
  split; [|split].
  - rewrite map_app.
    rewrite (filter_fst_unit (fun k => negb (Obj.isIndex k))). reflexivity.
  - rewrite <- (filter_fst_unit Obj.isIndex ks).
    apply Permutation_map, sortIdx_perm.
  - apply Sorted_map_fst, sortIdx_sorted.
Qed.

Lemma order_names (ks : list string) :
  (forall k, In k ks -> Obj.isIndex k = false) -> Obj.order ks = ks.
Proof.
  intro H. unfold Obj.order, Obj.keys. rewrite entries_names.
  - rewrite map_map. cbn [fst]. apply map_id.
  - intros [k u] He. apply in_map_iff in He. destruct He as [k' [E Hk']].
    injection E as <- _. apply H, Hk'.
Qed.

Lemma atRisk_count (marks : list Mark.t) :
  length (Spec.atRiskStudents marks) = Spec.atRiskCount marks.
Proof.
  unfold Spec.atRiskStudents, Spec.atRiskCount.
  rewrite (count_perm _ _ _ (order_perm (Spec.students marks))).
  induction (Obj.order (Spec.students marks)) as [|k ks IH];
    cbn [flat_map filter]; [reflexivity|].
  rewrite length_app, IH. unfold Spec.joined.
  destruct (Spec.atRisk (Spec.studentMean marks k));
    destruct (Spec.studentOf marks k); reflexivity.
Qed.

(** *** Types and ids of the alerts *)

Lemma number_types mk i (l : list (string * Q)) (t : Alert.severity) :
  (forall i who a, Alert.type (mk i who a) = t) ->
  Forall (fun a => Alert.type a = t) (Spec.number mk i l).
Proof.
  intro H. revert i.
  induction l as [|[who avg] l IH]; intro i; cbn [Spec.number]; constructor.
  - apply H.
  - apply IH.
Qed.

Lemma number_ids mk i (l : list (string * Q)) :
  (forall i who a, Alert.id (mk i who a) = i) ->
  map Alert.id (Spec.number mk i l) = seq i (length l).
Proof.
  intro H. revert i.
  induction l as [|[who avg] l IH]; intro i; cbn [Spec.number map length seq].
  - reflexivity.
  - rewrite H, IH. reflexivity.
Qed.

Lemma showN_head (n : N) : exists c r, Js.showN n = String c r /\ c <> "A"%char.
Proof.
  unfold Js.showN.
  destruct (N.to_uint n); cbn; eexists; eexists; (split; [reflexivity|discriminate]).
Qed.

Lemma pending_not_allClear today today' i n :
  Overview.pendingAlert today i n <> Overview.allClear today'.
Proof.
  unfold Overview.pendingAlert, Overview.allClear, Js.showNat. intro E.
  injection E as _ E _.
  destruct (showN_head (N.of_nat n)) as [c [r [Hs Hc]]].
  rewrite Hs in E. cbn in E. injection E as E _. apply Hc, E.
Qed.


(** *** The critical alert *)




(** *** The student warnings *)

Lemma filter_true {A : Type} (f : A -> bool) (l : list A) :
  (forall x, In x l -> f x = true) -> filter f l = l.
Proof.
  induction l as [|x l IH]; intro H; cbn [filter]; [reflexivity|].
  rewrite (H x (or_introl eq_refl)). f_equal. apply IH.
  intros y Hy. apply H. right. exact Hy.
Qed.

(** *** The subject warnings *)

Lemma scored_hasSubject (marks : list Mark.t) :
  scored (filter Spec.hasSubject marks) = scored marks.
Proof.
  unfold scored, Spec.hasSubject.
  induction marks as [|m marks IH]; cbn [filter flat_map]; [reflexivity|].
  destruct (Mark.subject m) eqn:E; cbn [flat_map]; rewrite ?E, IH; reflexivity.
Qed.

Lemma lowSubjects_names (marks : list Mark.t) :
  map fst (Spec.lowSubjects marks)
  = filter (fun n => Js.lt (Spec.subjectMean marks n) 25)
           (Obj.order (Spec.subjectNames marks)).
Proof.
  unfold Spec.lowSubjects.
  induction (Obj.order (Spec.subjectNames marks)) as [|n ns IH];
    cbn [flat_map filter]; [reflexivity|].
  rewrite map_app, IH.
  destruct (Js.lt (Spec.subjectMean marks n) 25); reflexivity.
Qed.

Lemma lowSubjects_NoDup (marks : list Mark.t) :
  NoDup (map fst (Spec.lowSubjects marks)).
Proof.
  rewrite lowSubjects_names. apply NoDup_filter.
  apply (Permutation_NoDup (order_perm _)), distinct_NoDup.
Qed.

Lemma subjectNames_records (marks : list Mark.t) (n : string) :
  In n (Spec.subjectNames marks) <-> Spec.recordsIn marks n <> [].
Proof.
  unfold Spec.subjectNames, Spec.recordsIn. rewrite distinct_In, in_flat_map.
  split.
  - intros [m [Hm Hn]] E.
    assert (I : In m (filter (fun m => optEqb (Spec.subjectName m) n) marks)).
    { apply filter_In. split; [exact Hm|].
      destruct (Spec.subjectName m) as [x|]; [|destruct Hn].
      destruct Hn as [->|[]]. cbn. apply String.eqb_refl. }
    rewrite E in I. destruct I.
  - intro H.
    destruct (filter (fun m => optEqb (Spec.subjectName m) n) marks)
      as [|m r] eqn:E; [congruence|].
    assert (I : In m (m :: r)) by (left; reflexivity).
    rewrite <- E in I. apply filter_In in I. destruct I as [Hm Hn].
    exists m. split; [exact Hm|].
    destruct (Spec.subjectName m) as [x|]; [|discriminate].
    cbn in Hn. apply String.eqb_eq in Hn. left. exact Hn.
Qed.

(** One subject with the scores 10, 10 and 10 out of 50 gets the warning
    naming it and "10.0". *)
Example subject_warning_tens :
  map Alert.message (Overview.computeAlerts Sample.today Sample.tens)
  = ["Maths has low class average (10.0/50)"].
Proof. vm_compute. reflexivity. Qed.

(** *** The pending alert and the positive alert *)

Lemma raised_before today (marks : list Mark.t) :
  Spec.raised today marks
  = (Spec.before today marks
       ++ (if (0 <? Overview.pendingCount marks)%nat
           then [Overview.pendingAlert today (S (length (Spec.before today marks)))
                                       (Overview.pendingCount marks)]
           else []))%list.
Proof.
  unfold Spec.raised, Spec.before.
  set (R := Spec.atRiskStudents marks). set (L := Spec.lowSubjects marks).
  rewrite <- !app_assoc. do 3 f_equal.
  destruct (0 <? Overview.pendingCount marks)%nat; [|reflexivity].
  do 2 f_equal.
  rewrite !length_app, !number_length, length_firstn.
  destruct (5 <? length R)%nat; cbn [length]; lia.
Qed.

Lemma before_types today (marks : list Mark.t) :
  Forall (fun a => Alert.type a <> Alert.info) (Spec.before today marks).
Proof.
  unfold Spec.before.
  apply Forall_app. split; [|apply Forall_app; split].
  - destruct (5 <? _)%nat; repeat constructor. discriminate.
  - eapply Forall_impl; [|apply (number_types _ _ _ Alert.warning); reflexivity].
    cbn. intros a ->. discriminate.
  - eapply Forall_impl; [|apply (number_types _ _ _ Alert.warning); reflexivity].
    cbn. intros a ->. discriminate.
Qed.

Example pending_only :
  map Alert.message (Overview.computeAlerts Sample.today Sample.pending3)
  = ["3 mark entries are still pending review"].
Proof. vm_compute. reflexivity. Qed.

(** *** Students whose row is not joined *)




(** *** The default department *)

Lemma findAll_department (db : Db) (dept : string) :
  Forall (fun m => exists s, Mark.subject m = Some s
                             /\ Subject.department s = dept)
         (CIEMark_findAll db dept).
Proof.
  apply Forall_forall. intros m H. unfold CIEMark_findAll in H.
  apply filter_In in H. destruct H as [_ H].
  destruct (Mark.subject m) as [s|]; [|discriminate].
  exists s. split; [reflexivity | apply String.eqb_eq, H].
Qed.

(** C10: without a [department] query parameter the overview is the
    aggregation over the marks of the subjects of department 'CS' and the
    faculty of 'CS', the same as when 'CS' is asked for. *)
Theorem overview_default_department (db : Db) (today : string) :
  Overview.handler db None today
  = Overview.aggregate today (CIEMark_findAll db "CS") (User_countFaculty db "CS")
  /\ Overview.handler db None today = Overview.handler db (Some "CS") today
  /\ Forall (fun m => exists s, Mark.subject m = Some s
                                /\ Subject.department s = "CS")
            (CIEMark_findAll db "CS").
Proof.
  split; [reflexivity|]. split; [reflexivity|]. apply findAll_department.
Qed.

(** *** POST /faculty *)

(** C8 (as amended): the handler hands [User.create] a row with role
    FACULTY whose password is the hash, with 10 rounds, of the supplied
    password, or of "password123" when the password is omitted or empty; no
    other field comes from the password; and when the row is created the
    response is 201 with the message and the new row's id. *)
Theorem post_faculty (bcrypt_hash : string -> nat -> string)
    (User_create : User.t -> Faculty.Created) (body : Faculty.Request) :
  let run := Faculty.handler bcrypt_hash User_create body in
  Faculty.created run
  = User.mk (Faculty.req_username body) (Faculty.req_fullName body)
            (Faculty.req_email body)
            (bcrypt_hash (Js.orStr (Faculty.req_password body) "password123") 10%nat)
            "FACULTY" (Faculty.req_department body) (Faculty.req_username body)
  /\ (Faculty.req_password body = None \/ Faculty.req_password body = Some "" ->
      User.password (Faculty.created run) = bcrypt_hash "password123" 10%nat)
  /\ (forall p, Faculty.req_password body = Some p -> p <> "" ->
                User.password (Faculty.created run) = bcrypt_hash p 10%nat)
  /\ (forall id, User_create (Faculty.created run) = Faculty.Row id ->
                 Faculty.response run
                 = Faculty.mkResponse 201
                     (Faculty.Success "Faculty created successfully" id)).
Proof.
  intro run.
  assert (E : Faculty.created run
    = User.mk (Faculty.req_username body) (Faculty.req_fullName body)
            (Faculty.req_email body)
            (bcrypt_hash (Js.orStr (Faculty.req_password body) "password123") 10%nat)
            "FACULTY" (Faculty.req_department body) (Faculty.req_username body)).
  { unfold run, Faculty.handler. destruct (User_create _); reflexivity. }
  split; [exact E|]. split; [|split].
  - intros [H|H]; rewrite E; cbn [User.password]; rewrite H; reflexivity.
  - intros p H Hp. rewrite E. cbn [User.password]. rewrite H.
    destruct p; [congruence | reflexivity].
  - intros id H. rewrite E in H. unfold run, Faculty.handler.
    rewrite H. reflexivity.
Qed.

(** C8, witness: a request with a password, hashed and created. *)
Lemma post_faculty_witness :
  User.password
    (Faculty.created
       (Faculty.handler Sample.tagHash Sample.createFirst Sample.withPassword))
  = Sample.tagHash "s3cret" 10
  /\ Faculty.response
       (Faculty.handler Sample.tagHash Sample.createFirst Sample.withPassword)
     = Faculty.mkResponse 201 (Faculty.Success "Faculty created successfully" 1).
Proof.
  split.
  - apply (post_faculty Sample.tagHash Sample.createFirst Sample.withPassword
             : _ /\ _ /\ (forall p, _ -> _ -> _) /\ _).
    + reflexivity.
    + discriminate.
  - apply (post_faculty Sample.tagHash Sample.createFirst Sample.withPassword).
    reflexivity.
Defined.

(** C8, as stated, fails: a request whose password field is present and
    empty is given the default password, not the supplied one. *)
Lemma post_faculty_empty_password :
  ~ (forall (bcrypt_hash : string -> nat -> string)
            (User_create : User.t -> Faculty.Created),
        User.password
          (Faculty.created
             (Faculty.handler bcrypt_hash User_create Sample.emptyPassword))
        = bcrypt_hash
            (Spec.passwordAsStated (Faculty.req_password Sample.emptyPassword))
            10%nat).
Proof.
  intro H. specialize (H Sample.tagHash Sample.createFirst).
  vm_compute in H. discriminate.
Qed.


(** * Further properties of the handlers *)

(** ** The shape of the alert list *)

(** The two forms of the list: with the critical alert in front of five
    warnings, or without it. *)
Lemma alerts_form today (marks : list Mark.t) :
  let R := Spec.atRiskStudents marks in
  let L := Spec.lowSubjects marks in
  let p := Overview.pendingCount marks in
  let W := Spec.number (Overview.lowAverage today) 1 (firstn 5 R) in
  let al := Overview.computeAlerts today marks in
  ((5 < length R)%nat /\ length W = 5%nat
   /\ al = Overview.criticalAlert today 6 (length R)
            :: W ++ Spec.number (Overview.lowClassAverage today) 7 L
                 ++ (if (0 <? p)%nat
                     then [Overview.pendingAlert today (7 + length L) p]
                     else []))
  \/ ((length R <= 5)%nat /\ length W = length R
      /\ exists raised,
          raised = (W ++ Spec.number (Overview.lowClassAverage today)
                           (1 + length W) L
                      ++ (if (0 <? p)%nat
                          then [Overview.pendingAlert today
                                  (1 + length W + length L) p]
                          else []))%list
          /\ ((raised = [] /\ al = [Overview.allClear today])
              \/ (raised <> [] /\ al = raised))).
Proof.
  intros R L p W al. subst al. rewrite computeAlerts_spec.
  unfold Spec.alerts, Spec.raised. fold R L p W.
  assert (LW : length W = Nat.min 5 (length R)).
  { unfold W. rewrite number_length, length_firstn. reflexivity. }
  destruct (5 <? length R)%nat eqn:E.
  - left. apply Nat.ltb_lt in E.
    replace (Nat.min 5 (length R)) with 5%nat in * by lia.
    split; [exact E|]. split; [exact LW|]. reflexivity.
  - right. apply Nat.ltb_ge in E.
    replace (Nat.min 5 (length R)) with (length R) in * by lia.
    split; [exact E|]. split; [exact LW|]. rewrite <- LW. cbn [app].
    eexists. split; [reflexivity|].
    match goal with
    | |- (?r = [] /\ _) \/ _ => destruct r as [|a l] eqn:Er
    end.
    + left. split; reflexivity.
    + right. split; [discriminate | reflexivity].
Qed.

Lemma flat_map_short {A B : Type} (f : A -> list B) (l : list A) :
  (forall x, (length (f x) <= 1)%nat) ->
  (length (flat_map f l) <= length l)%nat.
Proof.
  intro H. induction l as [|x l IH]; cbn [flat_map length]; [lia|].
  rewrite length_app. specialize (H x). lia.
Qed.

Lemma lowSubjects_length (marks : list Mark.t) :
  (length (Spec.lowSubjects marks) <= length (Spec.subjectNames marks))%nat.
Proof.
  rewrite (Permutation_length (order_perm (Spec.subjectNames marks))).
  unfold Spec.lowSubjects. apply flat_map_short.
  intro n. destruct (Js.lt _ 25); cbn [length]; lia.
Qed.

(** X1: the overview always shows at least one alert, and never more than the
    critical alert, five student warnings, one warning per subject name and
    the pending alert. *)
Theorem alerts_count (today : string) (marks : list Mark.t) :
  let n := length (Overview.computeAlerts today marks) in
  (1 <= n)%nat /\ (n <= 7 + length (Spec.subjectNames marks))%nat.
Proof.
  intro n. subst n.
  pose proof (lowSubjects_length marks) as HL.
  destruct (alerts_form today marks) as [[H5 [LW ->]]|[H5 [LW [r [Er [[E0 ->]|[Hne ->]]]]]]].
  - cbn [length]. rewrite !length_app, LW, number_length.
    destruct (0 <? _)%nat; cbn [length]; lia.
  - cbn [length]. lia.
  - split.
    + destruct r; [congruence | cbn [length]; lia].
    + rewrite Er, !length_app, LW, number_length.
      destruct (0 <? _)%nat; cbn [length]; lia.
Qed.

Lemma seq_snoc (i n : nat) : seq i (S n) = (seq i n ++ [(i + n)%nat])%list.
Proof. rewrite seq_S. reflexivity. Qed.

Lemma alert_ids_tail today (i : nat) (L : list (string * Q)) (p : nat) :
  map Alert.id
    (Spec.number (Overview.lowClassAverage today) i L
       ++ (if (0 <? p)%nat then [Overview.pendingAlert today (i + length L) p]
           else []))
  = seq i (length L + (if (0 <? p)%nat then 1 else 0))%nat.
Proof.
  rewrite map_app, number_ids by reflexivity.
  destruct (0 <? p)%nat; cbn [map Overview.pendingAlert Alert.id].
  - rewrite Nat.add_1_r, seq_snoc. reflexivity.
  - rewrite Nat.add_0_r, app_nil_r. reflexivity.
Qed.

(** X2: the ids of the alerts shown are exactly 1, ..., n, each once, whatever
    the display order. *)
Theorem alert_ids_unique (today : string) (marks : list Mark.t) :
  let ids := map Alert.id (Overview.computeAlerts today marks) in
  Permutation ids (seq 1 (length ids)) /\ NoDup ids.
Proof.
  intro ids.
  assert (P : Permutation ids (seq 1 (length ids))).
  { subst ids.
    destruct (alerts_form today marks)
      as [[H5 [LW ->]]|[H5 [LW [r [Er [[E0 ->]|[Hne ->]]]]]]].
    - cbn [map Overview.criticalAlert Alert.id].
      rewrite map_app, number_ids by reflexivity.
      rewrite length_firstn.
      replace (Nat.min 5 (length (Spec.atRiskStudents marks))) with 5%nat by lia.
      rewrite (alert_ids_tail today 7).
      set (k := (length (Spec.lowSubjects marks)
                 + (if (0 <? Overview.pendingCount marks)%nat then 1 else 0))%nat).
      cbn [length]. rewrite length_app, !length_seq.
      change (seq 1 (S (5 + k))) with (1 :: 2 :: 3 :: 4 :: 5 :: 6 :: seq 7 k)%nat.
      change (seq 1 5 ++ seq 7 k)%list with (1 :: 2 :: 3 :: 4 :: 5 :: seq 7 k)%nat.
      apply (Permutation_middle [1; 2; 3; 4; 5]%nat (seq 7 k) 6%nat).
    - apply Permutation_refl.
    - rewrite Er. rewrite number_length in *.
      set (w := length (firstn 5 (Spec.atRiskStudents marks))).
      rewrite map_app, number_ids by reflexivity. fold w.
      rewrite (alert_ids_tail today (1 + w)).
      rewrite length_app, !length_seq, (seq_app w). apply Permutation_refl. }
  split; [exact P|].
  apply (Permutation_NoDup (Permutation_sym P)), seq_NoDup.
Qed.



(** X4: the list is laid out by severity: at most one critical alert, in front;
    then only warnings; then at most one informational alert, at the end. *)
Theorem alerts_by_severity (today : string) (marks : list Mark.t) :
  exists c w i,
    Overview.computeAlerts today marks = (c ++ w ++ i)%list
    /\ (length c <= 1)%nat /\ Forall (fun a => Alert.type a = Alert.critical) c
    /\ Forall (fun a => Alert.type a = Alert.warning) w
    /\ (length i <= 1)%nat /\ Forall (fun a => Alert.type a = Alert.info) i.
Proof.
  assert (WW : forall i j l l',
             Forall (fun a => Alert.type a = Alert.warning)
               (Spec.number (Overview.lowAverage today) i l
                  ++ Spec.number (Overview.lowClassAverage today) j l')).
  { intros. apply Forall_app. split; apply number_types; reflexivity. }
  assert (PP : forall k p,
             let i := if (0 <? p)%nat then [Overview.pendingAlert today k p]
                      else [] in
             (length i <= 1)%nat /\ Forall (fun a => Alert.type a = Alert.info) i).
  { intros k p. destruct (0 <? p)%nat; cbn; split; repeat constructor. }
  destruct (alerts_form today marks)
    as [[_ [_ ->]]|[_ [_ [r [Er [[E0 ->]|[Hne ->]]]]]]].
  - eexists [_], _, _. split; [cbn [app]; rewrite app_assoc; reflexivity|].
    split; [cbn; lia|]. split; [repeat constructor|].
    split; [apply WW|]. apply PP.
  - exists [], [], [Overview.allClear today].
    repeat split; repeat constructor.
  - exists [].
    eexists _, _. split; [rewrite Er, app_assoc; reflexivity|].
    split; [cbn; lia|]. split; [constructor|].
    split; [apply WW|]. apply PP.
Qed.

(** ** A department without marks *)

(** X5: when no joined mark belongs to the department asked for, the overview
    shows five zero counters, the "within acceptable range" alert alone, and
    the faculty count of the department. *)
Theorem overview_no_marks (db : Db) (department : option string) (today : string) :
  CIEMark_findAll db (Js.orStr department "CS") = [] ->
  Overview.handler db department today
  = Overview.mkBody
      (Overview.mkDist
         ["A (80%+)"; "B (60-79%)"; "C (40-59%)"; "D (20-39%)"; "F (<20%)"]
         [0; 0; 0; 0; 0]%nat)
      [Overview.allClear today]
      (User_countFaculty db (Js.orStr department "CS")).
Proof.
  intro H. unfold Overview.handler. rewrite H. reflexivity.
Qed.

(** X5, witness. *)
Lemma overview_no_marks_witness :
  Overview.handler Cases.db (Some "ME") Sample.today
  = Overview.mkBody
      (Overview.mkDist
         ["A (80%+)"; "B (60-79%)"; "C (40-59%)"; "D (20-39%)"; "F (<20%)"]
         [0; 0; 0; 0; 0]%nat)
      [Overview.allClear Sample.today]
      (User_countFaculty Cases.db (Js.orStr (Some "ME") "CS")).
Proof.
  apply (overview_no_marks Cases.db (Some "ME") Sample.today).
  reflexivity.
Defined.

(** ** Grades *)

Lemma data_bandCount (marks : list Mark.t) :
  Overview.data (Overview.gradeDistribution marks)
  = [Spec.bandCount Spec.A marks; Spec.bandCount Spec.B marks;
     Spec.bandCount Spec.C marks; Spec.bandCount Spec.D marks;
     Spec.bandCount Spec.F marks].
Proof.
  unfold Overview.gradeDistribution, Overview.grades. cbn [Overview.data].
  pose proof (fun b => grades_fold b marks (Overview.mkGrades 0 0 0 0 0)) as G.
  pose proof (G Spec.A) as GA. pose proof (G Spec.B) as GB.
  pose proof (G Spec.C) as GC. pose proof (G Spec.D) as GD.
  pose proof (G Spec.F) as GF.
  cbn [Spec.counter Overview.gradeA Overview.gradeB Overview.gradeC
       Overview.gradeD Overview.gradeF] in GA, GB, GC, GD, GF.
  rewrite GA, GB, GC, GD, GF. reflexivity.
Qed.

(** X6: the grade distribution does not depend on the order in which the rows
    are returned. *)
Theorem grade_distribution_order (marks marks' : list Mark.t) :
  Permutation marks marks' ->
  Overview.gradeDistribution marks = Overview.gradeDistribution marks'.
Proof.
  intro P.
  pose proof (data_bandCount marks) as D.
  pose proof (data_bandCount marks') as D'.
  unfold Spec.bandCount in D, D'.
  rewrite !(count_perm _ _ _ P) in D. rewrite <- D' in D.
  unfold Overview.gradeDistribution in *. cbn [Overview.data] in D.
  f_equal. exact D.
Qed.

(** X6, witness. *)
Lemma grade_distribution_order_witness :
  Overview.gradeDistribution Cases.mixed
  = Overview.gradeDistribution (rev Cases.mixed).
Proof.
  apply (grade_distribution_order Cases.mixed (rev Cases.mixed)).
  apply Permutation_rev.
Defined.




(** ** Statistics *)

Lemma setAdd_fold_length (xs l : list string) :
  (length (fold_left Overview.setAdd xs l) <= length l + length xs)%nat.
Proof.
  revert l. induction xs as [|x xs IH]; intro l; cbn [fold_left length]; [lia|].
  specialize (IH (Overview.setAdd l x)).
  assert (length (Overview.setAdd l x) <= S (length l))%nat.
  { unfold Overview.setAdd. destruct (existsb _ l); [lia|].
    rewrite length_app. cbn [length]. lia. }
  lia.
Qed.

Lemma students_length (marks : list Mark.t) :
  (length (Spec.students marks) <= length marks)%nat.
Proof.
  unfold Spec.students, Spec.distinct.
  pose proof (setAdd_fold_length (map Mark.studentId marks) []) as H.
  rewrite length_map in H. exact H.
Qed.

Lemma countIf_le (f : Q -> bool) (l : list Q) :
  (Spec.countIf f l <= length l)%nat.
Proof. apply filter_length_le. Qed.

Lemma round1_percent (x : Q) : 0 <= x -> x <= 100 ->
  0 <= Spec.round1 x /\ Spec.round1 x <= 100.
Proof.
  intros H0 H1. unfold Spec.round1.
  rewrite (proj2 (Qle_bool_iff 0 x) H0).
  pose proof (half_floor_nonneg x H0) as Z0.
  assert (Z1 : (Qfloor (x * 10 + (1 # 2)) <= 1000)%Z).
  { change 1000%Z with (Qfloor (100 * 10 + (1 # 2))).
    apply Qfloor_resp_le. lra. }
  set (z := Qfloor (x * 10 + (1 # 2))) in *.
  unfold Qle. cbn [Qnum Qden]. lia.
Qed.

Lemma ofNat_le (a b : nat) :
  (a <= b)%nat -> Analytics.ofNat a <= Analytics.ofNat b.
Proof.
  intro H. unfold Analytics.ofNat. rewrite <- Zle_Qle. lia.
Qed.

(** X9: the statistics are consistent: the students at risk are among the
    students counted, who are at most as many as the records and none only
    when there is no record, and the pass percentage lies between 0 and
    100. *)
Theorem stats_bounds (marks : list Mark.t) :
  let r := Analytics.stats marks in
  (Analytics.atRiskCount r <= Analytics.totalStudents r)%nat
  /\ (Analytics.totalStudents r <= length marks)%nat
  /\ (Analytics.totalStudents r = 0%nat <-> marks = [])
  /\ 0 <= Analytics.passPercentage r /\ Analytics.passPercentage r <= 100.
Proof.
  intro r. subst r.
  destruct marks as [|m marks].
  { cbn. repeat split; try lia; try discriminate. }
  assert (Hne : m :: marks <> []) by discriminate.
  rewrite (stats_eq _ Hne).
  cbn [Analytics.atRiskCount Analytics.totalStudents Analytics.passPercentage].
  pose proof (students_nonempty _ Hne) as Hpos.
  pose proof (students_length (m :: marks)) as Hlen.
  set (n := length (Spec.students (m :: marks))) in *.
  set (means := Spec.studentMeans (m :: marks)).
  assert (LM : length means = n).
  { unfold means, Spec.studentMeans. apply length_map. }
  pose proof (countIf_le Spec.atRisk means) as CR.
  pose proof (countIf_le Spec.passes means) as CP.
  rewrite LM in CR, CP.
  split; [exact CR|]. split; [exact Hlen|].
  split; [split; [lia | discriminate]|].
  pose proof (ofNat_le _ _ CP) as QP.
  assert (Q0 : 0 <= Analytics.ofNat (Spec.countIf Spec.passes means))
    by (apply (ofNat_le 0), Nat.le_0_l).
  assert (QN : 0 < Analytics.ofNat n).
  { unfold Analytics.ofNat. change 0 with (inject_Z 0). rewrite <- Zlt_Qlt. lia. }
  apply round1_percent.
  - apply Qle_shift_div_l; [exact QN|]. lra.
  - apply Qle_shift_div_r; [exact QN|]. lra.
Qed.

Lemma pass_not_risk (q : Q) : Spec.passes q = true -> Spec.atRisk q = false.
Proof.
  unfold Spec.passes, Spec.atRisk. intro H. apply Qle_bool_iff in H.
  apply negb_false_iff, Qle_bool_iff. lra.
Qed.

Lemma pass_risk_count (l : list Q) :
  (Spec.countIf Spec.passes l + Spec.countIf Spec.atRisk l <= length l)%nat.
Proof.
  unfold Spec.countIf.
  induction l as [|q l IH]; cbn [filter length]; [lia|].
  destruct (Spec.passes q) eqn:E.
  - rewrite (pass_not_risk q E). cbn [length]. lia.
  - destruct (Spec.atRisk q); cbn [length]; lia.
Qed.

(** X10: no student is counted both as passed and as at risk: the two counters
    of the loop over the student ids add up to at most the number of
    students. *)
Theorem pass_and_risk_disjoint (marks : list Mark.t) :
  let o := Analytics.studentMarks marks in
  let t := fold_left (Analytics.tallyStep o) (Obj.keys o)
                     (Analytics.mkTally 0 0 0) in
  (Analytics.passedStudents t + Analytics.atRiskStudents t
   <= length (Obj.keys o))%nat.
Proof.
  intros o t. subst t o.
  destruct (stats_tally marks) as [_ [HP HR]].
  rewrite HP, HR.
  rewrite (Permutation_length (keys_students marks)).
  pose proof (pass_risk_count (Spec.studentMeans marks)) as H.
  unfold Spec.studentMeans in H at 3. rewrite length_map in H. exact H.
Qed.

Lemma count_filter_map {A : Type} (f : Q -> bool) (g : A -> Q) (l : list A) :
  length (filter f (map g l)) = length (filter (fun x => f (g x)) l).
Proof.
  induction l as [|x l IH]; cbn [map filter]; [reflexivity|].
  destruct (f (g x)); cbn [length]; rewrite IH; reflexivity.
Qed.

Lemma count_filter_and {A : Type} (f g : A -> bool) (l : list A) :
  (length (filter (fun x => f x && g x) l) <= length (filter f l))%nat.
Proof.
  induction l as [|x l IH]; cbn [filter length]; [lia|].
  destruct (f x), (g x); cbn [andb length]; lia.
Qed.

Lemma stats_atRiskCount (marks : list Mark.t) :
  Analytics.atRiskCount (Analytics.stats marks)
  = length (filter (fun k => Spec.atRisk (Spec.studentMean marks k))
                   (Spec.students marks)).
Proof.
  destruct marks as [|m marks]; [reflexivity|].
  rewrite stats_eq by discriminate. cbn [Analytics.atRiskCount].
  unfold Spec.countIf, Spec.studentMeans. apply count_filter_map.
Qed.

(** X11: the two handlers agree on the students at risk up to the joined student
    rows: the overview never counts more students at risk than the
    statistics do, and it counts as many when every student's row is
    joined. *)
Theorem at_risk_overview_vs_stats (today : string) (marks : list Mark.t) :
  (Overview.atRiskCount (Overview.riskLoop today marks)
   <= Analytics.atRiskCount (Analytics.stats marks))%nat
  /\ ((forall k, In k (Spec.students marks) -> Spec.joined marks k = true) ->
      Overview.atRiskCount (Overview.riskLoop today marks)
      = Analytics.atRiskCount (Analytics.stats marks)).
Proof.
  rewrite riskLoop_spec, stats_atRiskCount.
  unfold riskState. cbn [Overview.atRiskCount]. rewrite atRisk_count.
  unfold Spec.atRiskCount. split.
  - apply count_filter_and.
  - intro H. f_equal. apply filter_ext_in. intros k Hk.
    rewrite (H k Hk). apply andb_true_r.
Qed.

(** X11, witness. *)
Lemma at_risk_overview_vs_stats_witness :
  Overview.atRiskCount (Overview.riskLoop Sample.today Cases.mixed)
  = Analytics.atRiskCount (Analytics.stats Cases.mixed).
Proof.
  apply (at_risk_overview_vs_stats Sample.today Cases.mixed).
  intros k Hk. vm_compute in Hk.
  repeat (destruct Hk as [<-|Hk]; [vm_compute; reflexivity|]).
  destruct Hk.
Defined.

Lemma ofNat_succ (n : nat) : Analytics.ofNat (S n) == Analytics.ofNat n + 1.
Proof.
  unfold Analytics.ofNat. rewrite Nat2Z.inj_succ. unfold Z.succ.
  rewrite inject_Z_plus. reflexivity.
Qed.

Lemma total_bounds (lo hi : Q) (l : list Q) :
  Forall (fun q => lo <= q /\ q <= hi) l ->
  Analytics.ofNat (length l) * lo <= Spec.total l
  /\ Spec.total l <= Analytics.ofNat (length l) * hi.
Proof.
  induction 1 as [|q l [Hlo Hhi] _ [IHlo IHhi]]; cbn [length Spec.total].
  - change (Analytics.ofNat 0) with 0. split; lra.
  - rewrite ofNat_succ. split; lra.
Qed.

Lemma meanOf_bounds (lo hi : Q) (l : list Q) :
  l <> [] -> Forall (fun q => lo <= q /\ q <= hi) l ->
  lo <= Spec.meanOf l /\ Spec.meanOf l <= hi.
Proof.
  intros Hne H. destruct (total_bounds lo hi l H) as [Hlo Hhi].
  assert (P : 0 < Analytics.ofNat (length l)).
  { destruct l as [|q l]; [congruence|]. cbn [length]. rewrite ofNat_succ.
    assert (0 <= Analytics.ofNat (length l))
      by (apply (ofNat_le 0), Nat.le_0_l).
    lra. }
  unfold Spec.meanOf. fold (Analytics.ofNat (length l)). split.
  - apply Qle_shift_div_l; [exact P|]. lra.
  - apply Qle_shift_div_r; [exact P|]. lra.
Qed.

Lemma students_records (marks : list Mark.t) (k : string) :
  In k (Spec.students marks) -> Spec.recordsOf marks k <> [].
Proof.
  unfold Spec.students. rewrite distinct_In, in_map_iff.
  intros [m [E Hm]] H.
  assert (I : In m (Spec.recordsOf marks k)).
  { unfold Spec.recordsOf. apply filter_In. split; [exact Hm|].
    rewrite E. apply String.eqb_refl. }
  rewrite H in I. destruct I.
Qed.

Lemma studentMeans_bounds (lo hi : Q) (marks : list Mark.t) :
  (forall m, In m marks -> lo <= Overview.score m /\ Overview.score m <= hi) ->
  Forall (fun q => lo <= q /\ q <= hi) (Spec.studentMeans marks).
Proof.
  intro H. unfold Spec.studentMeans. apply Forall_forall.
  intros q Hq. apply in_map_iff in Hq. destruct Hq as [k [<- Hk]].
  unfold Spec.studentMean. apply meanOf_bounds.
  - intro E. apply map_eq_nil in E. apply (students_records marks k Hk E).
  - apply Forall_forall. intros x Hx. apply in_map_iff in Hx.
    destruct Hx as [m [<- Hm]]. apply H.
    unfold Spec.recordsOf in Hm. apply filter_In in Hm. apply Hm.
Qed.

Lemma round1_mono (x y : Q) : 0 <= x -> x <= y ->
  0 <= Spec.round1 x /\ Spec.round1 x <= Spec.round1 y.
Proof.
  intros H0 H1. unfold Spec.round1.
  assert (Hy : 0 <= y) by lra.
  rewrite (proj2 (Qle_bool_iff 0 x) H0), (proj2 (Qle_bool_iff 0 y) Hy).
  pose proof (half_floor_nonneg x H0) as Z0.
  assert (Z1 : (Qfloor (x * 10 + (1 # 2)) <= Qfloor (y * 10 + (1 # 2)))%Z)
    by (apply Qfloor_resp_le; lra).
  set (zx := Qfloor (x * 10 + (1 # 2))) in *.
  set (zy := Qfloor (y * 10 + (1 # 2))) in *.
  unfold Qle. cbn [Qnum Qden]. lia.
Qed.

(** X12: when every score lies between 0 and [hi], so does the department
    average, up to the rounding of [hi] to one decimal. *)
Theorem stats_average_range (hi : Q) (marks : list Mark.t) :
  marks <> [] ->
  (forall m, In m marks -> 0 <= Overview.score m /\ Overview.score m <= hi) ->
  0 <= Analytics.average (Analytics.stats marks)
  /\ Analytics.average (Analytics.stats marks) <= Spec.round1 hi.
Proof.
  intros Hne H. rewrite (stats_eq _ Hne). cbn [Analytics.average].
  pose proof (studentMeans_bounds 0 hi marks H) as B.
  assert (N : Spec.studentMeans marks <> []).
  { pose proof (students_nonempty marks Hne) as P.
    unfold Spec.studentMeans. intro E. apply map_eq_nil in E.
    rewrite E in P. cbn in P. lia. }
  destruct (meanOf_bounds 0 hi _ N B) as [L U].
  apply round1_mono; assumption.
Qed.

(** X12, witness. *)
Lemma stats_average_range_witness :
  0 <= Analytics.average (Analytics.stats Sample.four)
  /\ Analytics.average (Analytics.stats Sample.four) <= Spec.round1 50.
Proof.
  apply (stats_average_range 50 Sample.four).
  - discriminate.
  - intros m Hm. vm_compute in Hm.
    repeat (destruct Hm as [<-|Hm]; [vm_compute; split; discriminate|]).
    destruct Hm.
Defined.

(** ** Departments are kept apart *)

Lemma findAll_skip (l1 l2 : list Mark.t) (m : Mark.t) (us : list User.t)
    (dept : string) :
  (forall s, Mark.subject m = Some s -> Subject.department s <> dept) ->
  CIEMark_findAll (mkDb (l1 ++ m :: l2) us) dept
  = CIEMark_findAll (mkDb (l1 ++ l2) us) dept.
Proof.
  intro H. unfold CIEMark_findAll. cbn [cieMarks].
  rewrite !filter_app. cbn [filter].
  destruct (Mark.subject m) as [s|]; [|reflexivity].
  destruct (String.eqb (Subject.department s) dept) eqn:E; [|reflexivity].
  apply String.eqb_eq in E. exfalso. apply (H s eq_refl E).
Qed.

(** X13: a mark whose subject is missing or belongs to another department
    changes neither the overview nor the statistics of a department. *)
Theorem department_isolation (l1 l2 : list Mark.t) (m : Mark.t)
    (us : list User.t) (department : option string) (dept today : string) :
  (forall s, Mark.subject m = Some s -> Subject.department s <> dept) ->
  Analytics.handler (mkDb (l1 ++ m :: l2) us) dept
  = Analytics.handler (mkDb (l1 ++ l2) us) dept
  /\ (Js.orStr department "CS" = dept ->
      Overview.handler (mkDb (l1 ++ m :: l2) us) department today
      = Overview.handler (mkDb (l1 ++ l2) us) department today).
Proof.
  intro H. split.
  - unfold Analytics.handler. rewrite (findAll_skip l1 l2 m us dept H).
    reflexivity.
  - intro E. unfold Overview.handler. rewrite E.
    rewrite (findAll_skip l1 l2 m us dept H). reflexivity.
Qed.

(** X13, witness. *)
Lemma department_isolation_witness :
  Analytics.handler (mkDb (Cases.mixed ++ Cases.foreign :: []) []) "CS"
  = Analytics.handler (mkDb (Cases.mixed ++ []) []) "CS"
  /\ Overview.handler (mkDb (Cases.mixed ++ Cases.foreign :: []) []) None
       Sample.today
     = Overview.handler (mkDb (Cases.mixed ++ []) []) None Sample.today.
Proof.
  assert (F : forall s, Mark.subject Cases.foreign = Some s ->
                        Subject.department s <> "CS").
  { intros s [= <-]. discriminate. }
  split.
  - apply (department_isolation Cases.mixed [] Cases.foreign [] None "CS"
             Sample.today F).
  - apply (department_isolation Cases.mixed [] Cases.foreign [] None "CS"
             Sample.today F).
    reflexivity.
Defined.

(** ** POST /faculty: the response *)

Lemma faculty_created (bcrypt_hash : string -> nat -> string)
    (User_create : User.t -> Faculty.Created) (body : Faculty.Request) :
  Faculty.created (Faculty.handler bcrypt_hash User_create body)
  = User.mk (Faculty.req_username body) (Faculty.req_fullName body)
            (Faculty.req_email body)
            (bcrypt_hash (Js.orStr (Faculty.req_password body) "password123")
                         10%nat)
            "FACULTY" (Faculty.req_department body) (Faculty.req_username body).
Proof. unfold Faculty.handler. destruct (User_create _); reflexivity. Qed.

(** ** GET /faculty *)

Lemma whereClause_role (department : option string) :
  Directory.where_role (Directory.whereClause department) = "FACULTY".
Proof. destruct department as [[|c r]|]; reflexivity. Qed.

Lemma whereClause_department (d : string) :
  d <> "" ->
  Directory.where_department (Directory.whereClause (Some d)) = Some d.
Proof. destruct d; [congruence | reflexivity]. Qed.

(** X15: every entry of the listing is made from a row with role FACULTY, has
    the designation 'Faculty' and a department that is not empty, and lists
    exactly the names of the subjects whose instructor is that row; no other
    user is listed. *)
Theorem faculty_listing_sound (t : Directory.Tables)
    (department : option string) (e : Directory.Entry) :
  In e (Directory.handler t department) ->
  exists u,
    In u (Directory.userRows t)
    /\ User.role (Directory.fields u) = "FACULTY"
    /\ Directory.entry_id e = Directory.id u
    /\ Directory.entry_designation e = "Faculty"
    /\ Directory.entry_department e <> ""
    /\ (forall n, In n (Directory.entry_subjects e) <->
                  exists s, In s (Directory.subjectRows t)
                            /\ Directory.instructorId s = Some (Directory.id u)
                            /\ Subject.name (Directory.subject s) = n).
Proof.
  unfold Directory.handler, Directory.User_findAll. intro H.
  apply in_map_iff in H. destruct H as [u [<- Hu]].
  apply filter_In in Hu. destruct Hu as [Hin Hm].
  unfold Directory.matches in Hm. apply andb_true_iff in Hm.
  destruct Hm as [Hr _]. rewrite whereClause_role in Hr.
  apply String.eqb_eq in Hr.
  exists u. split; [exact Hin|]. split; [exact Hr|].
  cbn [Directory.format Directory.entry_id Directory.entry_designation
       Directory.entry_department Directory.entry_subjects].
  split; [reflexivity|]. split; [reflexivity|]. split.
  - destruct (User.department (Directory.fields u)) as [[|c r]|];
      cbn [Js.orStr]; discriminate.
  - intro n. rewrite in_map_iff. unfold Directory.Subject_findAll.
    split.
    + intros [s [<- Hs]]. apply filter_In in Hs. destruct Hs as [Hs Hi].
      exists s. split; [exact Hs|]. split; [|reflexivity].
      destruct (Directory.instructorId s) as [i|]; [|discriminate].
      apply Z.eqb_eq in Hi. subst. reflexivity.
    + intros [s [Hs [Hi <-]]]. exists s. split; [reflexivity|].
      apply filter_In. split; [exact Hs|]. rewrite Hi. apply Z.eqb_refl.
Qed.

(** X15, witness. *)
Lemma faculty_listing_sound_witness :
  exists u,
    In u (Directory.userRows Cases.tables)
    /\ User.role (Directory.fields u) = "FACULTY"
    /\ Directory.entry_id (Directory.format Cases.tables
                             (Directory.mkUserRow 1 (Cases.faculty "asha" (Some "CS"))))
       = Directory.id u.
Proof.
  destruct (faculty_listing_sound Cases.tables None
              (Directory.format Cases.tables
                 (Directory.mkUserRow 1 (Cases.faculty "asha" (Some "CS")))))
    as [u [H1 [H2 [H3 _]]]].
  - vm_compute. left. reflexivity.
  - exists u. split; [exact H1|]. split; [exact H2 | exact H3].
Defined.

Lemma matches_all (u : Directory.UserRow) :
  Directory.matches (Directory.whereClause None) u
  = String.eqb (User.role (Directory.fields u)) "FACULTY".
Proof. unfold Directory.matches. cbn. apply andb_true_r. Qed.

Lemma matches_department (d : string) (u : Directory.UserRow) :
  d <> "" ->
  Directory.matches (Directory.whereClause (Some d)) u
  = String.eqb (User.role (Directory.fields u)) "FACULTY"
    && optEqb (User.department (Directory.fields u)) d.
Proof.
  intro H. unfold Directory.matches.
  rewrite whereClause_role, (whereClause_department d H). reflexivity.
Qed.

(** X16: filtering by department commutes with listing: for a department other
    than the placeholder 'General', the entries of the unfiltered listing
    that show the department are the listing filtered by it; an empty
    [department] parameter does not filter at all. *)
Theorem faculty_filter (t : Directory.Tables) (d : string) :
  Directory.handler t (Some "") = Directory.handler t None
  /\ (d <> "" -> d <> "General" ->
      filter (fun e => String.eqb (Directory.entry_department e) d)
             (Directory.handler t None)
      = Directory.handler t (Some d)).
Proof.
  split; [reflexivity|]. intros H0 HG.
  unfold Directory.handler, Directory.User_findAll.
  induction (Directory.userRows t) as [|u us IH]; [reflexivity|].
  cbn [filter]. rewrite matches_all, (matches_department d u H0).
  destruct (String.eqb (User.role (Directory.fields u)) "FACULTY") eqn:R;
    cbn [andb]; [|exact IH].
  cbn [map filter Directory.format Directory.entry_department].
  assert (E : String.eqb (Js.orStr (User.department (Directory.fields u)) "General") d
              = optEqb (User.department (Directory.fields u)) d).
  { destruct (User.department (Directory.fields u)) as [[|c r]|];
      cbn [Js.orStr optEqb].
    - rewrite (proj2 (String.eqb_neq _ _)) by congruence.
      symmetry. apply String.eqb_neq. congruence.
    - reflexivity.
    - apply String.eqb_neq. congruence. }
  rewrite E.
  destruct (optEqb (User.department (Directory.fields u)) d);
    cbn [map]; rewrite IH; reflexivity.
Qed.

(** X16, witness. *)
Lemma faculty_filter_witness :
  filter (fun e => String.eqb (Directory.entry_department e) "CS")
         (Directory.handler Cases.tables None)
  = Directory.handler Cases.tables (Some "CS").
Proof.
  apply (faculty_filter Cases.tables "CS"); discriminate.
Defined.

(** X17: with a department asked for, every entry of the listing shows that
    department, never the placeholder put in for a missing one. *)
Theorem faculty_filtered_department (t : Directory.Tables) (d : string) :
  d <> "" ->
  Forall (fun e => Directory.entry_department e = d)
         (Directory.handler t (Some d)).
Proof.
  intro H. apply Forall_forall. intros e He.
  unfold Directory.handler, Directory.User_findAll in He.
  apply in_map_iff in He. destruct He as [u [<- Hu]].
  apply filter_In in Hu. destruct Hu as [_ Hm].
  rewrite (matches_department d u H) in Hm.
  apply andb_true_iff in Hm. destruct Hm as [_ Hd].
  cbn [Directory.format Directory.entry_department].
  destruct (User.department (Directory.fields u)) as [x|]; [|discriminate].
  cbn [optEqb] in Hd. apply String.eqb_eq in Hd. subst x.
  destruct d; [congruence | reflexivity].
Qed.

(** X17, witness. *)
Lemma faculty_filtered_department_witness :
  Forall (fun e => Directory.entry_department e = "EC")
         (Directory.handler Cases.tables (Some "EC")).
Proof.
  apply (faculty_filtered_department Cases.tables "EC"). discriminate.
Defined.


(** * The handlers in binary64 *)

(** ** Statistics *)

Lemma markStep64_upsert :
  Analytics64.markStep
  = Obj.upsert Mark.studentId (fun _ => Analytics.Acc.mk 0 0)
      (fun a m => Analytics.Acc.mk (B64.add (Analytics.Acc.total a) (B64.score m))
                                   (S (Analytics.Acc.count a))).
Proof. reflexivity. Qed.

Lemma acc_fold64 (ms : list Mark.t) (a : Analytics.Acc.t) :
  fold_left (fun a m => Analytics.Acc.mk
                          (B64.add (Analytics.Acc.total a) (B64.score m))
                          (S (Analytics.Acc.count a))) ms a
  = Analytics.Acc.mk
      (fold_left B64.add (map B64.score ms) (Analytics.Acc.total a))
      (length ms + Analytics.Acc.count a).
Proof.
  revert a. induction ms as [|m ms IH]; intro a; cbn [fold_left map length].
  - destruct a; reflexivity.
  - rewrite IH. cbn [Analytics.Acc.total Analytics.Acc.count].
    f_equal. lia.
Qed.

Lemma studentMarks64_entry (marks : list Mark.t) (k : string)
    (a : Analytics.Acc.t) :
  In (k, a) (Analytics64.studentMarks marks) ->
  Analytics64.accAvg a = Spec64.studentMean marks k.
Proof.
  unfold Analytics64.studentMarks. rewrite markStep64_upsert.
  intro H. apply grouped_In in H. unfold Obj.grouped in H.
  unfold Spec64.studentMean, Spec.recordsOf.
  destruct (filter (fun m => String.eqb (Mark.studentId m) k) marks)
    as [|m0 r] eqn:E; [discriminate|].
  injection H as <-. rewrite acc_fold64.
  unfold Analytics64.accAvg, B64.mean, B64.sum.
  cbn [map fold_left length Analytics.Acc.total Analytics.Acc.count].
  rewrite length_map. do 2 f_equal. lia.
Qed.

Lemma studentMarks64_keys (marks : list Mark.t) :
  Obj.keys (Analytics64.studentMarks marks) = Obj.order (Spec.students marks).
Proof.
  rewrite keys_order. f_equal.
  unfold Analytics64.studentMarks. rewrite markStep64_upsert.
  apply grouped_keys.
Qed.

Lemma tally_fold64 (o : Obj.t Analytics.Acc.t) (f : string -> Q)
    (ks : list string) (t : Analytics.Tally) :
  (forall k, In k ks ->
     exists a, Obj.get o k = Some a /\ Analytics64.accAvg a = f k) ->
  fold_left (Analytics64.tallyStep o) ks t
  = Analytics.mkTally
      (fold_left B64.add (map f ks) (Analytics.totalAvg t))
      (Analytics.passedStudents t
       + length (filter (fun k => Spec.passes (f k)) ks))
      (Analytics.atRiskStudents t
       + length (filter (fun k => Spec.atRisk (f k)) ks)).
Proof.
  revert t. induction ks as [|k ks IH]; intros t H; cbn [fold_left map filter length].
  - destruct t; cbn. f_equal; lia.
  - rewrite IH by (intros k' Hk'; apply H; right; exact Hk').
    destruct (H k (or_introl eq_refl)) as [a [G E]].
    unfold Analytics64.tallyStep. rewrite G, E.
    cbn [Analytics.totalAvg Analytics.passedStudents Analytics.atRiskStudents].
    change (Js.ge (f k) Analytics.PASS_THRESHOLD) with (Spec.passes (f k)).
    change (Js.lt (f k) Analytics.RISK_THRESHOLD) with (Spec.atRisk (f k)).
    f_equal.
    + destruct (Spec.passes (f k)); cbn [length]; lia.
    + destruct (Spec.atRisk (f k)); cbn [length]; lia.
Qed.

(** The statistics of a non-empty collection, field by field: the counts
    are taken over the distinct students, the sum of the means runs in the
    enumeration order of the ids. *)
Lemma stats64_eq (marks : list Mark.t) :
  marks <> [] ->
  let ids := Spec.students marks in
  let n := length ids in
  let mean := Spec64.studentMean marks in
  Analytics64.stats marks
  = Analytics.mkStats
      (Spec.round1 (B64.div (B64.sum (map mean (Obj.order ids))) (B64.ofNat n)))
      (Spec.round1
         (B64.mul (B64.div (B64.ofNat (length (filter (fun k => Spec.passes (mean k)) ids)))
                           (B64.ofNat n)) 100))
      (length (filter (fun k => Spec.atRisk (mean k)) ids)) n.
Proof.
  intros Hne ids n mean.
  pose proof (students_nonempty marks Hne) as Hpos. fold ids n in Hpos.
  pose proof (order_perm ids) as P.
  assert (Hlen : length (Obj.order ids) = n)
    by (symmetry; apply Permutation_length, P).
  unfold Analytics64.stats.
  destruct marks as [|m marks]; [congruence|].
  cbn [length Nat.eqb]. cbv zeta.
  rewrite studentMarks64_keys. fold ids.
  rewrite (tally_fold64 _ mean).
  2:{ intros k Hk. unfold ids in Hk. rewrite <- studentMarks64_keys in Hk.
      destruct (keys_In_get _ k Hk) as [a [G I]].
      exists a. split; [exact G|]. apply studentMarks64_entry, I. }
  cbn [Analytics.totalAvg Analytics.passedStudents Analytics.atRiskStudents plus].
  rewrite Hlen.
  destruct (0 <? n)%nat eqn:Z; [|apply Nat.ltb_ge in Z; lia].
  rewrite !parseFloat_toFixed1.
  rewrite <- !(count_perm _ _ _ P).
  reflexivity.
Qed.

Lemma students_spec (marks : list Mark.t) (k : string) :
  In k (Spec.students marks) <-> exists m, In m marks /\ Mark.studentId m = k.
Proof.
  unfold Spec.students. rewrite distinct_In, in_map_iff.
  split; intros [m [A B]]; exists m; tauto.
Qed.




Example stats_twenty :
  Analytics64.stats More.twenty = Analytics.mkStats 22.1 100.0 0 20.
Proof. vm_compute. reflexivity. Qed.

(** ** The student loop *)

Lemma studentStep64_upsert :
  Overview64.studentStep
  = Obj.upsert Mark.studentId
      (fun m => Overview.Entry.mk (Mark.student m) [] [])
      (fun e m =>
         Overview.Entry.mk (Overview.Entry.student e)
           (Overview.Entry.scores e ++ [B64.score m])%list
           (match Mark.subject m with
            | Some s => Overview.setAdd (Overview.Entry.subjects e) (Subject.name s)
            | None => Overview.Entry.subjects e
            end)).
Proof. reflexivity. Qed.

Lemma entry_fold64 (ms : list Mark.t) (e : Overview.Entry.t) :
  let e' := fold_left
      (fun e m =>
         Overview.Entry.mk (Overview.Entry.student e)
           (Overview.Entry.scores e ++ [B64.score m])%list
           (match Mark.subject m with
            | Some s => Overview.setAdd (Overview.Entry.subjects e) (Subject.name s)
            | None => Overview.Entry.subjects e
            end)) ms e in
  Overview.Entry.student e' = Overview.Entry.student e
  /\ Overview.Entry.scores e'
     = (Overview.Entry.scores e ++ map B64.score ms)%list.
Proof.
  revert e. induction ms as [|m ms IH]; intro e; cbn [fold_left map].
  - rewrite app_nil_r. split; reflexivity.
  - destruct (IH (Overview.Entry.mk (Overview.Entry.student e)
           (Overview.Entry.scores e ++ [B64.score m])%list
           (match Mark.subject m with
            | Some s => Overview.setAdd (Overview.Entry.subjects e) (Subject.name s)
            | None => Overview.Entry.subjects e
            end))) as [H1 H2].
    cbv zeta in *. rewrite H1, H2.
    cbn [Overview.Entry.student Overview.Entry.scores].
    rewrite <- app_assoc. split; reflexivity.
Qed.

Lemma studentMarksMap64_entry (marks : list Mark.t) (k : string)
    (e : Overview.Entry.t) :
  In (k, e) (Overview64.studentMarksMap marks) ->
  Overview.Entry.student e = Spec.studentOf marks k
  /\ Overview.Entry.scores e = map B64.score (Spec.recordsOf marks k).
Proof.
  unfold Overview64.studentMarksMap. rewrite studentStep64_upsert.
  intro H. apply grouped_In in H. unfold Obj.grouped in H.
  unfold Spec.studentOf, Spec.recordsOf.
  destruct (filter (fun m => String.eqb (Mark.studentId m) k) marks)
    as [|m0 r] eqn:E; [discriminate|].
  injection H as <-.
  match goal with
  | |- Overview.Entry.student (fold_left ?f ?ms ?e0) = _ /\ _ =>
      destruct (entry_fold64 ms e0) as [H1 H2]
  end.
  cbv zeta in H1, H2. rewrite H1, H2.
  cbn [Overview.Entry.student Overview.Entry.scores app]. split; reflexivity.
Qed.

Lemma studentMarksMap64_keys (marks : list Mark.t) :
  Obj.keys (Overview64.studentMarksMap marks) = Obj.order (Spec.students marks).
Proof.
  rewrite keys_order. f_equal.
  unfold Overview64.studentMarksMap. rewrite studentStep64_upsert.
  apply grouped_keys.
Qed.

Lemma riskStep64_flagged today (P : list (string * Q)) (e : Overview.Entry.t) :
  Overview64.riskStep today (riskState today P) e
  = riskState today (P ++ Overview64.flagged e).
Proof.
  unfold Overview64.riskStep, Overview64.flagged.
  destruct (Js.lt (B64.mean (Overview.Entry.scores e)) 18);
    [|rewrite app_nil_r; reflexivity].
  destruct (Overview.Entry.student e) as [s|];
    [|rewrite app_nil_r; reflexivity].
  unfold riskState.
  cbn [Overview.alerts Overview.atRiskCount Overview.alertId].
  rewrite number_length, length_firstn, length_app. cbn [length].
  destruct (Nat.min 5 (length P) <? 5)%nat eqn:E.
  - apply Nat.ltb_lt in E.
    assert (L : (length P < 5)%nat) by lia.
    rewrite (firstn_all2 P) by lia.
    rewrite (firstn_all2 (P ++ _)) by (rewrite length_app; cbn [length]; lia).
    rewrite number_app. cbn [Spec.number].
    f_equal; [lia| |lia].
    do 3 f_equal. lia.
  - apply Nat.ltb_ge in E.
    rewrite firstn_app.
    replace (5 - length P)%nat with 0%nat by lia.
    cbn [firstn]. rewrite app_nil_r.
    f_equal; lia.
Qed.

Lemma riskLoop64_fold today (es : list Overview.Entry.t)
    (P : list (string * Q)) :
  fold_left (Overview64.riskStep today) es (riskState today P)
  = riskState today (P ++ flat_map Overview64.flagged es).
Proof.
  revert P. induction es as [|e es IH]; intro P; cbn [fold_left flat_map].
  - rewrite app_nil_r. reflexivity.
  - rewrite riskStep64_flagged, IH, app_assoc. reflexivity.
Qed.

(** The loop reports the students at risk, in the enumeration order of the
    ids, and numbers the first five. *)
Lemma riskLoop64_spec today (marks : list Mark.t) :
  Overview64.riskLoop today marks
  = riskState today (Spec64.atRiskStudents marks).
Proof.
  unfold Overview64.riskLoop.
  change (Overview.mkState 0 [] 1) with (riskState today []).
  rewrite riskLoop64_fold. cbn [app]. f_equal.
  unfold Spec64.atRiskStudents. rewrite <- studentMarksMap64_keys.
  apply flat_map_values. intros k e H.
  destruct (studentMarksMap64_entry marks k e H) as [H1 H2].
  unfold Overview64.flagged, Spec64.studentMean. rewrite H1, H2. reflexivity.
Qed.

Lemma atRisk_count64 (marks : list Mark.t) :
  length (Spec64.atRiskStudents marks) = Spec64.atRiskCount marks.
Proof.
  unfold Spec64.atRiskStudents, Spec64.atRiskCount.
  rewrite (count_perm _ _ _ (order_perm (Spec.students marks))).
  induction (Obj.order (Spec.students marks)) as [|k ks IH];
    cbn [flat_map filter]; [reflexivity|].
  rewrite length_app, IH. unfold Spec64.atRisk, Spec.joined.
  destruct (Spec.atRisk (Spec64.studentMean marks k));
    destruct (Spec.studentOf marks k); reflexivity.
Qed.

(** ** The subject loop *)

Lemma perfStep64_fold (marks : list Mark.t) (o : Obj.t Overview.Perf.t) :
  fold_left Overview64.perfStep marks o
  = fold_left
      (Obj.upsert fst (fun _ => Overview.Perf.mk 0 0)
         (fun d x => Overview.Perf.mk (B64.add (Overview.Perf.total d) (snd x))
                                      (S (Overview.Perf.count d))))
      (Overview64.scored marks) o.
Proof.
  revert o. induction marks as [|m marks IH]; intro o; [reflexivity|].
  unfold Overview64.scored. cbn [fold_left flat_map].
  fold (Overview64.scored marks).
  rewrite fold_left_app, IH. f_equal.
  unfold Overview64.perfStep. destruct (Mark.subject m); reflexivity.
Qed.

Lemma perf_fold64 (xs : list (string * Q)) (d : Overview.Perf.t) :
  fold_left (fun d x => Overview.Perf.mk (B64.add (Overview.Perf.total d) (snd x))
                                         (S (Overview.Perf.count d))) xs d
  = Overview.Perf.mk
      (fold_left B64.add (map snd xs) (Overview.Perf.total d))
      (length xs + Overview.Perf.count d).
Proof.
  revert d. induction xs as [|x xs IH]; intro d; cbn [fold_left map length].
  - destruct d; reflexivity.
  - rewrite IH. cbn [Overview.Perf.total Overview.Perf.count].
    f_equal. lia.
Qed.

Lemma scored64_names (marks : list Mark.t) :
  map fst (Overview64.scored marks)
  = flat_map (fun m => match Spec.subjectName m with
                       | Some n => [n]
                       | None => []
                       end) marks.
Proof.
  unfold Overview64.scored, Spec.subjectName.
  induction marks as [|m marks IH]; cbn [flat_map map]; [reflexivity|].
  rewrite map_app, IH. destruct (Mark.subject m); reflexivity.
Qed.

Lemma scored64_recordsIn (marks : list Mark.t) (n : string) :
  map snd (filter (fun x => String.eqb (fst x) n) (Overview64.scored marks))
  = map B64.score (Spec.recordsIn marks n).
Proof.
  unfold Overview64.scored, Spec.recordsIn, Spec.subjectName.
  induction marks as [|m marks IH]; cbn [flat_map filter map]; [reflexivity|].
  rewrite filter_app, map_app, IH.
  destruct (Mark.subject m) as [s|]; cbn [option_map optEqb filter fst app map].
  - destruct (String.eqb (Subject.name s) n); reflexivity.
  - reflexivity.
Qed.

(** Every property of [subjectPerf] belongs to a subject with at least one
    record, and its average is the subject's mean. *)
Lemma subjectPerf64_entry (marks : list Mark.t) (n : string)
    (d : Overview.Perf.t) :
  In (n, d) (Overview64.subjectPerf marks) ->
  Overview64.perfAvg d = Spec64.subjectMean marks n
  /\ (0 < Overview.Perf.count d)%nat
  /\ Overview.Perf.count d = length (Spec.recordsIn marks n).
Proof.
  unfold Overview64.subjectPerf. rewrite perfStep64_fold.
  intro H. apply grouped_In in H. unfold Obj.grouped in H.
  pose proof (scored64_recordsIn marks n) as E.
  destruct (filter (fun x => String.eqb (fst x) n) (Overview64.scored marks))
    as [|x0 r]; [discriminate|].
  injection H as <-. rewrite perf_fold64.
  assert (L : length (Spec.recordsIn marks n) = S (length r)).
  { rewrite <- (length_map B64.score), <- E, length_map. reflexivity. }
  unfold Overview64.perfAvg, Spec64.subjectMean, B64.mean, B64.sum.
  cbn [Overview.Perf.total Overview.Perf.count].
  rewrite <- E, length_map. cbn [map fold_left length].
  split; [|split; [lia|]].
  - do 2 f_equal. lia.
  - rewrite L. lia.
Qed.

Lemma subjectPerf64_keys (marks : list Mark.t) :
  Obj.keys (Overview64.subjectPerf marks) = Obj.order (Spec.subjectNames marks).
Proof.
  rewrite keys_order. f_equal.
  unfold Overview64.subjectPerf. rewrite perfStep64_fold.
  rewrite grouped_keys, scored64_names. reflexivity.
Qed.

Lemma subjectLoop64_fold today (es : list (string * Overview.Perf.t))
    (st : Overview.State) :
  fold_left (Overview64.subjectStep today) es st
  = let low := flat_map (fun e => if Js.lt (Overview64.perfAvg (snd e)) 25
                                  then [(fst e, Overview64.perfAvg (snd e))]
                                  else []) es in
    Overview.mkState (Overview.atRiskCount st)
      (Overview.alerts st
         ++ Spec.number (Overview.lowClassAverage today) (Overview.alertId st) low)
      (Overview.alertId st + length low).
Proof.
  revert st. induction es as [|e es IH]; intro st; cbn [fold_left flat_map].
  - cbv zeta. cbn [Spec.number length]. rewrite app_nil_r, Nat.add_0_r.
    destruct st; reflexivity.
  - rewrite IH. cbv zeta. unfold Overview64.subjectStep.
    destruct (Js.lt (Overview64.perfAvg (snd e)) 25);
      cbn [Overview.atRiskCount Overview.alerts Overview.alertId app
           Spec.number length].
    + rewrite <- app_assoc. cbn [app]. f_equal. lia.
    + reflexivity.
Qed.

(** The loop appends one warning per subject with records and a mean below
    25, in the enumeration order of the names. *)
Lemma subjectLoop64_spec today (marks : list Mark.t) (st : Overview.State) :
  Overview64.subjectLoop today marks st
  = Overview.mkState (Overview.atRiskCount st)
      (Overview.alerts st
         ++ Spec.number (Overview.lowClassAverage today) (Overview.alertId st)
              (Spec64.lowSubjects marks))
      (Overview.alertId st + length (Spec64.lowSubjects marks)).
Proof.
  unfold Overview64.subjectLoop. rewrite subjectLoop64_fold. cbv zeta.
  assert (E : flat_map (fun e => if Js.lt (Overview64.perfAvg (snd e)) 25
                                 then [(fst e, Overview64.perfAvg (snd e))]
                                 else [])
                       (Obj.entries (Overview64.subjectPerf marks))
              = Spec64.lowSubjects marks).
  { unfold Spec64.lowSubjects, Spec64.low. rewrite <- subjectPerf64_keys.
    apply entries_values. intros n d H. cbn [fst snd].
    destruct (subjectPerf64_entry marks n d H) as [Hd _].
    rewrite Hd. reflexivity. }
  rewrite E. reflexivity.
Qed.

(** ** The whole alert list *)

Lemma subjectLoop64_state today (marks : list Mark.t) :
  Overview64.subjectLoop today marks
    (Overview.criticalStep today (Overview64.riskLoop today marks))
  = Overview.mkState (length (Spec64.atRiskStudents marks))
      (Spec64.before today marks) (S (length (Spec64.before today marks))).
Proof.
  rewrite riskLoop64_spec. unfold Spec64.before, riskState, Overview.criticalStep.
  cbn [Overview.atRiskCount Overview.alerts Overview.alertId].
  set (R := Spec64.atRiskStudents marks). set (L := Spec64.lowSubjects marks).
  destruct (5 <? length R)%nat; rewrite subjectLoop64_spec; fold L;
    cbn [Overview.atRiskCount Overview.alerts Overview.alertId app];
    f_equal; try reflexivity;
    rewrite ?length_app, ?number_length, ?length_firstn; cbn [length];
    rewrite ?length_app, ?number_length, ?length_firstn; lia.
Qed.

Lemma raised64_before today (marks : list Mark.t) :
  Overview.alerts (Overview64.raised today marks)
  = (Spec64.before today marks
       ++ (if (0 <? length (Spec64.pendingRows marks))%nat
           then [Overview.pendingAlert today
                   (S (length (Spec64.before today marks)))
                   (length (Spec64.pendingRows marks))]
           else []))%list.
Proof.
  unfold Overview64.raised. rewrite subjectLoop64_state.
  unfold Overview.pendingStep.
  change (length (Spec64.pendingRows marks)) with (Overview.pendingCount marks).
  cbn [Overview.atRiskCount Overview.alerts Overview.alertId].
  destruct (0 <? Overview.pendingCount marks)%nat;
    cbn [Overview.alerts]; [reflexivity | rewrite app_nil_r; reflexivity].
Qed.

Lemma computeAlerts64_cases today (marks : list Mark.t) :
  let raised := Overview.alerts (Overview64.raised today marks) in
  let al := Overview64.computeAlerts today marks in
  (raised = [] /\ al = [Overview.allClear today])
  \/ (raised <> [] /\ al = raised).
Proof.
  intros raised al. subst raised al.
  unfold Overview64.computeAlerts, Overview.allClearStep.
  destruct (Overview64.raised today marks) as [c l i].
  cbn [Overview.alerts Overview.atRiskCount Overview.alertId].
  destruct l as [|a l]; cbn [length Nat.eqb Overview.alerts].
  - left. split; reflexivity.
  - right. split; [discriminate | reflexivity].
Qed.

Lemma before64_types today (marks : list Mark.t) :
  Forall (fun a => Alert.type a <> Alert.info) (Spec64.before today marks).
Proof.
  unfold Spec64.before.
  apply Forall_app. split; [|apply Forall_app; split].
  - destruct (5 <? _)%nat; repeat constructor. discriminate.
  - eapply Forall_impl; [|apply (number_types _ _ _ Alert.warning); reflexivity].
    cbn. intros a ->. discriminate.
  - eapply Forall_impl; [|apply (number_types _ _ _ Alert.warning); reflexivity].
    cbn. intros a ->. discriminate.
Qed.

(** ** The student warnings *)

Lemma atRiskStudents64_sound (marks : list Mark.t) (who : string) (avg : Q) :
  In (who, avg) (Spec64.atRiskStudents marks) ->
  exists k s,
    In k (Spec.students marks)
    /\ Spec.studentOf marks k = Some s /\ who = Student.name s
    /\ avg = Spec64.studentMean marks k /\ avg < 18.
Proof.
  unfold Spec64.atRiskStudents. intro H. apply in_flat_map in H.
  destruct H as [k [Hk H]].
  apply (Permutation_in _ (Permutation_sym (order_perm _))) in Hk.
  destruct (Spec.atRisk (Spec64.studentMean marks k)) eqn:E; [|destruct H].
  destruct (Spec.studentOf marks k) as [s|] eqn:S; [|destruct H].
  destruct H as [H|[]]. injection H as <- <-.
  exists k, s. repeat split; try assumption.
  apply lt_iff. exact E.
Qed.

(** C4 (as amended): the loop over the students emits one warning per
    student at risk (binary64 mean below 18 and student row joined), for at
    most the first five of them in the enumeration order of the student
    ids, which has the array-index ids first in ascending order and then the
    other ids in order of first appearance; each warning names the student
    and prints the binary64 mean as [toFixed(1)] does, over 50, and the
    warnings follow the critical alert if there is one.  With exactly six
    students at risk and nothing else to report, the alerts are the critical
    alert followed by five warnings. *)
Theorem student_warnings (today : string) (marks : list Mark.t) :
  let R := Spec64.atRiskStudents marks in
  let W := Spec.number (Overview.lowAverage today) 1 (firstn 5 R) in
  let c := Spec64.atRiskCount marks in
  Overview.alerts (Overview64.riskLoop today marks) = W
  /\ length R = c
  /\ (forall who avg, In (who, avg) R ->
        exists k s, In k (Spec.students marks)
                    /\ Spec.studentOf marks k = Some s /\ who = Student.name s
                    /\ avg = Spec64.studentMean marks k /\ avg < 18)
  /\ length W = Nat.min 5 c
  /\ (length W <= 5)%nat
  /\ (exists post,
        Overview64.computeAlerts today marks
        = ((if (5 <? c)%nat then [Overview.criticalAlert today 6 c] else [])
             ++ W ++ post)%list)
  /\ (forall i who avg,
        Alert.message (Overview.lowAverage today i who avg)
        = who ++ " has low average (" ++ Js.showFixed1 (Js.toFixed1 avg) ++ "/50)")
  /\ (exists idx,
        Obj.order (Spec.students marks)
        = (idx ++ filter (fun k => negb (Obj.isIndex k)) (Spec.students marks))%list
        /\ Permutation (filter Obj.isIndex (Spec.students marks)) idx
        /\ Sorted (fun a b => (Obj.indexOf a <= Obj.indexOf b)%N) idx)
  /\ (c = 6%nat ->
      Spec64.lowSubjects marks = [] ->
      Spec64.pendingRows marks = [] ->
      Overview64.computeAlerts today marks = Overview.criticalAlert today 6 6 :: W
      /\ length W = 5%nat
      /\ length (Overview64.computeAlerts today marks) = 6%nat).
Proof.
  intros R W c.
  assert (LR : length R = c) by apply atRisk_count64.
  assert (LW : length W = Nat.min 5 c).
  { unfold W. rewrite number_length, length_firstn, LR. reflexivity. }
  assert (RB : Overview.alerts (Overview64.raised today marks)
               = ((if (5 <? c)%nat
                   then [Overview.criticalAlert today (1 + Nat.min 5 c) c] else [])
                    ++ W
                    ++ Spec.number (Overview.lowClassAverage today)
                         (if (5 <? c)%nat then S (1 + Nat.min 5 c)
                          else (1 + Nat.min 5 c)%nat)
                         (Spec64.lowSubjects marks)
                    ++ (if (0 <? length (Spec64.pendingRows marks))%nat
                        then [Overview.pendingAlert today
                                (S (length (Spec64.before today marks)))
                                (length (Spec64.pendingRows marks))]
                        else []))%list).
  { rewrite raised64_before. unfold Spec64.before. fold R. rewrite LR. fold W.
    rewrite <- !app_assoc. reflexivity. }
  split; [rewrite riskLoop64_spec; reflexivity|].
  split; [exact LR|]. split; [apply atRiskStudents64_sound|].
  split; [exact LW|]. split; [lia|].
  split; [|split; [reflexivity|split; [apply order_shape|]]].
  - destruct (computeAlerts64_cases today marks) as [[E0 ->]|[Hne ->]].
    + rewrite RB in E0.
      apply app_eq_nil in E0. destruct E0 as [E1 E0].
      apply app_eq_nil in E0. destruct E0 as [E2 _].
      destruct (5 <? c)%nat; [discriminate|].
      rewrite E2. exists [Overview.allClear today]. reflexivity.
    + rewrite RB. destruct (5 <? c)%nat eqn:E.
      * apply Nat.ltb_lt in E. replace (Nat.min 5 c) with 5%nat by lia.
        eexists. reflexivity.
      * eexists. reflexivity.
  - intros C6 HL HP.
    assert (E : Overview64.computeAlerts today marks
                = Overview.criticalAlert today 6 6 :: W).
    { destruct (computeAlerts64_cases today marks) as [[E0 _]|[_ ->]].
      - rewrite RB, C6 in E0. discriminate.
      - rewrite RB, C6, HL, HP. cbn [length Nat.ltb Nat.leb Nat.min plus app Spec.number].
        rewrite app_nil_r. reflexivity. }
    split; [exact E|]. rewrite E. cbn [length]. rewrite LW, C6.
    split; reflexivity.
Qed.

(** C4, witness: six joined students at risk among twelve, in a subject
    whose mean is 30. *)
Lemma student_warnings_witness :
  Overview64.computeAlerts Sample.today More.sixOfTwelve
  = Overview.criticalAlert Sample.today 6 6
      :: Spec.number (Overview.lowAverage Sample.today) 1
           (firstn 5 (Spec64.atRiskStudents More.sixOfTwelve))
  /\ length (Spec.number (Overview.lowAverage Sample.today) 1
               (firstn 5 (Spec64.atRiskStudents More.sixOfTwelve))) = 5%nat
  /\ length (Overview64.computeAlerts Sample.today More.sixOfTwelve) = 6%nat.
Proof.
  apply (student_warnings Sample.today More.sixOfTwelve).
  - vm_compute. reflexivity.
  - vm_compute. reflexivity.
  - vm_compute. reflexivity.
Defined.

(** C4, as stated, fails: Bina (id 2) appears before Asha (id 1) and
    student 7 has a mean below 18 but no joined student row; the warnings
    are Asha's and then Bina's, not one per student with a mean below 18 in
    order of first appearance. *)
Lemma student_warnings_as_stated_fail :
  ~ Spec64.warnedAsStated Sample.outOfOrder
      (Overview.alerts (Overview64.riskLoop Sample.today Sample.outOfOrder))
  /\ length (Overview.alerts (Overview64.riskLoop Sample.today Sample.outOfOrder))
     <> length (firstn 5 (Spec64.belowThreshold Sample.outOfOrder)).
Proof.
  split; [|vm_compute; discriminate].
  unfold Spec64.warnedAsStated. intro H.
  assert (E1 : firstn 5 (Spec64.belowThreshold Sample.outOfOrder)
               = ["2"; "1"; "7"])
    by (vm_compute; reflexivity).
  assert (E2 : Overview.alerts (Overview64.riskLoop Sample.today Sample.outOfOrder)
               = [Overview.lowAverage Sample.today 1 "Asha" 10;
                  Overview.lowAverage Sample.today 2 "Bina" 12])
    by (vm_compute; reflexivity).
  rewrite E1, E2 in H.
  inversion H as [|k w ks ws [_ Hm] _]; subst.
  specialize (Hm (Student.mk "Bina") eq_refl).
  vm_compute in Hm. discriminate.
Qed.

(** A student with nine records of 18 marks and eleven of 17 has the mean
    349 / 20, which in binary64 lies below 17.45: the warnings print 17.4. *)
Example warning_prints_binary64 :
  map Alert.message (Overview64.computeAlerts Sample.today More.asha20)
  = ["Asha has low average (17.4/50)"; "Maths has low class average (17.4/50)"].
Proof. vm_compute. reflexivity. Qed.

(** ** The subject warnings *)

Lemma filter_perm {A : Type} (f : A -> bool) (l l' : list A) :
  Permutation l l' -> Permutation (filter f l) (filter f l').
Proof.
  induction 1 as [|x l l' _ IH|x y l|l l' l'' _ IH1 _ IH2]; cbn [filter].
  - constructor.
  - destruct (f x); [constructor|]; exact IH.
  - destruct (f x), (f y); try apply Permutation_refl. constructor.
  - exact (Permutation_trans IH1 IH2).
Qed.

Lemma lowSubjects64_names (marks : list Mark.t) :
  map fst (Spec64.lowSubjects marks)
  = filter (Spec64.low marks) (Obj.order (Spec.subjectNames marks)).
Proof.
  unfold Spec64.lowSubjects.
  induction (Obj.order (Spec.subjectNames marks)) as [|n ns IH];
    cbn [flat_map filter]; [reflexivity|].
  rewrite map_app, IH.
  destruct (Spec64.low marks n); reflexivity.
Qed.

(** The low subjects are the subjects with records whose mean is below 25,
    each with its mean. *)
Lemma lowSubjects64_In (marks : list Mark.t) (n : string) (q : Q) :
  In (n, q) (Spec64.lowSubjects marks)
  <-> Spec.recordsIn marks n <> []
      /\ Js.lt (Spec64.subjectMean marks n) 25 = true
      /\ q = Spec64.subjectMean marks n.
Proof.
  rewrite <- subjectNames_records.
  unfold Spec64.lowSubjects. rewrite in_flat_map. split.
  - intros [n' [Hn H]].
    apply (Permutation_in _ (Permutation_sym (order_perm _))) in Hn.
    unfold Spec64.low in H.
    destruct (Js.lt (Spec64.subjectMean marks n') 25) eqn:E; [|destruct H].
    destruct H as [H|[]]. injection H as -> <-.
    repeat split; assumption.
  - intros [Hn [E ->]]. exists n. split.
    + apply (Permutation_in _ (order_perm _)). exact Hn.
    + unfold Spec64.low. rewrite E. left. reflexivity.
Qed.

Lemma number_In mk (i : nat) (l : list (string * Q)) (n : string) (q : Q) :
  In (n, q) l -> exists j, In (mk j n q) (Spec.number mk i l).
Proof.
  revert i. induction l as [|[n' q'] l IH]; intros i H; [destruct H|].
  cbn [Spec.number]. destruct H as [H|H].
  - injection H as -> ->. exists i. left. reflexivity.
  - destruct (IH (S i) H) as [j Hj]. exists j. right. exact Hj.
Qed.

Lemma perfStep64_hasSubject (marks : list Mark.t) (o : Obj.t Overview.Perf.t) :
  fold_left Overview64.perfStep (filter Spec.hasSubject marks) o
  = fold_left Overview64.perfStep marks o.
Proof.
  revert o. induction marks as [|m marks IH]; intro o; cbn [filter fold_left];
    [reflexivity|].
  destruct (Spec.hasSubject m) eqn:H; cbn [fold_left]; [apply IH|].
  rewrite IH. f_equal. unfold Overview64.perfStep.
  unfold Spec.hasSubject in H.
  destruct (Mark.subject m); [discriminate|reflexivity].
Qed.

(** C5: the loop over the subjects appends one warning per subject that has
    records and whose mean, the binary64 sum of the scores of its records
    divided by their number, is below 25: every such subject is warned of
    exactly once, and no other subject is.  The warning names the subject
    and prints the mean as [toFixed(1)] does, over 50.  Records without a
    subject are skipped, so a subject without records has no property and
    its mean, which would divide by zero, is never computed. *)
Theorem subject_warnings (today : string) (marks : list Mark.t) :
  let L := Spec64.lowSubjects marks in
  let al := Overview64.computeAlerts today marks in
  (forall st,
      Overview.alerts (Overview64.subjectLoop today marks st)
      = (Overview.alerts st
           ++ Spec.number (Overview.lowClassAverage today) (Overview.alertId st) L)%list)
  /\ (exists i pre post,
        al = (pre ++ Spec.number (Overview.lowClassAverage today) i L ++ post)%list)
  /\ NoDup (map fst L)
  /\ Permutation (map fst L)
       (filter (Spec64.low marks) (Spec.subjectNames marks))
  /\ (forall n q,
        In (n, q) L
        <-> Spec.recordsIn marks n <> []
            /\ Js.lt (Spec64.subjectMean marks n) 25 = true
            /\ q = Spec64.subjectMean marks n)
  /\ (forall n,
        Spec.recordsIn marks n <> [] ->
        Spec64.subjectMean marks n < 25 ->
        exists i,
          In (Overview.lowClassAverage today i n (Spec64.subjectMean marks n)) al)
  /\ (forall i, length (Spec.number (Overview.lowClassAverage today) i L) = length L)
  /\ (forall i n q,
        Alert.message (Overview.lowClassAverage today i n q)
        = n ++ " has low class average (" ++ Js.showFixed1 (Js.toFixed1 q) ++ "/50)"
        /\ Alert.type (Overview.lowClassAverage today i n q) = Alert.warning)
  /\ Overview64.subjectPerf marks
     = Overview64.subjectPerf (filter Spec.hasSubject marks)
  /\ (forall n d,
        In (n, d) (Overview64.subjectPerf marks) ->
        (0 < Overview.Perf.count d)%nat
        /\ Overview.Perf.count d = length (Spec.recordsIn marks n)
        /\ Overview64.perfAvg d = Spec64.subjectMean marks n)
  /\ (forall n,
        Spec.recordsIn marks n = [] ->
        Obj.get (Overview64.subjectPerf marks) n = None).
Proof.
  intros L al.
  assert (POS : exists i pre post,
             al = (pre ++ Spec.number (Overview.lowClassAverage today) i L
                       ++ post)%list).
  { subst al.
    destruct (computeAlerts64_cases today marks) as [[E0 ->]|[_ ->]].
    - rewrite raised64_before in E0. apply app_eq_nil in E0.
      destruct E0 as [E0 _]. unfold Spec64.before in E0.
      apply app_eq_nil in E0. destruct E0 as [_ E0].
      apply app_eq_nil in E0. destruct E0 as [_ E0].
      assert (EL : L = []).
      { fold L in E0. destruct L as [|[n q] r]; [reflexivity|discriminate]. }
      exists 1%nat, [], [Overview.allClear today]. rewrite EL. reflexivity.
    - rewrite raised64_before. unfold Spec64.before. fold L.
      cbv zeta. do 2 rewrite <- app_assoc. rewrite app_assoc.
      eexists. eexists. eexists. reflexivity. }
  split; [intro st; rewrite subjectLoop64_spec; reflexivity|].
  split; [exact POS|].
  split; [unfold L; rewrite lowSubjects64_names; apply NoDup_filter;
          apply (Permutation_NoDup (order_perm _)), distinct_NoDup|].
  split; [unfold L; rewrite lowSubjects64_names; apply filter_perm,
          Permutation_sym, order_perm|].
  split; [intros n q; apply lowSubjects64_In|].
  split; [|split; [intro i; apply number_length|split; [intros; split; reflexivity|]]].
  - intros n Hr Hlt.
    assert (HIn : In (n, Spec64.subjectMean marks n) L).
    { apply lowSubjects64_In. repeat split; [exact Hr|apply lt_iff; exact Hlt]. }
    destruct POS as [i [pre [post ->]]].
    destruct (number_In (Overview.lowClassAverage today) i L _ _ HIn) as [j Hj].
    exists j. apply in_or_app. right. apply in_or_app. left. exact Hj.
  - split; [|split].
    + unfold Overview64.subjectPerf. symmetry. apply perfStep64_hasSubject.
    + intros n d H. destruct (subjectPerf64_entry marks n d H) as [A [B C]].
      repeat split; assumption.
    + intros n Hr.
      destruct (Obj.get (Overview64.subjectPerf marks) n) as [d|] eqn:G;
        [|reflexivity].
      apply get_In in G.
      destruct (subjectPerf64_entry marks n d G) as [_ [B C]].
      rewrite Hr in C. cbn [length] in C. lia.
Qed.

(** C5, witness: Maths, with three records of 10 marks, is warned of. *)
Lemma subject_warnings_witness :
  exists i,
    In (Overview.lowClassAverage Sample.today i "Maths"
          (Spec64.subjectMean Sample.tens "Maths"))
       (Overview64.computeAlerts Sample.today Sample.tens).
Proof.
  apply (subject_warnings Sample.today Sample.tens).
  - vm_compute. discriminate.
  - vm_compute. reflexivity.
Defined.

Example subject_warning_tens64 :
  Overview64.computeAlerts Sample.today Sample.tens
  = [Overview.lowClassAverage Sample.today 1 "Maths" 10].
Proof. vm_compute. reflexivity. Qed.

(** ** The pending alert and the positive alert *)

(** C6: with p the number of rows whose status is PENDING, the alerts raised
    are those of the student and subject steps followed, when p is positive,
    by one info alert with the next id saying that p mark entries are still
    pending review; when nothing at all was raised the list is the single
    positive alert with id 1, and otherwise the positive alert is absent. *)
Theorem pending_and_all_clear (today : string) (marks : list Mark.t) :
  let rows := Spec64.pendingRows marks in
  let p := length rows in
  let before := Spec64.before today marks in
  let raised := Overview.alerts (Overview64.raised today marks) in
  let al := Overview64.computeAlerts today marks in
  rows = filter (fun m => String.eqb (Mark.status m) "PENDING") marks
  /\ (forall m, In m rows <-> In m marks /\ Mark.status m = "PENDING")
  /\ Overview.pendingCount marks = p
  /\ Forall (fun a => Alert.type a <> Alert.info) before
  /\ ((0 < p)%nat ->
      raised = (before ++ [Overview.pendingAlert today (S (length before)) p])%list)
  /\ (p = 0%nat -> raised = before)
  /\ (forall i n,
        Overview.pendingAlert today i n
        = Alert.mk i Alert.info
            (Js.showNat n ++ " mark entries are still pending review") today)
  /\ (raised = [] -> al = [Overview.allClear today])
  /\ (raised <> [] -> al = raised /\ ~ In (Overview.allClear today) al)
  /\ Overview.allClear today
     = Alert.mk 1 Alert.info
         "All department metrics are within acceptable range" today
  /\ ((0 < p)%nat -> before = [] -> al = [Overview.pendingAlert today 1 p]).
Proof.
  intros rows p before raised al.
  assert (RB : raised
               = (before ++ (if (0 <? p)%nat
                             then [Overview.pendingAlert today (S (length before)) p]
                             else []))%list)
    by apply raised64_before.
  assert (NI : ~ In (Overview.allClear today) raised).
  { rewrite RB. intro H. apply in_app_or in H. destruct H as [H|H].
    - pose proof (before64_types today marks) as F.
      rewrite Forall_forall in F. apply (F _ H). reflexivity.
    - destruct (0 <? p)%nat; [|destruct H].
      destruct H as [H|[]]. exact (pending_not_allClear _ _ _ _ H). }
  split; [reflexivity|].
  split.
  { intro m. unfold rows, Spec64.pendingRows. rewrite filter_In, String.eqb_eq.
    reflexivity. }
  split; [reflexivity|]. split; [apply before64_types|].
  split.
  { intro H. rewrite RB. apply Nat.ltb_lt in H. rewrite H. reflexivity. }
  split.
  { intro H. rewrite RB, H. cbn [Nat.ltb Nat.leb]. apply app_nil_r. }
  split; [reflexivity|].
  split.
  { intro H. destruct (computeAlerts64_cases today marks) as [[_ E]|[N _]];
      [exact E|contradiction]. }
  split.
  { intro H. destruct (computeAlerts64_cases today marks) as [[E _]|[_ E]];
      [contradiction|].
    split; [exact E|]. unfold al. rewrite E. exact NI. }
  split; [reflexivity|].
  intros H B.
  destruct (computeAlerts64_cases today marks) as [[E _]|[_ E]].
  - exfalso. fold raised in E. rewrite RB in E. apply Nat.ltb_lt in H.
    rewrite H in E. destruct before; discriminate.
  - unfold al. rewrite E. fold raised. rewrite RB, B.
    apply Nat.ltb_lt in H. rewrite H. reflexivity.
Qed.

(** C6, witness: three pending rows of students who are not at risk, in a
    subject whose mean is 35. *)
Lemma pending_and_all_clear_witness :
  Overview64.computeAlerts Sample.today Sample.pending3
  = [Overview.pendingAlert Sample.today 1 3].
Proof.
  apply (pending_and_all_clear Sample.today Sample.pending3).
  - vm_compute. lia.
  - vm_compute. reflexivity.
Defined.

(** ** POST /faculty with any JSON value as password *)

Lemma shown_message (msg : string) :
  Js.orStr (Some msg) "Internal server error" <> ""
  /\ (msg <> "" -> Js.orStr (Some msg) "Internal server error" = msg)
  /\ (msg = "" -> Js.orStr (Some msg) "Internal server error"
                  = "Internal server error").
Proof.
  destruct msg as [|c r]; cbn [Js.orStr].
  - split; [discriminate|]. split; [congruence | reflexivity].
  - split; [discriminate|]. split; [reflexivity | discriminate].
Qed.

(** X14: the response is 201 with the new id exactly when [bcrypt.hash]
    resolves and [User.create] returns a row.  When [bcrypt.hash] rejects, as
    it does for a password that is not a string, [User.create] is not called
    and the response is 500; when [User.create] rejects, the response is 500
    too.  The message of a 500 is never empty: it is the error's own message,
    or "Internal server error" in its place. *)
Theorem post_faculty_response
    (bcrypt_hash : FacultyJson.Value -> nat -> FacultyJson.Hashed)
    (User_create : User.t -> Faculty.Created) (body : FacultyJson.Request) :
  let run := FacultyJson.handler bcrypt_hash User_create body in
  let data := FacultyJson.orDefault (FacultyJson.req_password body) in
  let row h :=
    User.mk (FacultyJson.req_username body) (FacultyJson.req_fullName body)
            (FacultyJson.req_email body) h "FACULTY"
            (FacultyJson.req_department body) (FacultyJson.req_username body) in
  let shown msg := Js.orStr (Some msg) "Internal server error" in
  (forall msg,
      bcrypt_hash data 10%nat = FacultyJson.HashError msg ->
      FacultyJson.created run = None
      /\ FacultyJson.response run
         = Faculty.mkResponse 500 (Faculty.Failure (shown msg)))
  /\ (forall h id,
        bcrypt_hash data 10%nat = FacultyJson.Hash h ->
        User_create (row h) = Faculty.Row id ->
        FacultyJson.created run = Some (row h)
        /\ FacultyJson.response run
           = Faculty.mkResponse 201
               (Faculty.Success "Faculty created successfully" id))
  /\ (forall h msg,
        bcrypt_hash data 10%nat = FacultyJson.Hash h ->
        User_create (row h) = Faculty.Rejected msg ->
        FacultyJson.created run = Some (row h)
        /\ FacultyJson.response run
           = Faculty.mkResponse 500 (Faculty.Failure (shown msg)))
  /\ (forall msg,
        shown msg <> ""
        /\ (msg <> "" -> shown msg = msg)
        /\ (msg = "" -> shown msg = "Internal server error"))
  /\ (Faculty.status (FacultyJson.response run) = 201%nat
      <-> exists h id,
            bcrypt_hash data 10%nat = FacultyJson.Hash h
            /\ User_create (row h) = Faculty.Row id)
  /\ (Faculty.status (FacultyJson.response run) = 201%nat
      \/ Faculty.status (FacultyJson.response run) = 500%nat)
  /\ (FacultyJson.truthy (FacultyJson.req_password body) = false ->
      data = FacultyJson.Text "password123")
  /\ (forall v,
        FacultyJson.req_password body = Some v ->
        FacultyJson.truthy (Some v) = true ->
        data = v).
Proof.
  intros run data row shown. subst run. unfold FacultyJson.handler.
  fold data.
  split; [intros msg E; rewrite E; split; reflexivity|].
  split; [intros h id E C; rewrite E; cbv zeta; fold (row h); rewrite C;
          split; reflexivity|].
  split; [intros h msg E C; rewrite E; cbv zeta; fold (row h); rewrite C;
          split; reflexivity|].
  split; [intro msg; apply shown_message|].
  split; [|split; [|split]].
  - destruct (bcrypt_hash data 10%nat) as [h|msg] eqn:E; cbv zeta.
    + fold (row h). destruct (User_create (row h)) as [id|msg] eqn:C;
        cbn [FacultyJson.response Faculty.status].
      * split; [intros _; exists h, id; split; [reflexivity|exact C]|reflexivity].
      * split; [discriminate|].
        intros [h' [id [Eh C']]]. injection Eh as <-. congruence.
    + cbn [FacultyJson.response Faculty.status].
      split; [discriminate|]. intros [h [id [Eh _]]]. discriminate.
  - destruct (bcrypt_hash data 10%nat) as [h|msg]; cbv zeta.
    + destruct (User_create _); [left|right]; reflexivity.
    + right. reflexivity.
  - unfold data, FacultyJson.orDefault. intro T.
    destruct (FacultyJson.req_password body) as [v|]; [|reflexivity].
    rewrite T. reflexivity.
  - unfold data, FacultyJson.orDefault. intros v -> T.
    rewrite T. reflexivity.
Qed.

(** X14, witness: the password 12345, a JSON number, makes [bcrypt.hash]
    reject; no row is created and the response is 500. *)
Lemma post_faculty_response_witness :
  FacultyJson.created
    (FacultyJson.handler More.hashText Sample.createFirst More.numericPassword)
  = None
  /\ FacultyJson.response
       (FacultyJson.handler More.hashText Sample.createFirst More.numericPassword)
     = Faculty.mkResponse 500
         (Faculty.Failure "Illegal arguments: number, number").
Proof.
  exact (proj1 (post_faculty_response More.hashText Sample.createFirst
                  More.numericPassword)
               "Illegal arguments: number, number" eq_refl).
Defined.

(** ** The order of the rows *)

Lemma students_length_perm (marks marks' : list Mark.t) :
  Permutation marks marks' ->
  length (Spec.students marks) = length (Spec.students marks').
Proof.
  intro P. apply Permutation_length.
  apply NoDup_Permutation; try apply distinct_NoDup.
  intro k. rewrite !students_spec.
  split; intros [m [Hm E]]; exists m; split; try exact E.
  - exact (Permutation_in _ P Hm).
  - exact (Permutation_in _ (Permutation_sym P) Hm).
Qed.

Lemma totalStudents64 (marks : list Mark.t) :
  Analytics.totalStudents (Analytics64.stats marks)
  = length (Spec.students marks).
Proof.
  destruct marks as [|m marks]; [reflexivity|].
  rewrite stats64_eq by discriminate. reflexivity.
Qed.

(** X8: the number of students in the department statistics does not depend
    on the order in which the mark rows are returned.  The other figures
    can: a student's sum is taken in binary64 in row order, and the marks
    0.3, 32.3, 21.4 sum to just below 54, a mean below 18 and a student at
    risk, while 0.3, 21.4, 32.3 sum to 54, a mean of 18 and no student at
    risk. *)
Theorem stats_order (marks marks' : list Mark.t) :
  Permutation marks marks' ->
  Analytics.totalStudents (Analytics64.stats marks)
  = Analytics.totalStudents (Analytics64.stats marks')
  /\ Permutation More.decimals More.decimals'
  /\ Analytics.atRiskCount (Analytics64.stats More.decimals) = 1%nat
  /\ Analytics.atRiskCount (Analytics64.stats More.decimals') = 0%nat.
Proof.
  intro P. split; [|split; [|split]].
  - rewrite !totalStudents64. apply students_length_perm, P.
  - unfold More.decimals, More.decimals'. cbn [map].
    apply perm_skip, perm_swap.
  - vm_compute. reflexivity.
  - vm_compute. reflexivity.
Qed.

(** X8, witness: the two orders of the three rows. *)
Lemma stats_order_witness :
  Analytics.totalStudents (Analytics64.stats More.decimals)
  = Analytics.totalStudents (Analytics64.stats More.decimals').
Proof.
  apply (stats_order More.decimals More.decimals').
  unfold More.decimals, More.decimals'. cbn [map].
  apply perm_skip, perm_swap.
Defined.

(** The student with the marks 0.3, 32.3 and 21.4 is warned of, with the
    mean printed as 18.0. *)
Example warning_at_threshold :
  map Alert.message (Overview64.computeAlerts Sample.today More.decimals)
  = ["Asha has low average (18.0/50)"; "Maths has low class average (18.0/50)"].
Proof. vm_compute. reflexivity. Qed.
